(** * fts-collector: the FTS scraper and its CSV export, embedded in Rocq

    [scraper.py] holds two layers.  The fetch layer ([fts_queries]) builds a
    URL, hands it to [pd.read_json] and post-processes the resulting pandas
    table; the export layer fetches tables, concatenates them and writes them
    with [DataFrame.to_csv] below an output directory.

    The scraper's own functions are transcribed one by one, under their
    Python names.  What they call in pandas and in [os] is library code; it
    is modelled here by small executable definitions (modules [pd], [DF],
    [os_path], [os]) that follow the documented behaviour of those
    libraries on the data the scraper handles:

    - a response body is a JSON value ([json]); JSON numbers are integers;
    - a table ([DataFrame]) is column oriented: a row index (optional name
      and one label per row) and an ordered list of labelled columns.
      Column order is order of first appearance; no statement below depends
      on it.  Dtype inference is not modelled: a cell is the JSON value it
      was read from, [NaN] when missing, or a timestamp;
    - a Python exception is a value of [exn]; [Unmodelled] marks library
      behaviour this development does not describe, and no theorem relies
      on it;
    - the remote API is a function from URLs to responses that does not
      change during a run; the file system is a set of directories and a
      finite map from paths to written CSV tables. *)

From Stdlib Require Import String Ascii List ZArith Lia Bool DecimalString.
Import ListNotations.
Local Open Scope string_scope.
Local Open Scope list_scope.
Set Warnings "-register-all".

(** ** Python values and exceptions *)

(** A column label: a string key, or a position when pandas numbers the
    columns itself. *)
Inductive label : Type :=
| LStr (s : string)
| LPos (n : nat).

Inductive exn : Type :=
| KeyError (key : label)
| ValueError (msg : string)
| TypeError (msg : string)
| AttributeError (msg : string)
| IOError (path : string)
| OSError (path : string)
| URLError (url : string)
| Unmodelled (what : string).

Inductive result (A : Type) : Type :=
| Ok (a : A)
| Raise (e : exn).

Arguments Ok {A} a.
Arguments Raise {A} e.

Definition rbind {A B} (r : result A) (k : A -> result B) : result B :=
  match r with
  | Ok a => k a
  | Raise e => Raise e
  end.

Fixpoint rmap {A B} (f : A -> result B) (l : list A) : result (list B) :=
  match l with
  | [] => Ok []
  | x :: l' =>
      rbind (f x) (fun y => rbind (rmap f l') (fun ys => Ok (y :: ys)))
  end.

Inductive json : Type :=
| JNull
| JBool (b : bool)
| JNum (z : Z)
| JStr (s : string)
| JArr (items : list json)
| JObj (fields : list (string * json)).

(** A cell of a table.  Timestamps are nanoseconds since the epoch, as in
    [pandas.Timestamp]. *)
Inductive cell : Type :=
| NaN
| CJson (j : json)
| Timestamp (ns : Z).

Definition label_eqb (a b : label) : bool :=
  match a, b with
  | LStr s, LStr t => String.eqb s t
  | LPos n, LPos m => Nat.eqb n m
  | _, _ => false
  end.

Definition label_mem (a : label) (l : list label) : bool :=
  existsb (label_eqb a) l.

Record DataFrame : Type := mkFrame {
  index_name : option label;
  index : list cell;
  data : list (label * list cell)
}.

(** [dataframe.columns] *)
Definition columns (df : DataFrame) : list label := map fst (data df).

Definition nrows (df : DataFrame) : nat := List.length (index df).

(** Every column holds one cell per row. *)
Definition well_formed (df : DataFrame) : Prop :=
  Forall (fun col => List.length (snd col) = nrows df) (data df).

Definition cell_of_json (j : json) : cell :=
  match j with
  | JNull => NaN
  | _ => CJson j
  end.

(** [str(x)] for the scalars that occur as entity ids. *)
Definition py_str (c : cell) : result string :=
  match c with
  | CJson (JNum z) => Ok (NilZero.string_of_int (Z.to_int z))
  | CJson (JStr s) => Ok s
  | CJson (JBool true) => Ok "True"
  | CJson (JBool false) => Ok "False"
  | _ => Raise (Unmodelled "str of a non-scalar cell")
  end.

(** Truth value of an optional string argument ([if country:]): [None] and
    the empty string are both false. *)
Definition truthy (o : option string) : option string :=
  match o with
  | Some "" => None
  | _ => o
  end.

(** ** String helpers: [str.startswith], [str.endswith] *)

Definition slash : ascii := "/"%char.

Definition is_slash (c : ascii) : bool := Ascii.eqb c slash.

Definition startswith_slash (s : string) : bool :=
  match s with
  | String c _ => is_slash c
  | EmptyString => false
  end.

Fixpoint endswith_slash (s : string) : bool :=
  match s with
  | EmptyString => false
  | String c EmptyString => is_slash c
  | String _ s' => endswith_slash s'
  end.

Fixpoint has_slash (s : string) : bool :=
  match s with
  | EmptyString => false
  | String c s' => is_slash c || has_slash s'
  end.

(** ** pandas: building tables

    [frame_of_rows] is what the [DataFrame] constructor and
    [DataFrame.from_records] do with a non-empty sequence of rows, deciding
    on the type of the first one: a sequence of dicts gives one column per
    distinct key, a sequence of sequences gives positional columns. *)

Fixpoint dict_get (k : string) (fields : list (string * json)) : option json :=
  match fields with
  | [] => None
  | (k', v) :: rest =>
      match dict_get k rest with
      | Some v' => Some v'   (* a repeated key: the last value wins *)
      | None => if String.eqb k k' then Some v else None
      end
  end.

Fixpoint uniq (seen : list label) (l : list label) : list label :=
  match l with
  | [] => []
  | x :: l' =>
      if label_mem x seen then uniq seen l' else x :: uniq (x :: seen) l'
  end.

Definition range_index (n : nat) : list cell :=
  map (fun i => CJson (JNum (Z.of_nat i))) (seq 0 n).

Definition empty_frame : DataFrame := mkFrame None [] [].

Definition as_dict (c : cell) : result (list (string * json)) :=
  match c with
  | CJson (JObj fields) => Ok fields
  | _ => Raise (AttributeError "keys")
  end.

(** [tuple(x)] / [list(x)] of a row that is not a dict. *)
Definition as_row (c : cell) : result (list cell) :=
  match c with
  | CJson (JArr items) => Ok (map cell_of_json items)
  | CJson (JObj fields) =>
      Ok (map (fun kv => CJson (JStr (fst kv))) fields)
  | CJson (JStr s) =>
      Ok (map (fun ch => CJson (JStr (String ch ""))) (list_ascii_of_string s))
  | _ => Raise (TypeError "object is not iterable")
  end.

Definition frame_of_dicts (rows : list cell) : result DataFrame :=
  rbind (rmap as_dict rows) (fun ds =>
    let keys := uniq [] (flat_map (fun d => map (fun kv => LStr (fst kv)) d) ds) in
    let column_of (l : label) : list cell :=
      map (fun d =>
             match l with
             | LStr k =>
                 match dict_get k d with
                 | Some v => cell_of_json v
                 | None => NaN
                 end
             | LPos _ => NaN
             end) ds in
    Ok (mkFrame None (range_index (List.length ds))
                (map (fun l => (l, column_of l)) keys))).

Definition frame_of_lists (rows : list cell) : result DataFrame :=
  rbind (rmap as_row rows) (fun rs =>
    let width := fold_right Nat.max 0 (map (@List.length cell) rs) in
    Ok (mkFrame None (range_index (List.length rs))
                (map (fun j => (LPos j, map (fun r => nth j r NaN) rs))
                     (seq 0 width)))).

Definition is_dict (c : cell) : bool :=
  match c with
  | CJson (JObj _) => true
  | _ => false
  end.

Definition is_list (c : cell) : bool :=
  match c with
  | CJson (JArr _) => true
  | _ => false
  end.

Definition frame_of_rows (rows : list cell) : result DataFrame :=
  match rows with
  | [] => Ok empty_frame
  | first :: _ =>
      if is_dict first then frame_of_dicts rows else frame_of_lists rows
  end.

(** One column of a [DataFrame(dict)]: a list gives the cells, a scalar is
    repeated for every row. *)
Inductive dict_column : Type :=
| Cells (l : list cell)
| Scalar (c : cell).

Definition dict_column_of (j : json) : result dict_column :=
  match j with
  | JArr items => Ok (Cells (map cell_of_json items))
  | JObj _ => Raise (Unmodelled "DataFrame from a dict of dicts")
  | _ => Ok (Scalar (cell_of_json j))
  end.

Definition cells_length (c : dict_column) : option nat :=
  match c with
  | Cells l => Some (List.length l)
  | Scalar _ => None
  end.

Fixpoint first_some {A} (l : list (option A)) : option A :=
  match l with
  | [] => None
  | Some a :: _ => Some a
  | None :: l' => first_some l'
  end.

Definition frame_of_dict (fields : list (string * json)) : result DataFrame :=
  let keys := uniq [] (map (fun kv => LStr (fst kv)) fields) in
  let value_of (l : label) : json :=
    match l with
    | LStr k => match dict_get k fields with Some v => v | None => JNull end
    | LPos _ => JNull
    end in
  rbind (rmap (fun l => rbind (dict_column_of (value_of l))
                              (fun c => Ok (l, c))) keys) (fun cols =>
    match cols with
    | [] => Ok empty_frame
    | _ =>
        match first_some (map (fun lc => cells_length (snd lc)) cols) with
        | None =>
            Raise (ValueError "If using all scalar values, you must pass an index")
        | Some n =>
            if forallb (fun lc => match cells_length (snd lc) with
                                  | Some m => Nat.eqb m n
                                  | None => true
                                  end) cols
            then Ok (mkFrame None (range_index n)
                       (map (fun lc => (fst lc,
                                        match snd lc with
                                        | Cells l => l
                                        | Scalar c => repeat c n
                                        end)) cols))
            else Raise (ValueError "arrays must all be same length")
        end
    end).

(** ** pandas: [DataFrame] methods *)

Module DF.

(** [df.empty]: some axis has length 0. *)
Definition empty (df : DataFrame) : bool :=
  match index df, data df with
  | [], _ => true
  | _, [] => true
  | _, _ => false
  end.

Definition get_column (l : label) (df : DataFrame) : option (list cell) :=
  option_map snd (find (fun col => label_eqb l (fst col)) (data df)).

(** [df[l]] *)
Definition getitem (l : label) (df : DataFrame) : result (list cell) :=
  match get_column l df with
  | Some c => Ok c
  | None => Raise (KeyError l)
  end.

(** [df.name], attribute access to a column. *)
Definition getattr (name : string) (df : DataFrame) : result (list cell) :=
  match get_column (LStr name) df with
  | Some c => Ok c
  | None => Raise (AttributeError name)
  end.

(** [df[l] = values]: replaces the column in place, or appends it. *)
Definition setitem (l : label) (values : list cell) (df : DataFrame)
  : DataFrame :=
  if label_mem l (columns df)
  then mkFrame (index_name df) (index df)
         (map (fun col => if label_eqb l (fst col) then (fst col, values)
                          else col) (data df))
  else mkFrame (index_name df) (index df) (data df ++ [(l, values)]).

(** [df.set_index(l)], with the default [drop=True]. *)
Definition set_index (l : label) (df : DataFrame) : result DataFrame :=
  match get_column l df with
  | Some values =>
      Ok (mkFrame (Some l) values
            (filter (fun col => negb (label_eqb l (fst col))) (data df)))
  | None => Raise (KeyError l)
  end.

Fixpoint renamed (mapping : list (label * label)) (l : label) : label :=
  match mapping with
  | [] => l
  | (old, new) :: mapping' =>
      if label_eqb l old then new else renamed mapping' l
  end.

(** [df.rename(columns=mapping)] *)
Definition rename (mapping : list (label * label)) (df : DataFrame)
  : DataFrame :=
  mkFrame (index_name df) (index df)
    (map (fun col => (renamed mapping (fst col), snd col)) (data df)).

(** [series.apply(f)] *)
Definition apply (f : cell -> result cell) (values : list cell)
  : result (list cell) :=
  rmap f values.

End DF.

(** ** pandas: module-level functions *)

Definition option_label_eqb (a b : option label) : bool :=
  match a, b with
  | Some x, Some y => label_eqb x y
  | None, None => true
  | _, _ => false
  end.

Module pd.

(** [pd.read_json] applied to an already received body. *)
Definition read_json_body (body : json) : result DataFrame :=
  match body with
  | JArr items =>
      match items with
      | [] => Ok empty_frame
      | first :: _ =>
          match first with
          | JObj _ | JArr _ => frame_of_rows (map cell_of_json items)
          | _ =>
              Ok (mkFrame None (range_index (List.length items))
                          [(LPos 0, map cell_of_json items)])
          end
      end
  | JObj fields => frame_of_dict fields
  | _ => Raise (ValueError "Expected object or value")
  end.

(** [pd.DataFrame.from_records(values)] on the cells of a column. *)
Definition from_records (values : list cell) : result DataFrame :=
  frame_of_rows values.

(** [pd.concat(frames)]: rows one after the other, columns by label
    (outer join, a missing column filled with [NaN]). *)
Definition concat (frames : list DataFrame) : result DataFrame :=
  match frames with
  | [] => Raise (ValueError "No objects to concatenate")
  | first :: rest =>
      let labels := uniq [] (flat_map columns frames) in
      let column_of (l : label) : list cell :=
        flat_map (fun df =>
                    match DF.get_column l df with
                    | Some c => c
                    | None => repeat NaN (nrows df)
                    end) frames in
      Ok (mkFrame
            (if forallb (fun df => option_label_eqb (index_name df)
                                     (index_name first)) rest
             then index_name first else None)
            (flat_map index frames)
            (map (fun l => (l, column_of l)) labels))
  end.

End pd.

(** ** CSV files

    A written file is kept as the table of its cells: the header line and
    one line per row, each starting with the row's index label
    ([index=True]).  Quoting, number formatting and the UTF-8 encoding of
    the text are below this model. *)

Record csv_file : Type := mkCsv {
  csv_header : list string;
  csv_rows : list (list cell)
}.

Definition label_str (l : label) : string :=
  match l with
  | LStr s => s
  | LPos n => NilZero.string_of_uint (Nat.to_uint n)
  end.

Fixpoint rows_of (idx : list cell) (cols : list (list cell))
  : list (list cell) :=
  match idx with
  | [] => []
  | i :: idx' =>
      (i :: map (hd NaN) cols) :: rows_of idx' (map (@tl cell) cols)
  end.

Definition csv_of_frame (df : DataFrame) : csv_file :=
  mkCsv (match index_name df with
         | Some l => label_str l
         | None => ""
         end :: map label_str (columns df))
        (rows_of (index df) (map snd (data df))).

(** ** [os.path]: paths are plain strings *)

Fixpoint drop_while (p : ascii -> bool) (l : list ascii) : list ascii :=
  match l with
  | [] => []
  | c :: l' => if p c then drop_while p l' else l
  end.

Fixpoint prefixes_before_slash (seen rest : string) : list string :=
  match rest with
  | EmptyString => []
  | String c rest' =>
      (if is_slash c && negb (String.eqb seen "") && negb (endswith_slash seen)
       then [seen] else [])
      ++ prefixes_before_slash (seen ++ String c "") rest'
  end.

Module os_path.

(** [posixpath.join(a, b)] *)
Definition join (a b : string) : string :=
  if startswith_slash b then b
  else if String.eqb a "" || endswith_slash a then a ++ b
  else a ++ "/" ++ b.

(** [posixpath.join(a, *p)] *)
Definition join_all (a : string) (p : list string) : string :=
  fold_left join p a.

(** [posixpath.dirname(p)]: everything up to the last slash, trailing
    slashes stripped unless nothing else is left. *)
Definition dirname (p : string) : string :=
  let head :=
    drop_while (fun c => negb (is_slash c)) (rev (list_ascii_of_string p)) in
  if forallb is_slash head then string_of_list_ascii (rev head)
  else string_of_list_ascii (rev (drop_while is_slash head)).

(** The directories that must exist for [p] to exist. *)
Definition ancestors (p : string) : list string :=
  prefixes_before_slash "" p.

End os_path.

(** ** The fetch layer's effects

    A fetch reads the remote API and issues requests; nothing else.  A
    computation of the fetch layer is a function of the API that returns a
    result or an exception, and the URLs requested, in order. *)

Definition remote : Type := string -> result json.

Definition F (A : Type) : Type := remote -> result A * list string.

Definition fret {A} (a : A) : F A := fun _ => (Ok a, []).

Definition flift {A} (r : result A) : F A := fun _ => (r, []).

Definition fbind {A B} (m : F A) (k : A -> F B) : F B :=
  fun api =>
    match m api with
    | (Ok a, t) => let (r, t') := k a api in (r, t ++ t')
    | (Raise e, t) => (Raise e, t)
    end.

Declare Scope fetch_scope.
Delimit Scope fetch_scope with fetch.
Notation "x <- c ;; k" := (fbind c (fun x => k))
  (at level 61, c at next level, right associativity) : fetch_scope.

Fixpoint fmapM {A B} (f : A -> F B) (l : list A) : F (list B) :=
  match l with
  | [] => fret []
  | x :: l' => fbind (f x) (fun y => fbind (fmapM f l') (fun ys => fret (y :: ys)))
  end.

(** [pd.read_json(url)]: one GET request, then the body is turned into a
    table. *)
Definition read_json (url : string) : F DataFrame :=
  fun api => (rbind (api url) pd.read_json_body, [url]).

(** ** The export layer's effects: requests, the file system, the console *)

Record World : Type := mkWorld {
  api : remote;
  requests : list string;
  dirs : list string;
  files : list (string * csv_file);
  stdout : list string
}.

Definition M (A : Type) : Type := World -> result A * World.

Definition mret {A} (a : A) : M A := fun w => (Ok a, w).

Definition mbind {A B} (m : M A) (k : A -> M B) : M B :=
  fun w =>
    match m w with
    | (Ok a, w') => k a w'
    | (Raise e, w') => (Raise e, w')
    end.

Declare Scope export_scope.
Delimit Scope export_scope with export.
Notation "x <~ c ;; k" := (mbind c (fun x => k))
  (at level 61, c at next level, right associativity) : export_scope.
Notation "c ;;; k" := (mbind c (fun _ => k))
  (at level 61, right associativity) : export_scope.

Fixpoint mmapM {A B} (f : A -> M B) (l : list A) : M (list B) :=
  match l with
  | [] => mret []
  | x :: l' => mbind (f x) (fun y => mbind (mmapM f l') (fun ys => mret (y :: ys)))
  end.

(** A call from the export layer into the fetch layer. *)
Definition fts_queries {A} (f : F A) : M A :=
  fun w =>
    let (r, t) := f (api w) in
    (r, mkWorld (api w) (requests w ++ t) (dirs w) (files w) (stdout w)).

Definition print (line : string) : M unit :=
  fun w => (Ok tt, mkWorld (api w) (requests w) (dirs w) (files w)
                     (stdout w ++ [line])).

Fixpoint file_at (path : string) (fs : list (string * csv_file))
  : option csv_file :=
  match fs with
  | [] => None
  | (p, c) :: fs' => if String.eqb path p then Some c else file_at path fs'
  end.

Definition is_dir (path : string) (w : World) : bool :=
  String.eqb path "/" || existsb (String.eqb path) (dirs w).

Module os.

(** [os.path.exists(path)] *)
Definition path_exists (path : string) : M bool :=
  fun w => (Ok (is_dir path w
                || match file_at path (files w) with
                   | Some _ => true
                   | None => false
                   end), w).

(** [os.makedirs(path)]: fails when the leaf exists, otherwise creates it
    together with every missing intermediate directory. *)
Definition makedirs (path : string) : M unit :=
  fun w =>
    if is_dir path w
       || match file_at path (files w) with
          | Some _ => true
          | None => false
          end
    then (Raise (OSError path), w)
    else (Ok tt,
          mkWorld (api w) (requests w)
            (path :: filter (fun d => negb (is_dir d w))
                       (os_path.ancestors path) ++ dirs w)
            (files w) (stdout w)).

End os.

(** A file can be created at [path]: its directory exists ([""] is the
    working directory). *)
Definition writable (path : string) (w : World) : bool :=
  String.eqb (os_path.dirname path) "" || is_dir (os_path.dirname path) w.

(** [dataframe.to_csv(path, index=True, encoding='utf-8')]: the file is
    created or replaced. *)
Definition to_csv (dataframe : DataFrame) (path : string) : M unit :=
  fun w =>
    if writable path w
    then (Ok tt,
          mkWorld (api w) (requests w) (dirs w)
            ((path, csv_of_frame dataframe) :: files w) (stdout w))
    else (Raise (IOError path), w).

(** ** scraper.py, fetch layer *)

Definition FTS_BASE_URL : string := "http://fts.unocha.org/api/v1/".
Definition JSON_SUFFIX : string := ".json".

Section FetchLayer.

Local Open Scope fetch_scope.

(** [pd.datetools.parse], the date parser: [None] when the text is not a
    date. *)
Variable parse : string -> option Z.

(** The parser applied to a cell; only text can be parsed. *)
Definition parse_cell (c : cell) : result cell :=
  match c with
  | CJson (JStr s) =>
      match parse s with
      | Some ns => Ok (Timestamp ns)
      | None => Raise (ValueError "unknown string format")
      end
  | _ => Raise (TypeError "parse expects a string")
  end.

Definition fetch_json_as_dataframe (url : string) : F DataFrame :=
  read_json url.

Definition fetch_json_as_dataframe_with_id (url : string) : F DataFrame :=
  dataframe <- fetch_json_as_dataframe url ;;
  if label_mem (LStr "id") (columns dataframe)
  then flift (DF.set_index (LStr "id") dataframe)
  else fret dataframe.  (* happens with an empty result *)

Definition build_json_url (middle_part : string) : string :=
  FTS_BASE_URL ++ middle_part ++ JSON_SUFFIX.

(** The Python function updates the table in place and returns nothing;
    here the updated table is returned. *)
Fixpoint convert_date_columns_from_string_to_timestamp
  (dataframe : DataFrame) (column_names : list string) : result DataFrame :=
  match column_names with
  | [] => Ok dataframe
  | column_name :: column_names' =>
      rbind (DF.getitem (LStr column_name) dataframe) (fun series =>
      rbind (DF.apply parse_cell series) (fun converted =>
        convert_date_columns_from_string_to_timestamp
          (DF.setitem (LStr column_name) converted dataframe)
          column_names'))
  end.

Definition fetch_sectors_json_as_dataframe : F DataFrame :=
  fetch_json_as_dataframe_with_id (build_json_url "Sector").

Definition fetch_countries_json_as_dataframe : F DataFrame :=
  fetch_json_as_dataframe_with_id (build_json_url "Country").

Definition fetch_organizations_json_as_dataframe : F DataFrame :=
  fetch_json_as_dataframe_with_id (build_json_url "Organization").

Definition fetch_emergencies_json_for_country_as_dataframe
  (country : string) : F DataFrame :=
  fetch_json_as_dataframe_with_id
    (build_json_url ("Emergency/country/" ++ country)).

Definition fetch_emergencies_json_for_year_as_dataframe
  (year : cell) : F DataFrame :=
  y <- flift (py_str year) ;;
  fetch_json_as_dataframe_with_id (build_json_url ("Emergency/year/" ++ y)).

Definition fetch_appeals_json_as_dataframe_given_url (url : string)
  : F DataFrame :=
  dataframe <- fetch_json_as_dataframe_with_id url ;;
  flift (convert_date_columns_from_string_to_timestamp dataframe
           ["start_date"; "end_date"; "launch_date"]).

Definition fetch_appeals_json_for_country_as_dataframe (country : string)
  : F DataFrame :=
  fetch_appeals_json_as_dataframe_given_url
    (build_json_url ("Appeal/country/" ++ country)).

Definition fetch_appeals_json_for_year_as_dataframe (year : cell)
  : F DataFrame :=
  y <- flift (py_str year) ;;
  fetch_appeals_json_as_dataframe_given_url
    (build_json_url ("Appeal/year/" ++ y)).

Definition fetch_projects_json_for_appeal_as_dataframe (appeal_id : cell)
  : F DataFrame :=
  a <- flift (py_str appeal_id) ;;
  dataframe <- fetch_json_as_dataframe_with_id
                 (build_json_url ("Project/appeal/" ++ a)) ;;
  if negb (DF.empty dataframe)  (* guard against empty result *)
  then flift (convert_date_columns_from_string_to_timestamp dataframe
                ["end_date"; "last_updated_datetime"])
  else fret dataframe.

Definition fetch_clusters_json_for_appeal_as_dataframe (appeal_id : cell)
  : F DataFrame :=
  a <- flift (py_str appeal_id) ;;
  (* NOTE no id present in this data *)
  fetch_json_as_dataframe (build_json_url ("Cluster/appeal/" ++ a)).

Definition fetch_contributions_json_as_dataframe_given_url (url : string)
  : F DataFrame :=
  dataframe <- fetch_json_as_dataframe_with_id url ;;
  if negb (DF.empty dataframe)  (* guard against empty result *)
  then flift (convert_date_columns_from_string_to_timestamp dataframe
                ["decision_date"])
  else fret dataframe.

Definition fetch_contributions_json_for_appeal_as_dataframe
  (appeal_id : cell) : F DataFrame :=
  a <- flift (py_str appeal_id) ;;
  fetch_contributions_json_as_dataframe_given_url
    (build_json_url ("Contribution/appeal/" ++ a)).

Definition fetch_contributions_json_for_emergency_as_dataframe
  (emergency_id : cell) : F DataFrame :=
  e <- flift (py_str emergency_id) ;;
  fetch_contributions_json_as_dataframe_given_url
    (build_json_url ("Contribution/emergency/" ++ e)).

Definition fetch_grouping_type_json_for_appeal_as_dataframe
  (middle_part : string) (appeal_id : cell)
  (grouping alias : option string) : F DataFrame :=
  a <- flift (py_str appeal_id) ;;
  let url := (build_json_url middle_part ++ "?Appeal=" ++ a)%string in
  let url := match truthy grouping with
             | Some g => (url ++ "&GroupBy=" ++ g)%string
             | None => url
             end in
  (* NOTE no id present in this data *)
  raw_dataframe <- fetch_json_as_dataframe url ;;
  (* oddly the JSON of interest is nested inside the "grouping" element *)
  values <- flift (DF.getattr "grouping" raw_dataframe) ;;
  processed_frame <- flift (pd.from_records values) ;;
  match truthy alias with
  | Some alias =>
      let processed_frame :=
        DF.rename [(LStr "type", LStr alias); (LStr "amount", LStr middle_part)]
          processed_frame in
      flift (DF.set_index (LStr alias) processed_frame)
  | None => fret processed_frame
  end.

Definition fetch_funding_json_for_appeal_as_dataframe
  (appeal_id : cell) (grouping alias : option string) : F DataFrame :=
  fetch_grouping_type_json_for_appeal_as_dataframe "funding" appeal_id
    grouping alias.

Definition fetch_pledges_json_for_appeal_as_dataframe
  (appeal_id : cell) (grouping alias : option string) : F DataFrame :=
  fetch_grouping_type_json_for_appeal_as_dataframe "pledges" appeal_id
    grouping alias.

End FetchLayer.

(** ** scraper.py, export layer *)

Section ExportLayer.

Local Open Scope export_scope.

Variable parse : string -> option Z.

Definition build_csv_path (base_path object_type : string)
  (country : option string) : string :=
  let filename := ("fts_" ++ object_type ++ ".csv")%string in
  let filename :=
    match truthy country with
    | Some country =>
        ("fts_" ++ country ++ "_" ++ object_type ++ ".csv")%string
    | None => filename
    end in
  os_path.join base_path filename.

Definition write_dataframe_to_csv (dataframe : DataFrame) (path : string)
  : M unit :=
  print ("Writing " ++ path) ;;;
  to_csv dataframe path.

Definition filter_out_empty_dataframes (dataframes : list DataFrame)
  : list DataFrame :=
  filter (fun frame => negb (DF.empty frame)) dataframes.

Definition produce_sectors_csv (output_dir : string) : M unit :=
  sectors <~ fts_queries fetch_sectors_json_as_dataframe ;;
  write_dataframe_to_csv sectors (build_csv_path output_dir "sectors" None).

Definition produce_countries_csv (output_dir : string) : M unit :=
  countries <~ fts_queries fetch_countries_json_as_dataframe ;;
  write_dataframe_to_csv countries
    (build_csv_path output_dir "countries" None).

Definition produce_organizations_csv (output_dir : string) : M unit :=
  organizations <~ fts_queries fetch_organizations_json_as_dataframe ;;
  write_dataframe_to_csv organizations
    (build_csv_path output_dir "organizations" None).

Definition ensure_directory (output_dir : string) : M unit :=
  present <~ os.path_exists output_dir ;;
  if negb present then os.makedirs output_dir else mret tt.

Definition produce_global_csvs (base_output_dir : string) : M unit :=
  let output_dir := os_path.join_all base_output_dir ["fts"; "global"] in
  ensure_directory output_dir ;;;
  produce_sectors_csv output_dir ;;;
  produce_countries_csv output_dir ;;;
  produce_organizations_csv output_dir.

Definition produce_emergencies_csv_for_country (output_dir country : string)
  : M unit :=
  emergencies <~
    fts_queries (fetch_emergencies_json_for_country_as_dataframe country) ;;
  write_dataframe_to_csv emergencies
    (build_csv_path output_dir "emergencies" (Some country)).

Definition produce_appeals_csv_for_country (output_dir country : string)
  : M unit :=
  appeals <~
    fts_queries (fetch_appeals_json_for_country_as_dataframe parse country) ;;
  write_dataframe_to_csv appeals
    (build_csv_path output_dir "appeals" (Some country)).

Definition pd_concat (frames : list DataFrame) : M DataFrame :=
  fun w => (pd.concat frames, w).

Definition produce_projects_csv_for_country (output_dir country : string)
  : M unit :=
  (* first get all appeals for this country *)
  appeals <~
    fts_queries (fetch_appeals_json_for_country_as_dataframe parse country) ;;
  let appeal_ids := index appeals in
  (* then get all projects corresponding to those appeals *)
  list_of_projects <~
    mmapM (fun appeal_id =>
             fts_queries
               (fetch_projects_json_for_appeal_as_dataframe parse appeal_id))
          appeal_ids ;;
  let list_of_non_empty_projects :=
    filter_out_empty_dataframes list_of_projects in
  projects_frame <~ pd_concat list_of_non_empty_projects ;;
  write_dataframe_to_csv projects_frame
    (build_csv_path output_dir "projects" (Some country)).

Definition produce_contributions_csv_for_country
  (output_dir country : string) : M unit :=
  (* first get all emergencies for this country *)
  emergencies <~
    fts_queries (fetch_emergencies_json_for_country_as_dataframe country) ;;
  let emergency_ids := index emergencies in
  (* then get all contributions corresponding to those emergencies *)
  list_of_contributions <~
    mmapM (fun emergency_id =>
             fts_queries
               (fetch_contributions_json_for_emergency_as_dataframe parse
                  emergency_id))
          emergency_ids ;;
  let list_of_non_empty_contributions :=
    filter_out_empty_dataframes list_of_contributions in
  contributions_master_frame <~ pd_concat list_of_non_empty_contributions ;;
  write_dataframe_to_csv contributions_master_frame
    (build_csv_path output_dir "contributions" (Some country)).

Definition produce_csvs_for_country (base_output_dir country : string)
  : M unit :=
  let output_dir :=
    os_path.join_all base_output_dir ["fts"; "per_country"; country] in
  ensure_directory output_dir ;;;
  produce_emergencies_csv_for_country output_dir country ;;;
  produce_appeals_csv_for_country output_dir country ;;;
  produce_projects_csv_for_country output_dir country ;;;
  produce_contributions_csv_for_country output_dir country.

End ExportLayer.

(** ** Vocabulary for the statements about the producers *)

(** The URL a per-entity fetch requests for a given id. *)
Definition url_for (prefix : string) (id : cell) : string :=
  match py_str id with
  | Ok a => build_json_url (prefix ++ a)
  | Raise _ => ""
  end.

Definition appeals_url (country : string) : string :=
  build_json_url ("Appeal/country/" ++ country).

Definition emergencies_url (country : string) : string :=
  build_json_url ("Emergency/country/" ++ country).

Definition project_url : cell -> string := url_for "Project/appeal/".

Definition contribution_url : cell -> string := url_for "Contribution/emergency/".

(** The world after a producer has requested [trace] and written
    [dataframe] to [path]. *)
Definition written (w : World) (trace : list string) (path : string)
  (dataframe : DataFrame) : World :=
  mkWorld (api w) (requests w ++ trace) (dirs w)
    ((path, csv_of_frame dataframe) :: files w)
    (stdout w ++ [("Writing " ++ path)%string]).

(** The cells of column [l] over a list of tables, a table without the
    column contributing [NaN] for each of its rows. *)
Definition stacked_column (l : label) (tables : list DataFrame) : list cell :=
  flat_map (fun df => match DF.get_column l df with
                      | Some c => c
                      | None => repeat NaN (nrows df)
                      end) tables.

(** [str(z)] for an integer. *)
Definition decimal (z : Z) : string := NilZero.string_of_int (Z.to_int z).

(** The URL of a grouping report. *)
Definition grouping_url (middle_part : string) (z : Z)
  (grouping : option string) : string :=
  match truthy grouping with
  | Some g =>
      ((build_json_url middle_part ++ "?Appeal=" ++ decimal z)
         ++ "&GroupBy=" ++ g)%string
  | None => (build_json_url middle_part ++ "?Appeal=" ++ decimal z)%string
  end.

(** A grouping report as the API sends it: an object whose ["grouping"]
    field lists one [{type, amount}] record per group. *)
Definition grouping_entry (entry : string * Z) : list (string * json) :=
  [("type", JStr (fst entry)); ("amount", JNum (snd entry))].

Definition grouping_response (entries : list (string * Z)) : json :=
  JObj [("grouping", JArr (map (fun e => JObj (grouping_entry e)) entries))].

(** The directories once [output_dir] has been ensured: unchanged when it
    is there, otherwise with it and its missing ancestors added. *)
Definition dirs_with (output_dir : string) (w : World) : list string :=
  if is_dir output_dir w then dirs w
  else output_dir
       :: (filter (fun a => negb (is_dir a w)) (os_path.ancestors output_dir)
           ++ dirs w)%list.

(** Cell [c] is a text that the date parser accepts, and [t] is the
    timestamp it stands for. *)
Definition parses_to (parse : string -> option Z) (c t : cell) : Prop :=
  exists s ns, c = CJson (JStr s) /\ parse s = Some ns /\ t = Timestamp ns.

(** A computation of the export layer that leaves the directories alone. *)
Definition keeps_dirs {A} (m : M A) : Prop :=
  forall w, dirs (snd (m w)) = dirs w.

(** ** Sample data: a small remote API and a date parser *)

Definition sample_parse (s : string) : option Z :=
  if String.eqb s "2014-01-01" then Some 1388534400000000000%Z
  else if String.eqb s "2014-12-31" then Some 1419984000000000000%Z
  else None.

Definition sample_entity (id : Z) (name : string) : json :=
  JObj [("id", JNum id); ("name", JStr name)].

Definition sample_appeal (id : Z) (title : string) : json :=
  JObj [("id", JNum id); ("title", JStr title);
        ("start_date", JStr "2014-01-01"); ("end_date", JStr "2014-12-31");
        ("launch_date", JStr "2014-01-01")].

Definition sample_project (id : Z) (title : string) : json :=
  JObj [("id", JNum id); ("title", JStr title);
        ("end_date", JStr "2014-12-31");
        ("last_updated_datetime", JStr "2014-01-01")].

Definition sample_contribution (id amount : Z) : json :=
  JObj [("id", JNum id); ("amount", JNum amount);
        ("decision_date", JStr "2014-01-01")].

Definition sample_grouping : json :=
  JArr [JObj [("type", JStr "A"); ("amount", JNum 5)];
        JObj [("type", JStr "B"); ("amount", JNum 7)]].

(** [SSD] has two appeals, one without projects and one with three, and one
    emergency with two contributions; [YEM] has one appeal without projects
    and one emergency without contributions; [XXX] has nothing at all. *)
Definition sample_responses : list (string * json) :=
  [ ("Sector", JArr [sample_entity 1 "Health"; sample_entity 2 "Food"]);
    ("Country", JArr [sample_entity 211 "South Sudan"]);
    ("Organization", JArr [sample_entity 30 "UNICEF"; sample_entity 31 "WFP"]);
    ("Emergency/country/SSD", JArr [sample_entity 16001 "Crisis 2014"]);
    ("Appeal/country/SSD",
     JArr [sample_appeal 942 "CAP 2013"; sample_appeal 943 "CRP 2014"]);
    ("Project/appeal/942", JArr []);
    ("Project/appeal/943",
     JArr [sample_project 501 "Water"; sample_project 502 "Shelter";
           sample_project 503 "Nutrition"]);
    ("Contribution/emergency/16001",
     JArr [sample_contribution 9001 100; sample_contribution 9002 250]);
    ("Emergency/country/YEM", JArr [sample_entity 17000 "Conflict"]);
    ("Appeal/country/YEM", JArr [sample_appeal 1000 "YHRP 2014"]);
    ("Project/appeal/1000", JArr []);
    ("Contribution/emergency/17000", JArr []);
    ("Emergency/country/XXX", JArr []);
    ("Appeal/country/XXX", JArr []) ].

Fixpoint respond (table : list (string * json)) (url : string) : result json :=
  match table with
  | [] => Raise (URLError url)
  | (middle_part, body) :: table' =>
      if String.eqb url (build_json_url middle_part) then Ok body
      else respond table' url
  end.

Definition sample_api : remote := respond sample_responses.

(** The funding report of appeal 942 grouped by donor, once as the list of
    records [[{"grouping": [...]}]] and once as the object
    [{"grouping": [...]}]. *)
Definition funding_url : string :=
  "http://fts.unocha.org/api/v1/funding.json?Appeal=942&GroupBy=Donor".

Definition funding_api (body : json) : remote :=
  fun url => if String.eqb url funding_url then Ok body
             else Raise (URLError url).

Definition grouping_record_list : json :=
  JArr [JObj [("grouping", sample_grouping)]].

Definition grouping_object : json :=
  JObj [("grouping", sample_grouping)].

(** One contribution as read, before the date conversion. *)
Definition sample_contribution_frame : DataFrame :=
  mkFrame (Some (LStr "id")) [CJson (JNum 9001)]
    [(LStr "amount", [CJson (JNum 100)]);
     (LStr "decision_date", [CJson (JStr "2014-01-01")])].

(** Nothing requested or written yet; [/tmp] exists. *)
Definition sample_world : World := mkWorld sample_api [] ["/tmp"] [] [].

(** * Properties *)

Local Open Scope string_scope.

#[local] Arguments label_eqb : simpl never.
#[local] Arguments String.eqb : simpl never.

(** ** Labels and columns *)

Lemma label_eqb_eq (a b : label) : label_eqb a b = true <-> a = b.
Proof.
  destruct a as [s|n], b as [t|m]; unfold label_eqb; split; intro H;
    try discriminate; try (inversion H; subst).
  - apply String.eqb_eq in H. now subst.
  - apply String.eqb_refl.
  - apply Nat.eqb_eq in H. now subst.
  - apply Nat.eqb_refl.
Qed.

Lemma label_eqb_refl (a : label) : label_eqb a a = true.
Proof. now apply label_eqb_eq. Qed.

Lemma label_eqb_neq (a b : label) : label_eqb a b = false <-> a <> b.
Proof.
  split; intro H.
  - intro E. apply label_eqb_eq in E. congruence.
  - destruct (label_eqb a b) eqn:E; [apply label_eqb_eq in E; contradiction | reflexivity].
Qed.

Lemma label_mem_In (a : label) (l : list label) :
  label_mem a l = true <-> In a l.
Proof.
  unfold label_mem. rewrite existsb_exists. split.
  - intros [x [Hin Heq]]. apply label_eqb_eq in Heq. now subst.
  - intro Hin. exists a. split; [assumption | apply label_eqb_refl].
Qed.

Lemma find_column_present (l : label) (cols : list (label * list cell)) :
  In l (map fst cols) ->
  exists v, find (fun col => label_eqb l (fst col)) cols = Some (l, v).
Proof.
  induction cols as [|[k v] cols IH]; simpl; [contradiction|].
  intros [E | Hin].
  - subst. rewrite label_eqb_refl. now exists v.
  - destruct (label_eqb l k) eqn:E.
    + apply label_eqb_eq in E. subst. now exists v.
    + now apply IH.
Qed.

Lemma find_column_absent (l : label) (cols : list (label * list cell)) :
  ~ In l (map fst cols) ->
  find (fun col => label_eqb l (fst col)) cols = None.
Proof.
  induction cols as [|[k v] cols IH]; simpl; [reflexivity|].
  intro H. destruct (label_eqb l k) eqn:E.
  - apply label_eqb_eq in E. subst. exfalso. apply H. now left.
  - apply IH. intro Hin. apply H. now right.
Qed.

Lemma get_column_present (l : label) (df : DataFrame) :
  In l (columns df) -> exists v, DF.get_column l df = Some v.
Proof.
  intro H. destruct (find_column_present l (data df) H) as [v Hv].
  exists v. unfold DF.get_column. now rewrite Hv.
Qed.

Lemma find_column_after_drop (k l : label) (cols : list (label * list cell)) :
  l <> k ->
  find (fun col => label_eqb l (fst col))
       (filter (fun col => negb (label_eqb k (fst col))) cols)
  = find (fun col => label_eqb l (fst col)) cols.
Proof.
  intro Hneq. induction cols as [|[c v] cols IH]; simpl; [reflexivity|].
  destruct (label_eqb k c) eqn:Ek; simpl.
  - apply label_eqb_eq in Ek. subst c.
    apply label_eqb_neq in Hneq. now rewrite Hneq.
  - destruct (label_eqb l c); [reflexivity | exact IH].
Qed.

Lemma dropped_column_absent (k : label) (cols : list (label * list cell)) :
  ~ In k (map fst (filter (fun col => negb (label_eqb k (fst col))) cols)).
Proof.
  intro H. apply in_map_iff in H. destruct H as [[c v] [E Hin]].
  apply filter_In in Hin. destruct Hin as [_ Hneg]. simpl in *. subst c.
  now rewrite label_eqb_refl in Hneg.
Qed.

(** ** Strings *)

Lemma substring_whole_prefix (m rest : string) :
  String.substring 0 (String.length m) (m ++ rest) = m.
Proof.
  induction m as [|c m IH]; simpl.
  - now destruct rest.
  - now rewrite IH.
Qed.

Lemma length_append (a b : string) :
  String.length (a ++ b) = String.length a + String.length b.
Proof. induction a as [|c a IH]; simpl; [reflexivity | now rewrite IH]. Qed.

Lemma prefix_append (a b : string) : String.prefix a (a ++ b) = true.
Proof.
  induction a as [|c a IH]; simpl.
  - now destruct b.
  - destruct (ascii_dec c c); [exact IH | contradiction].
Qed.

(** ** URL builder *)

(** C8. For every path suffix [m] the URL is the fixed base, then [m]
    itself, then [.json]: [m] sits unchanged right behind the 29 characters
    of the base, and the URL is exactly 29 + |m| + 5 characters long, so
    nothing is escaped, encoded or dropped. *)
Theorem build_json_url_is_plain_concatenation (m : string) :
  build_json_url m = "http://fts.unocha.org/api/v1/" ++ m ++ ".json"
  /\ String.prefix FTS_BASE_URL (build_json_url m) = true
  /\ String.substring (String.length FTS_BASE_URL) (String.length m)
       (build_json_url m) = m
  /\ String.substring (String.length FTS_BASE_URL + String.length m)
       (String.length JSON_SUFFIX) (build_json_url m) = JSON_SUFFIX
  /\ String.length (build_json_url m) = 29 + String.length m + 5.
Proof.
  unfold build_json_url. repeat split.
  - apply prefix_append.
  - unfold FTS_BASE_URL. simpl. apply substring_whole_prefix.
  - unfold FTS_BASE_URL, JSON_SUFFIX. simpl.
    induction m as [|c m IH]; simpl; [reflexivity | exact IH].
  - rewrite !length_append. reflexivity.
Qed.

(** ** CSV path construction *)

(** C7. Without a country the path is the base joined ([os.path.join]) with
    [fts_<type>.csv], with a country (a non-empty string) it is the base
    joined with [fts_<country>_<type>.csv]; a file name of this form never
    starts with a slash, so the join keeps the base and puts one slash
    between the two unless the base is empty or already ends with one.  The
    two paths of the specification's example come out as stated. *)
Theorem build_csv_path_names
  (base_path object_type country : string) (Hcountry : country <> "") :
  build_csv_path base_path object_type None
  = os_path.join base_path ("fts_" ++ object_type ++ ".csv")
  /\ build_csv_path base_path object_type (Some country)
     = os_path.join base_path ("fts_" ++ country ++ "_" ++ object_type ++ ".csv")
  /\ (forall name,
        os_path.join base_path ("fts_" ++ name)
        = if String.eqb base_path "" || endswith_slash base_path
          then base_path ++ "fts_" ++ name
          else base_path ++ "/" ++ "fts_" ++ name)
  /\ build_csv_path "/tmp" "appeals" None = "/tmp/fts_appeals.csv"
  /\ build_csv_path "/tmp" "appeals" (Some "SSD") = "/tmp/fts_SSD_appeals.csv".
Proof.
  repeat split.
  unfold build_csv_path. destruct country as [|c country]; [contradiction|].
  reflexivity.
Qed.

(** ** Table fetcher *)

Lemma fetch_json_as_dataframe_run (api : remote) (url : string) :
  fetch_json_as_dataframe url api = (rbind (api url) pd.read_json_body, [url]).
Proof. reflexivity. Qed.

Lemma fetch_with_id_run (api : remote) (url : string) (df : DataFrame) :
  rbind (api url) pd.read_json_body = Ok df ->
  fetch_json_as_dataframe_with_id url api
  = (if label_mem (LStr "id") (columns df)
     then DF.set_index (LStr "id") df else Ok df, [url]).
Proof.
  intro H. unfold fetch_json_as_dataframe_with_id, fbind.
  rewrite fetch_json_as_dataframe_run, H.
  destruct (label_mem (LStr "id") (columns df)); reflexivity.
Qed.

Lemma fetch_with_id_trace (api : remote) (url : string) :
  snd (fetch_json_as_dataframe_with_id url api) = [url].
Proof.
  unfold fetch_json_as_dataframe_with_id, fbind.
  rewrite fetch_json_as_dataframe_run.
  destruct (rbind (api url) pd.read_json_body) as [df|e]; [|reflexivity].
  destruct (label_mem (LStr "id") (columns df)); reflexivity.
Qed.

(** C1. When the fetched table has an ["id"] column, the returned table is
    indexed by that column: the index is named ["id"], its labels are the
    cells of the column, ["id"] is no longer among the columns, and every
    other column is kept as it was. *)
Theorem fetch_with_id_reindexes
  (api : remote) (url : string) (body : json) (df : DataFrame)
  (Hbody : api url = Ok body)
  (Hread : pd.read_json_body body = Ok df)
  (Hid : In (LStr "id") (columns df)) :
  exists r,
    fetch_json_as_dataframe_with_id url api = (Ok r, [url])
    /\ index_name r = Some (LStr "id")
    /\ DF.get_column (LStr "id") df = Some (index r)
    /\ ~ In (LStr "id") (columns r)
    /\ (forall l, In l (columns r) <-> In l (columns df) /\ l <> LStr "id")
    /\ (forall l, l <> LStr "id" -> DF.get_column l r = DF.get_column l df).
Proof.
  destruct (get_column_present _ _ Hid) as [values Hvalues].
  exists (mkFrame (Some (LStr "id")) values
            (filter (fun col => negb (label_eqb (LStr "id") (fst col))) (data df))).
  split.
  - rewrite (fetch_with_id_run api url df) by (rewrite Hbody; exact Hread).
    apply label_mem_In in Hid. rewrite Hid.
    unfold DF.set_index. now rewrite Hvalues.
  - simpl. repeat split.
    + exact Hvalues.
    + apply dropped_column_absent.
    + unfold columns in H. simpl in H. apply in_map_iff in H.
      destruct H as [col [E Hin]]. apply filter_In in Hin.
      unfold columns. apply in_map_iff. exists col. tauto.
    + unfold columns in H. simpl in H. apply in_map_iff in H.
      destruct H as [col [E Hin]]. apply filter_In in Hin.
      destruct Hin as [_ Hneg]. subst l. intro E. rewrite E in Hneg.
      now rewrite label_eqb_refl in Hneg.
    + intros [Hin Hneq]. unfold columns in *. simpl.
      apply in_map_iff in Hin. destruct Hin as [col [E Hin]].
      apply in_map_iff. exists col. split; [exact E|].
      apply filter_In. split; [exact Hin|].
      subst l. apply negb_true_iff. apply label_eqb_neq. congruence.
    + intros l Hneq. unfold DF.get_column. simpl.
      now rewrite find_column_after_drop.
Qed.

(** C4. When the response is the empty array, the fetch succeeds with the
    table that has no rows and no columns, exactly as read: the ["id"] test
    is false, no index is set (the index keeps no name), and [set_index]
    itself, which would raise on this table, is not reached. *)
Theorem fetch_with_id_on_empty_result
  (api : remote) (url : string) (Hbody : api url = Ok (JArr [])) :
  fetch_json_as_dataframe url api = (Ok empty_frame, [url])
  /\ fetch_json_as_dataframe_with_id url api = (Ok empty_frame, [url])
  /\ nrows empty_frame = 0
  /\ index_name empty_frame = None
  /\ label_mem (LStr "id") (columns empty_frame) = false
  /\ DF.set_index (LStr "id") empty_frame = Raise (KeyError (LStr "id")).
Proof.
  assert (Hread : rbind (api url) pd.read_json_body = Ok empty_frame)
    by now rewrite Hbody.
  repeat split.
  - now rewrite fetch_json_as_dataframe_run, Hread.
  - now rewrite (fetch_with_id_run api url empty_frame Hread).
Qed.

(** ** Date normalizer and its callers *)

Lemma fetch_appeals_run
  (parse : string -> option Z) (api : remote) (url : string) (df : DataFrame) :
  fst (fetch_json_as_dataframe_with_id url api) = Ok df ->
  fetch_appeals_json_as_dataframe_given_url parse url api
  = (convert_date_columns_from_string_to_timestamp parse df
       ["start_date"; "end_date"; "launch_date"], [url]).
Proof.
  intro H. unfold fetch_appeals_json_as_dataframe_given_url, fbind, flift.
  pose proof (fetch_with_id_trace api url) as Ht.
  destruct (fetch_json_as_dataframe_with_id url api) as [r t].
  simpl in H, Ht. subst r t. reflexivity.
Qed.

Lemma fetch_contributions_run
  (parse : string -> option Z) (api : remote) (url : string) (df : DataFrame) :
  fst (fetch_json_as_dataframe_with_id url api) = Ok df ->
  fetch_contributions_json_as_dataframe_given_url parse url api
  = (if negb (DF.empty df)
     then convert_date_columns_from_string_to_timestamp parse df
            ["decision_date"]
     else Ok df, [url]).
Proof.
  intro H. unfold fetch_contributions_json_as_dataframe_given_url, fbind, flift.
  pose proof (fetch_with_id_trace api url) as Ht.
  destruct (fetch_json_as_dataframe_with_id url api) as [r t].
  simpl in H, Ht. subst r t.
  destruct (negb (DF.empty df)); reflexivity.
Qed.

Lemma fetch_projects_run
  (parse : string -> option Z) (api : remote) (appeal_id : cell)
  (a : string) (df : DataFrame) :
  py_str appeal_id = Ok a ->
  fst (fetch_json_as_dataframe_with_id
         (build_json_url ("Project/appeal/" ++ a)) api) = Ok df ->
  fetch_projects_json_for_appeal_as_dataframe parse appeal_id api
  = (if negb (DF.empty df)
     then convert_date_columns_from_string_to_timestamp parse df
            ["end_date"; "last_updated_datetime"]
     else Ok df, [build_json_url ("Project/appeal/" ++ a)]).
Proof.
  intros Ha H. unfold fetch_projects_json_for_appeal_as_dataframe, fbind, flift.
  rewrite Ha.
  pose proof (fetch_with_id_trace api (build_json_url ("Project/appeal/" ++ a)))
    as Ht.
  destruct (fetch_json_as_dataframe_with_id _ api) as [r t].
  simpl in H, Ht. subst r t.
  destruct (negb (DF.empty df)); reflexivity.
Qed.

(** C2. On an empty result the appeal fetch has no emptiness check: it
    hands the table without columns to the date conversion, which raises
    [KeyError] for [start_date], the first of its three date columns.  The
    project and contribution fetches, on the same empty result, skip the
    conversion and return the empty table. *)
Theorem appeals_fetch_converts_dates_of_an_empty_result
  (parse : string -> option Z) (api : remote) (url : string)
  (appeal_id : cell) (a : string)
  (Hbody : api url = Ok (JArr []))
  (Hstr : py_str appeal_id = Ok a)
  (Hprojects : api (build_json_url ("Project/appeal/" ++ a)) = Ok (JArr [])) :
  fetch_appeals_json_as_dataframe_given_url parse url api
  = (Raise (KeyError (LStr "start_date")), [url])
  /\ fetch_contributions_json_as_dataframe_given_url parse url api
     = (Ok empty_frame, [url])
  /\ fetch_projects_json_for_appeal_as_dataframe parse appeal_id api
     = (Ok empty_frame, [build_json_url ("Project/appeal/" ++ a)]).
Proof.
  assert (Hfetch : forall u, api u = Ok (JArr []) ->
            fst (fetch_json_as_dataframe_with_id u api) = Ok empty_frame).
  { intros u Hu. rewrite (fetch_with_id_run api u empty_frame); [reflexivity|].
    now rewrite Hu. }
  repeat split.
  - now rewrite (fetch_appeals_run parse api url empty_frame (Hfetch url Hbody)).
  - now rewrite (fetch_contributions_run parse api url empty_frame
                   (Hfetch url Hbody)).
  - now rewrite (fetch_projects_run parse api appeal_id a empty_frame Hstr
                   (Hfetch _ Hprojects)).
Qed.

Lemma zero_row_column_unchanged (l : label) (df : DataFrame) :
  well_formed df -> nrows df = 0 -> In l (columns df) ->
  DF.getitem l df = Ok [] /\ DF.setitem l [] df = df.
Proof.
  intros Hwf Hrows Hin.
  assert (Hnil : forall col, In col (data df) -> snd col = []).
  { intros col Hcol. unfold well_formed in Hwf. rewrite Forall_forall in Hwf.
    specialize (Hwf col Hcol). rewrite Hrows in Hwf.
    now apply length_zero_iff_nil. }
  split.
  - unfold DF.getitem, DF.get_column.
    destruct (find_column_present l (data df) Hin) as [v Hv]. rewrite Hv.
    simpl. apply find_some in Hv. destruct Hv as [Hv _].
    apply Hnil in Hv. simpl in Hv. now subst v.
  - unfold DF.setitem. apply label_mem_In in Hin. rewrite Hin.
    destruct df as [name idx cols]. simpl in *. f_equal.
    rewrite <- (map_id cols) at 2. apply map_ext_in.
    intros [k v] Hcol. simpl. destruct (label_eqb l k); [|reflexivity].
    f_equal. symmetry. exact (Hnil _ Hcol).
Qed.

Lemma normalizer_on_zero_rows
  (parse : string -> option Z) (df : DataFrame) (column_names : list string) :
  well_formed df -> nrows df = 0 ->
  (forall n, In n column_names -> In (LStr n) (columns df)) ->
  convert_date_columns_from_string_to_timestamp parse df column_names = Ok df.
Proof.
  intros Hwf Hrows. induction column_names as [|n names IH]; intro Hcols.
  - reflexivity.
  - simpl.
    destruct (zero_row_column_unchanged (LStr n) df Hwf Hrows) as [Hget Hset].
    { apply Hcols. now left. }
    rewrite Hget. simpl. rewrite Hset. apply IH.
    intros m Hm. apply Hcols. now right.
Qed.

(** C3, as the code has it.  The normalizer has no emptiness check of its
    own.  On a table with zero rows it is a no-op, raising nothing and
    leaving the table unchanged, whenever every named column is present.
    For the column-less table of an empty result the no-op comes from the
    guard of the callers: the contribution and project fetches return an
    empty table as fetched, without calling the normalizer. *)
Theorem date_normalizer_on_empty_tables (parse : string -> option Z) :
  (forall (df : DataFrame) (column_names : list string),
      well_formed df -> nrows df = 0 ->
      (forall n, In n column_names -> In (LStr n) (columns df)) ->
      convert_date_columns_from_string_to_timestamp parse df column_names
      = Ok df)
  /\ (forall (df : DataFrame),
        convert_date_columns_from_string_to_timestamp parse df [] = Ok df)
  /\ (forall (api : remote) (url : string) (df : DataFrame),
        fst (fetch_json_as_dataframe_with_id url api) = Ok df ->
        DF.empty df = true ->
        fetch_contributions_json_as_dataframe_given_url parse url api
        = (Ok df, [url]))
  /\ (forall (api : remote) (appeal_id : cell) (a : string) (df : DataFrame),
        py_str appeal_id = Ok a ->
        fst (fetch_json_as_dataframe_with_id
               (build_json_url ("Project/appeal/" ++ a)) api) = Ok df ->
        DF.empty df = true ->
        fetch_projects_json_for_appeal_as_dataframe parse appeal_id api
        = (Ok df, [build_json_url ("Project/appeal/" ++ a)])).
Proof.
  split; [|split; [|split]].
  - intros df names. apply normalizer_on_zero_rows.
  - reflexivity.
  - intros api url df Hfetch Hempty.
    rewrite (fetch_contributions_run parse api url df Hfetch).
    now rewrite Hempty.
  - intros api appeal_id a df Ha Hfetch Hempty.
    rewrite (fetch_projects_run parse api appeal_id a df Ha Hfetch).
    now rewrite Hempty.
Qed.

(** ** Grouping reports *)

(** C6, as the code has it.  When the response is the object
    [{"grouping": [{"type":"A","amount":5}, {"type":"B","amount":7}]}], the
    funding report with alias ["donor"] is the table of two rows indexed by
    [donor] with labels A and B, whose only column is [funding] (the
    renamed [amount]) with cells 5 and 7. *)
Theorem grouping_report_of_a_response_object
  (api : remote) (appeal_id : cell) (a : string) (grouping : option string)
  (Hstr : py_str appeal_id = Ok a)
  (Hbody :
     api (match truthy grouping with
          | Some g => (build_json_url "funding" ++ "?Appeal=" ++ a)
                        ++ "&GroupBy=" ++ g
          | None => build_json_url "funding" ++ "?Appeal=" ++ a
          end) = Ok grouping_object) :
  fst (fetch_funding_json_for_appeal_as_dataframe appeal_id grouping
         (Some "donor") api)
  = Ok (mkFrame (Some (LStr "donor"))
          [CJson (JStr "A"); CJson (JStr "B")]
          [(LStr "funding", [CJson (JNum 5); CJson (JNum 7)])]).
Proof.
  unfold fetch_funding_json_for_appeal_as_dataframe,
    fetch_grouping_type_json_for_appeal_as_dataframe, fbind, flift.
  rewrite Hstr. rewrite fetch_json_as_dataframe_run.
  destruct (truthy grouping) as [g|]; rewrite Hbody; reflexivity.
Qed.

(** ** Running the export layer *)

Lemma world_eta (w : World) :
  mkWorld (api w) (requests w) (dirs w) (files w) (stdout w) = w.
Proof. now destruct w. Qed.

Lemma fts_queries_run {A} (f : F A) (w : World) :
  fts_queries f w
  = (fst (f (api w)),
     mkWorld (api w) (requests w ++ snd (f (api w)))%list (dirs w) (files w)
       (stdout w)).
Proof. unfold fts_queries. now destruct (f (api w)). Qed.

Lemma mmapM_fetch_run {A B} (f : A -> F B) (ids : list A) :
  forall (rs : list B) (w : World),
    Forall2 (fun id r => fst (f id (api w)) = Ok r) ids rs ->
    mmapM (fun id => fts_queries (f id)) ids w
    = (Ok rs,
       mkWorld (api w)
         (requests w ++ flat_map (fun id => snd (f id (api w))) ids)%list
         (dirs w) (files w) (stdout w)).
Proof.
  induction ids as [|id ids IH]; intros rs w H; inversion H; subst; simpl.
  - unfold mret. now rewrite app_nil_r, world_eta.
  - unfold mbind. rewrite fts_queries_run.
    match goal with E : fst (f id (api w)) = Ok _ |- _ => rewrite E end.
    rewrite (IH l'); [|assumption].
    simpl. unfold mret. now rewrite app_assoc.
Qed.

Lemma write_dataframe_to_csv_run
  (dataframe : DataFrame) (path : string) (w : World) :
  writable path w = true ->
  write_dataframe_to_csv dataframe path w
  = (Ok tt,
     mkWorld (api w) (requests w) (dirs w)
       ((path, csv_of_frame dataframe) :: files w)
       (stdout w ++ [("Writing " ++ path)%string])%list).
Proof.
  intro H. unfold write_dataframe_to_csv, mbind, print, to_csv.
  change (writable path (mkWorld (api w) (requests w) (dirs w) (files w)
                           (stdout w ++ [("Writing " ++ path)%string])%list))
    with (writable path w).
  now rewrite H.
Qed.

Lemma fetch_and_write_run
  (f : F DataFrame) (path : string) (w : World) (df : DataFrame) :
  fst (f (api w)) = Ok df ->
  writable path w = true ->
  mbind (fts_queries f) (fun d => write_dataframe_to_csv d path) w
  = (Ok tt, written w (snd (f (api w))) path df).
Proof.
  intros Hf Hw. unfold mbind. rewrite fts_queries_run, Hf.
  rewrite write_dataframe_to_csv_run; [reflexivity | exact Hw].
Qed.

(** The common shape of the project and contribution producers: fetch the
    parent table, fetch one table per parent id, drop the empty ones,
    concatenate, write. *)
Lemma collect_and_write_run
  (parents : F DataFrame) (child : cell -> F DataFrame) (path : string)
  (w : World) (parent_frame : DataFrame) (tables : list DataFrame) :
  fst (parents (api w)) = Ok parent_frame ->
  Forall2 (fun id t => fst (child id (api w)) = Ok t)
          (index parent_frame) tables ->
  mbind (fts_queries parents) (fun p =>
    mbind (mmapM (fun id => fts_queries (child id)) (index p)) (fun l =>
      mbind (pd_concat (filter_out_empty_dataframes l)) (fun frame =>
        write_dataframe_to_csv frame path))) w
  = let trace :=
      (snd (parents (api w))
       ++ flat_map (fun id => snd (child id (api w))) (index parent_frame))%list in
    match pd.concat (filter_out_empty_dataframes tables) with
    | Ok frame =>
        if writable path w then (Ok tt, written w trace path frame)
        else (Raise (IOError path),
              mkWorld (api w) (requests w ++ trace)%list (dirs w) (files w)
                (stdout w ++ [("Writing " ++ path)%string])%list)
    | Raise e =>
        (Raise e,
         mkWorld (api w) (requests w ++ trace)%list (dirs w) (files w)
           (stdout w))
    end.
Proof.
  intros Hp Hc. unfold mbind at 1. rewrite fts_queries_run, Hp.
  unfold mbind at 1. rewrite (mmapM_fetch_run child _ tables); [|exact Hc].
  simpl. unfold mbind, pd_concat. rewrite <- app_assoc.
  destruct (pd.concat (filter_out_empty_dataframes tables)) as [frame|e];
    [|reflexivity].
  unfold write_dataframe_to_csv, mbind, print, to_csv, writable, is_dir, written.
  simpl.
  destruct (String.eqb (os_path.dirname path) ""
            || (String.eqb (os_path.dirname path) "/"
                || existsb (String.eqb (os_path.dirname path)) (dirs w)));
    reflexivity.
Qed.

(** ** Requests issued by the fetch functions *)

Lemma fetch_appeals_trace
  (parse : string -> option Z) (country : string) (api : remote) :
  snd (fetch_appeals_json_for_country_as_dataframe parse country api)
  = [appeals_url country].
Proof.
  unfold fetch_appeals_json_for_country_as_dataframe,
    fetch_appeals_json_as_dataframe_given_url, fbind, flift.
  pose proof (fetch_with_id_trace api (appeals_url country)) as Ht.
  unfold appeals_url in *.
  destruct (fetch_json_as_dataframe_with_id _ api) as [[df|e] t];
    simpl in *; subst t; reflexivity.
Qed.

Lemma fetch_emergencies_trace (country : string) (api : remote) :
  snd (fetch_emergencies_json_for_country_as_dataframe country api)
  = [emergencies_url country].
Proof. apply fetch_with_id_trace. Qed.

Lemma fetch_projects_trace
  (parse : string -> option Z) (api : remote) (id : cell) (p : DataFrame) :
  fst (fetch_projects_json_for_appeal_as_dataframe parse id api) = Ok p ->
  snd (fetch_projects_json_for_appeal_as_dataframe parse id api)
  = [project_url id].
Proof.
  unfold fetch_projects_json_for_appeal_as_dataframe, project_url, url_for,
    fbind, flift.
  destruct (py_str id) as [a|e]; [|discriminate].
  pose proof (fetch_with_id_trace api (build_json_url ("Project/appeal/" ++ a)))
    as Ht.
  destruct (fetch_json_as_dataframe_with_id _ api) as [[df|e] t];
    simpl in *; subst t; [|reflexivity].
  destruct (negb (DF.empty df)); reflexivity.
Qed.

Lemma fetch_contributions_trace
  (parse : string -> option Z) (api : remote) (id : cell) (c : DataFrame) :
  fst (fetch_contributions_json_for_emergency_as_dataframe parse id api)
  = Ok c ->
  snd (fetch_contributions_json_for_emergency_as_dataframe parse id api)
  = [contribution_url id].
Proof.
  unfold fetch_contributions_json_for_emergency_as_dataframe,
    fetch_contributions_json_as_dataframe_given_url, contribution_url,
    url_for, fbind, flift.
  destruct (py_str id) as [a|e]; [|discriminate].
  pose proof (fetch_with_id_trace api
                (build_json_url ("Contribution/emergency/" ++ a))) as Ht.
  destruct (fetch_json_as_dataframe_with_id _ api) as [[df|e] t];
    simpl in *; subst t; [|reflexivity].
  destruct (negb (DF.empty df)); reflexivity.
Qed.

Lemma traces_of_successful_fetches {B}
  (f : cell -> F B) (url : cell -> string) (api : remote)
  (ids : list cell) (rs : list B) :
  (forall id r, fst (f id api) = Ok r -> snd (f id api) = [url id]) ->
  Forall2 (fun id r => fst (f id api) = Ok r) ids rs ->
  flat_map (fun id => snd (f id api)) ids = map url ids.
Proof.
  intros Hone H. induction H as [|id r ids rs Hid _ IH]; simpl.
  - reflexivity.
  - now rewrite (Hone id r Hid), IH.
Qed.

(** ** Concatenation and CSV rows *)

Lemma concat_of_some (frames : list DataFrame) :
  frames <> [] -> exists frame, pd.concat frames = Ok frame.
Proof.
  destruct frames as [|first rest]; [contradiction|].
  intros _. unfold pd.concat. eauto.
Qed.

Lemma concat_index (frames : list DataFrame) (frame : DataFrame) :
  pd.concat frames = Ok frame -> index frame = flat_map index frames.
Proof.
  destruct frames as [|first rest]; unfold pd.concat; intro H;
    [discriminate|].
  injection H as <-. reflexivity.
Qed.

Lemma find_generated_column
  (g : label -> list cell) (l : label) (labels : list label) :
  In l labels ->
  find (fun col => label_eqb l (fst col)) (map (fun k => (k, g k)) labels)
  = Some (l, g l).
Proof.
  induction labels as [|k labels IH]; simpl; [contradiction|].
  intro H. destruct (label_eqb l k) eqn:E.
  - apply label_eqb_eq in E. now subst k.
  - destruct H as [H|H]; [|now apply IH].
    subst k. now rewrite label_eqb_refl in E.
Qed.

Lemma concat_column (frames : list DataFrame) (frame : DataFrame) (l : label) :
  pd.concat frames = Ok frame ->
  In l (columns frame) ->
  DF.get_column l frame
  = Some (flat_map (fun df => match DF.get_column l df with
                              | Some c => c
                              | None => repeat NaN (nrows df)
                              end) frames).
Proof.
  destruct frames as [|first rest]; unfold pd.concat; intro H;
    [discriminate|].
  injection H as <-. intro Hin.
  unfold columns in Hin. cbn [data] in Hin.
  rewrite map_map in Hin. cbn [fst] in Hin. rewrite map_id in Hin.
  set (g := fun k => flat_map (fun df => match DF.get_column k df with
                                         | Some c => c
                                         | None => repeat NaN (nrows df)
                                         end) (first :: rest)).
  pose proof (find_generated_column g l _ Hin) as E.
  exact (f_equal (option_map snd) E).
Qed.

Lemma rows_of_first_cells (idx : list cell) :
  forall cols, map (hd NaN) (rows_of idx cols) = idx.
Proof.
  induction idx as [|i idx IH]; intro cols; simpl; [reflexivity|].
  now rewrite IH.
Qed.

Lemma rows_of_length (idx : list cell) :
  forall cols, List.length (rows_of idx cols) = List.length idx.
Proof.
  induction idx as [|i idx IH]; intro cols; simpl; [reflexivity|].
  now rewrite IH.
Qed.

Lemma rows_of_concatenation (frames : list DataFrame) :
  List.length (flat_map index frames) = list_sum (map nrows frames).
Proof.
  induction frames as [|df frames IH]; simpl; [reflexivity|].
  rewrite length_app, IH. reflexivity.
Qed.

Lemma zero_rows_empty (df : DataFrame) : nrows df = 0 -> DF.empty df = true.
Proof.
  unfold nrows, DF.empty. destruct (index df); [reflexivity | discriminate].
Qed.

Lemma kept_tables (tables : list DataFrame) (t : DataFrame) :
  In t (filter_out_empty_dataframes tables)
  <-> In t tables /\ DF.empty t = false.
Proof.
  unfold filter_out_empty_dataframes. rewrite filter_In.
  now rewrite negb_true_iff.
Qed.

Lemma all_empty_filtered (tables : list DataFrame) :
  Forall (fun t => DF.empty t = true) tables ->
  filter_out_empty_dataframes tables = [].
Proof.
  intro H. induction H as [|t tables Ht _ IH]; simpl; [reflexivity|].
  now rewrite Ht.
Qed.

(** ** Project and contribution producers *)

(** C5. Given the appeals of the country and the project table fetched for
    each appeal id, at least one of them non-empty, the producer succeeds;
    it requests the appeals and then the projects of every appeal id in
    index order; the written table is the concatenation of exactly the
    non-empty project tables, its rows (index labels and cells of every
    column) in the order of those tables; the CSV at the projects path has
    one data row per row of a non-empty table, so for two appeals with zero
    and three projects it has exactly three. *)
Theorem produce_projects_csv_concatenates_in_appeal_order
  (parse : string -> option Z) (output_dir country : string) (w : World)
  (appeals : DataFrame) (tables : list DataFrame)
  (Happeals :
     fst (fetch_appeals_json_for_country_as_dataframe parse country (api w))
     = Ok appeals)
  (Hprojects :
     Forall2 (fun id t =>
                fst (fetch_projects_json_for_appeal_as_dataframe parse id (api w))
                = Ok t) (index appeals) tables)
  (Hsome : filter_out_empty_dataframes tables <> [])
  (Hdir : writable (build_csv_path output_dir "projects" (Some country)) w
          = true) :
  exists frame w',
    produce_projects_csv_for_country parse output_dir country w = (Ok tt, w')
    /\ requests w'
       = (requests w
          ++ appeals_url country :: map project_url (index appeals))%list
    /\ (forall t, In t (filter_out_empty_dataframes tables)
                  <-> In t tables /\ DF.empty t = false)
    /\ pd.concat (filter_out_empty_dataframes tables) = Ok frame
    /\ index frame = flat_map index (filter_out_empty_dataframes tables)
    /\ (forall l, In l (columns frame) ->
          DF.get_column l frame
          = Some (stacked_column l (filter_out_empty_dataframes tables)))
    /\ file_at (build_csv_path output_dir "projects" (Some country)) (files w')
       = Some (csv_of_frame frame)
    /\ map (hd NaN) (csv_rows (csv_of_frame frame))
       = flat_map index (filter_out_empty_dataframes tables)
    /\ List.length (csv_rows (csv_of_frame frame))
       = list_sum (map nrows (filter_out_empty_dataframes tables))
    /\ (forall t1 t2,
          tables = [t1; t2] ->
          (nrows t1 = 0 /\ nrows t2 = 3 /\ DF.empty t2 = false)
          \/ (nrows t1 = 3 /\ DF.empty t1 = false /\ nrows t2 = 0) ->
          List.length (csv_rows (csv_of_frame frame)) = 3).
Proof.
  destruct (concat_of_some _ Hsome) as [frame Hframe].
  set (path := build_csv_path output_dir "projects" (Some country)) in *.
  pose proof (collect_and_write_run
                (fetch_appeals_json_for_country_as_dataframe parse country)
                (fetch_projects_json_for_appeal_as_dataframe parse)
                path w appeals tables Happeals Hprojects) as Hrun.
  cbv zeta in Hrun. rewrite Hframe, Hdir in Hrun.
  rewrite fetch_appeals_trace in Hrun.
  rewrite (traces_of_successful_fetches _ project_url (api w) _ tables
             (fetch_projects_trace parse (api w)) Hprojects) in Hrun.
  assert (Hlen : List.length (csv_rows (csv_of_frame frame))
                 = list_sum (map nrows (filter_out_empty_dataframes tables))).
  { unfold csv_of_frame. cbn [csv_rows]. rewrite rows_of_length.
    rewrite (concat_index _ _ Hframe). apply rows_of_concatenation. }
  exists frame. eexists. split; [exact Hrun|].
  split; [reflexivity|].
  split; [apply kept_tables|].
  split; [exact Hframe|].
  split; [exact (concat_index _ _ Hframe)|].
  split; [intros l Hl; exact (concat_column _ _ l Hframe Hl)|].
  split; [cbn [files written file_at]; now rewrite String.eqb_refl|].
  split.
  { unfold csv_of_frame. cbn [csv_rows]. rewrite rows_of_first_cells.
    exact (concat_index _ _ Hframe). }
  split; [exact Hlen|].
  intros t1 t2 Htables Hcase. rewrite Hlen. subst tables.
  unfold filter_out_empty_dataframes. cbn [filter].
  destruct Hcase as [[H1 [H2 H3]] | [H1 [H2 H3]]].
  - rewrite (zero_rows_empty _ H1), H3. cbn. rewrite H2. reflexivity.
  - rewrite H2, (zero_rows_empty _ H3). cbn. rewrite H1. reflexivity.
Qed.

(** C10, as the code has it.  When the appeal fetch succeeds and every
    appeal yields an empty project table, the project producer raises the
    error of [pd.concat] on an empty list; nothing is written or announced,
    only the requests have been made.  The contribution producer does the
    same when every emergency yields an empty contribution table, which
    includes the country without any emergency. *)
Theorem producers_fail_on_concatenating_nothing
  (parse : string -> option Z) (output_dir country : string) (w : World) :
  (forall (appeals : DataFrame) (tables : list DataFrame),
      fst (fetch_appeals_json_for_country_as_dataframe parse country (api w))
      = Ok appeals ->
      Forall2 (fun id t =>
                 fst (fetch_projects_json_for_appeal_as_dataframe parse id
                        (api w)) = Ok t) (index appeals) tables ->
      Forall (fun t => DF.empty t = true) tables ->
      produce_projects_csv_for_country parse output_dir country w
      = (Raise (ValueError "No objects to concatenate"),
         mkWorld (api w)
           (requests w
            ++ appeals_url country :: map project_url (index appeals))%list
           (dirs w) (files w) (stdout w)))
  /\ (forall (emergencies : DataFrame) (tables : list DataFrame),
        fst (fetch_emergencies_json_for_country_as_dataframe country (api w))
        = Ok emergencies ->
        Forall2 (fun id t =>
                   fst (fetch_contributions_json_for_emergency_as_dataframe
                          parse id (api w)) = Ok t)
                (index emergencies) tables ->
        Forall (fun t => DF.empty t = true) tables ->
        produce_contributions_csv_for_country parse output_dir country w
        = (Raise (ValueError "No objects to concatenate"),
           mkWorld (api w)
             (requests w
              ++ emergencies_url country
                 :: map contribution_url (index emergencies))%list
             (dirs w) (files w) (stdout w))).
Proof.
  split.
  - intros appeals tables Happeals Hprojects Hempty.
    pose proof (collect_and_write_run
                  (fetch_appeals_json_for_country_as_dataframe parse country)
                  (fetch_projects_json_for_appeal_as_dataframe parse)
                  (build_csv_path output_dir "projects" (Some country))
                  w appeals tables Happeals Hprojects) as Hrun.
    cbv zeta in Hrun. rewrite (all_empty_filtered _ Hempty) in Hrun.
    rewrite fetch_appeals_trace in Hrun.
    rewrite (traces_of_successful_fetches _ project_url (api w) _ tables
               (fetch_projects_trace parse (api w)) Hprojects) in Hrun.
    exact Hrun.
  - intros emergencies tables Hemergencies Hcontributions Hempty.
    pose proof (collect_and_write_run
                  (fetch_emergencies_json_for_country_as_dataframe country)
                  (fetch_contributions_json_for_emergency_as_dataframe parse)
                  (build_csv_path output_dir "contributions" (Some country))
                  w emergencies tables Hemergencies Hcontributions) as Hrun.
    cbv zeta in Hrun. rewrite (all_empty_filtered _ Hempty) in Hrun.
    rewrite fetch_emergencies_trace in Hrun.
    rewrite (traces_of_successful_fetches _ contribution_url (api w) _ tables
               (fetch_contributions_trace parse (api w)) Hcontributions) in Hrun.
    exact Hrun.
Qed.

(** ** Paths *)

Lemma append_assoc (a b c : string) : (a ++ b) ++ c = a ++ b ++ c.
Proof. induction a as [|x a IH]; simpl; [reflexivity | now rewrite IH]. Qed.

Lemma append_is_empty (a b : string) : a ++ b = "" -> a = "" /\ b = "".
Proof. destruct a; simpl; intro H; [now split | discriminate]. Qed.

Lemma chars_of_append (a b : string) :
  list_ascii_of_string (a ++ b)
  = (list_ascii_of_string a ++ list_ascii_of_string b)%list.
Proof. induction a as [|x a IH]; simpl; [reflexivity | now rewrite IH]. Qed.

Lemma has_slash_append (a b : string) :
  has_slash (a ++ b) = has_slash a || has_slash b.
Proof.
  induction a as [|x a IH]; simpl; [reflexivity|].
  now rewrite IH, orb_assoc.
Qed.

Lemma endswith_slash_append (a : string) (c : ascii) (b : string) :
  endswith_slash (a ++ String c b) = endswith_slash (String c b).
Proof.
  induction a as [|x a IH]; [reflexivity|].
  change (String x a ++ String c b) with (String x (a ++ String c b)).
  destruct a as [|y a]; [reflexivity | exact IH].
Qed.

Lemma no_slash_not_at_end (s : string) :
  has_slash s = false -> endswith_slash s = false.
Proof.
  induction s as [|c s IH]; [reflexivity|].
  simpl. intro H. apply orb_false_iff in H. destruct H as [Hc Hs].
  destruct s; [exact Hc | now apply IH].
Qed.

Lemma no_slash_not_at_start (s : string) :
  has_slash s = false -> startswith_slash s = false.
Proof.
  destruct s as [|c s]; [reflexivity|].
  simpl. intro H. now apply orb_false_iff in H.
Qed.

Lemma no_slash_chars (s : string) :
  has_slash s = false ->
  forallb (fun c => negb (is_slash c)) (list_ascii_of_string s) = true.
Proof.
  induction s as [|c s IH]; [reflexivity|].
  simpl. intro H. apply orb_false_iff in H. destruct H as [Hc Hs].
  now rewrite Hc, IH.
Qed.

Lemma forallb_rev {A} (p : A -> bool) (l : list A) :
  forallb p (rev l) = forallb p l.
Proof.
  induction l as [|x l IH]; [reflexivity|].
  simpl. rewrite forallb_app, IH. simpl. rewrite andb_true_r.
  apply andb_comm.
Qed.

Lemma drop_while_all (p : ascii -> bool) (xs ys : list ascii) :
  forallb p xs = true -> drop_while p (xs ++ ys) = drop_while p ys.
Proof.
  induction xs as [|x xs IH]; [reflexivity|].
  simpl. intro H. apply andb_true_iff in H. destruct H as [Hx Hxs].
  rewrite Hx. now apply IH.
Qed.

Lemma last_char_not_slash (d : string) :
  d <> "" -> endswith_slash d = false ->
  exists c r, rev (list_ascii_of_string d) = c :: r /\ is_slash c = false.
Proof.
  induction d as [|x d IH]; [contradiction|].
  intros _ Hend. destruct d as [|y d].
  - exists x, []. now split.
  - destruct IH as [c [r [Hrev Hc]]]; [discriminate | exact Hend |].
    exists c, (r ++ [x])%list. split; [|exact Hc].
    change (list_ascii_of_string (String x (String y d)))
      with (x :: list_ascii_of_string (String y d)).
    change (rev (x :: list_ascii_of_string (String y d)))
      with (rev (list_ascii_of_string (String y d)) ++ [x])%list.
    now rewrite Hrev.
Qed.

(** The directory of a file placed directly in [d]. *)
Lemma dirname_of_child (d f : string) :
  d <> "" -> endswith_slash d = false -> has_slash f = false ->
  os_path.dirname (d ++ "/" ++ f) = d.
Proof.
  intros Hd Hend Hf. unfold os_path.dirname.
  rewrite chars_of_append.
  change (list_ascii_of_string ("/" ++ f))
    with (slash :: list_ascii_of_string f).
  rewrite rev_app_distr.
  change (rev (slash :: list_ascii_of_string f))
    with (rev (list_ascii_of_string f) ++ [slash])%list.
  rewrite <- app_assoc.
  rewrite drop_while_all
    by (rewrite forallb_rev; now apply no_slash_chars).
  destruct (last_char_not_slash d Hd Hend) as [c [r [Hrev Hc]]].
  assert (Hs : is_slash slash = true) by reflexivity.
  rewrite Hrev. cbn [app drop_while forallb negb].
  rewrite Hs. cbn [negb].
  change (forallb is_slash (slash :: c :: r))
    with (is_slash slash && (is_slash c && forallb is_slash r)).
  change (drop_while is_slash (slash :: c :: r))
    with (if is_slash slash
          then (if is_slash c then drop_while is_slash r else c :: r)
          else slash :: c :: r).
  rewrite Hs, Hc. cbn [andb].
  rewrite <- Hrev, rev_involutive. apply string_of_list_ascii_of_string.
Qed.

Lemma join_into_directory (d f : string) :
  d <> "" -> endswith_slash d = false -> has_slash f = false ->
  os_path.join d f = d ++ "/" ++ f.
Proof.
  intros Hd Hend Hf. unfold os_path.join.
  rewrite (no_slash_not_at_start f Hf), Hend.
  apply String.eqb_neq in Hd. now rewrite Hd.
Qed.

Lemma join_keeps_last_component (a b : string) :
  b <> "" -> has_slash b = false ->
  os_path.join a b <> "" /\ endswith_slash (os_path.join a b) = false.
Proof.
  intros Hb Hs. destruct b as [|c b]; [contradiction|].
  unfold os_path.join. rewrite (no_slash_not_at_start _ Hs).
  destruct (String.eqb a "" || endswith_slash a).
  - split.
    + intro E. apply append_is_empty in E. destruct E; discriminate.
    + rewrite endswith_slash_append. now apply no_slash_not_at_end.
  - split.
    + intro E. apply append_is_empty in E. destruct E as [_ E].
      discriminate.
    + change ("/" ++ String c b) with (String slash (String c b)).
      rewrite (endswith_slash_append a slash (String c b)).
      now apply no_slash_not_at_end in Hs.
Qed.

Lemma writable_in_directory (d f : string) (w : World) :
  d <> "" -> endswith_slash d = false -> has_slash f = false ->
  is_dir d w = true ->
  os_path.join d f = d ++ "/" ++ f /\ writable (os_path.join d f) w = true.
Proof.
  intros Hd Hend Hf Hdir.
  rewrite (join_into_directory d f Hd Hend Hf). split; [reflexivity|].
  unfold writable. rewrite (dirname_of_child d f Hd Hend Hf), Hdir.
  apply orb_true_r.
Qed.

Lemma join_all_below (base : string) (components : list string) :
  base <> "" -> endswith_slash base = false ->
  Forall (fun c => c <> "" /\ has_slash c = false) components ->
  os_path.join_all base components
  = fold_left (fun acc c => acc ++ "/" ++ c) components base
  /\ os_path.join_all base components <> ""
  /\ endswith_slash (os_path.join_all base components) = false.
Proof.
  intros Hb He Hcs. revert base Hb He.
  induction Hcs as [|c cs [Hc Hs] _ IH]; intros base Hb He.
  - now repeat split.
  - unfold os_path.join_all in *. cbn [fold_left].
    destruct (join_keeps_last_component base c Hc Hs) as [Hne Hend].
    rewrite <- (join_into_directory base c Hb He Hs).
    now apply IH.
Qed.

(** ** Output directories *)

Lemma ensure_directory_run (d : string) (w : World) :
  file_at d (files w) = None ->
  exists ds,
    ensure_directory d w
    = (Ok tt, mkWorld (api w) (requests w) ds (files w) (stdout w))
    /\ (forall w', dirs w' = ds -> is_dir d w' = true)
    /\ (is_dir d w = false ->
        forall w', dirs w' = ds ->
                   Forall (fun a => is_dir a w' = true) (os_path.ancestors d)).
Proof.
  intro Hfile. unfold ensure_directory, mbind, os.path_exists.
  rewrite Hfile, orb_false_r. destruct (is_dir d w) eqn:E; cbn [negb].
  - exists (dirs w). unfold mret. rewrite world_eta.
    split; [reflexivity|]. split; [|discriminate].
    intros w' Hw'. unfold is_dir in *. now rewrite Hw'.
  - unfold os.makedirs. rewrite E, Hfile. cbn [orb].
    eexists. split; [reflexivity|]. split.
    + intros w' Hw'. unfold is_dir. rewrite Hw'. cbn [existsb].
      rewrite String.eqb_refl. cbn [orb]. apply orb_true_r.
    + intros _ w' Hw'. apply Forall_forall. intros a Ha.
      unfold is_dir. rewrite Hw'. cbn [existsb]. rewrite existsb_app.
      destruct (is_dir a w) eqn:Ea.
      * unfold is_dir in Ea. apply orb_true_iff in Ea.
        destruct Ea as [Ea|Ea]; rewrite Ea; [reflexivity|].
        now rewrite !orb_true_r.
      * assert (Hin : existsb (String.eqb a)
                        (filter (fun d0 => negb (is_dir d0 w))
                                (os_path.ancestors d)) = true).
        { apply existsb_exists. exists a. split; [|apply String.eqb_refl].
          apply filter_In. split; [exact Ha | now rewrite Ea]. }
        rewrite Hin. cbn [orb]. now rewrite !orb_true_r.
Qed.

(** ** Producers that fetch one table and write it *)

Lemma simple_producer_run
  (f : F DataFrame) (d name : string) (w : World) (df : DataFrame)
  (t : list string) :
  fst (f (api w)) = Ok df -> snd (f (api w)) = t ->
  d <> "" -> endswith_slash d = false -> has_slash name = false ->
  is_dir d w = true ->
  mbind (fts_queries f)
        (fun x => write_dataframe_to_csv x (os_path.join d name)) w
  = (Ok tt, written w t (d ++ "/" ++ name) df).
Proof.
  intros Hf Ht Hd Hend Hname Hdir.
  destruct (writable_in_directory d name w Hd Hend Hname Hdir) as [Hj Hw].
  rewrite (fetch_and_write_run f _ w df Hf Hw), Ht. now rewrite Hj.
Qed.

Lemma country_file_name (output_dir object_type country : string) :
  country <> "" ->
  build_csv_path output_dir object_type (Some country)
  = os_path.join output_dir ("fts_" ++ country ++ "_" ++ object_type ++ ".csv").
Proof. destruct country; [contradiction | reflexivity]. Qed.

Lemma country_file_name_has_no_slash (country tail : string) :
  has_slash country = false -> has_slash tail = false ->
  has_slash ("fts_" ++ country ++ tail) = false.
Proof.
  intros Hc Ht. rewrite !has_slash_append, Hc, Ht. reflexivity.
Qed.

Lemma produce_emergencies_in_directory
  (d country : string) (w : World) (emergencies : DataFrame) :
  country <> "" -> has_slash country = false ->
  d <> "" -> endswith_slash d = false -> is_dir d w = true ->
  fst (fetch_emergencies_json_for_country_as_dataframe country (api w))
  = Ok emergencies ->
  produce_emergencies_csv_for_country d country w
  = (Ok tt, written w [emergencies_url country]
              (d ++ "/fts_" ++ country ++ "_emergencies.csv") emergencies).
Proof.
  intros Hc Hs Hd Hend Hdir Hf. unfold produce_emergencies_csv_for_country.
  rewrite (country_file_name d "emergencies" country Hc).
  apply (simple_producer_run
           (fetch_emergencies_json_for_country_as_dataframe country) d
           ("fts_" ++ country ++ "_emergencies.csv") w emergencies);
    try assumption.
  - apply fetch_emergencies_trace.
  - now apply country_file_name_has_no_slash.
Qed.

Lemma produce_appeals_in_directory
  (parse : string -> option Z) (d country : string) (w : World)
  (appeals : DataFrame) :
  country <> "" -> has_slash country = false ->
  d <> "" -> endswith_slash d = false -> is_dir d w = true ->
  fst (fetch_appeals_json_for_country_as_dataframe parse country (api w))
  = Ok appeals ->
  produce_appeals_csv_for_country parse d country w
  = (Ok tt, written w [appeals_url country]
              (d ++ "/fts_" ++ country ++ "_appeals.csv") appeals).
Proof.
  intros Hc Hs Hd Hend Hdir Hf. unfold produce_appeals_csv_for_country.
  rewrite (country_file_name d "appeals" country Hc).
  apply (simple_producer_run
           (fetch_appeals_json_for_country_as_dataframe parse country) d
           ("fts_" ++ country ++ "_appeals.csv") w appeals);
    try assumption.
  - apply fetch_appeals_trace.
  - now apply country_file_name_has_no_slash.
Qed.

Lemma produce_projects_in_directory
  (parse : string -> option Z) (d country : string) (w : World)
  (appeals : DataFrame) (tables : list DataFrame) (frame : DataFrame) :
  country <> "" -> has_slash country = false ->
  d <> "" -> endswith_slash d = false -> is_dir d w = true ->
  fst (fetch_appeals_json_for_country_as_dataframe parse country (api w))
  = Ok appeals ->
  Forall2 (fun id t =>
             fst (fetch_projects_json_for_appeal_as_dataframe parse id (api w))
             = Ok t) (index appeals) tables ->
  pd.concat (filter_out_empty_dataframes tables) = Ok frame ->
  produce_projects_csv_for_country parse d country w
  = (Ok tt, written w (appeals_url country :: map project_url (index appeals))
              (d ++ "/fts_" ++ country ++ "_projects.csv") frame).
Proof.
  intros Hc Hs Hd Hend Hdir Ha Hp Hframe.
  pose proof (collect_and_write_run
                (fetch_appeals_json_for_country_as_dataframe parse country)
                (fetch_projects_json_for_appeal_as_dataframe parse)
                (build_csv_path d "projects" (Some country))
                w appeals tables Ha Hp) as Hrun.
  cbv zeta in Hrun. rewrite Hframe in Hrun.
  rewrite fetch_appeals_trace in Hrun.
  rewrite (traces_of_successful_fetches _ project_url (api w) _ tables
             (fetch_projects_trace parse (api w)) Hp) in Hrun.
  destruct (writable_in_directory d ("fts_" ++ country ++ "_projects.csv") w
              Hd Hend
              (country_file_name_has_no_slash country "_projects.csv" Hs eq_refl)
              Hdir) as [Hj Hw].
  assert (E : build_csv_path d "projects" (Some country)
              = d ++ "/fts_" ++ country ++ "_projects.csv")
    by (rewrite (country_file_name d "projects" country Hc); exact Hj).
  assert (Hw' : writable (build_csv_path d "projects" (Some country)) w = true)
    by (rewrite E; rewrite Hj in Hw; exact Hw).
  rewrite <- E. rewrite Hw' in Hrun. exact Hrun.
Qed.

Lemma produce_contributions_in_directory
  (parse : string -> option Z) (d country : string) (w : World)
  (emergencies : DataFrame) (tables : list DataFrame) (frame : DataFrame) :
  country <> "" -> has_slash country = false ->
  d <> "" -> endswith_slash d = false -> is_dir d w = true ->
  fst (fetch_emergencies_json_for_country_as_dataframe country (api w))
  = Ok emergencies ->
  Forall2 (fun id t =>
             fst (fetch_contributions_json_for_emergency_as_dataframe parse id
                    (api w)) = Ok t) (index emergencies) tables ->
  pd.concat (filter_out_empty_dataframes tables) = Ok frame ->
  produce_contributions_csv_for_country parse d country w
  = (Ok tt, written w (emergencies_url country
                       :: map contribution_url (index emergencies))
              (d ++ "/fts_" ++ country ++ "_contributions.csv") frame).
Proof.
  intros Hc Hs Hd Hend Hdir He Hp Hframe.
  pose proof (collect_and_write_run
                (fetch_emergencies_json_for_country_as_dataframe country)
                (fetch_contributions_json_for_emergency_as_dataframe parse)
                (build_csv_path d "contributions" (Some country))
                w emergencies tables He Hp) as Hrun.
  cbv zeta in Hrun. rewrite Hframe in Hrun.
  rewrite fetch_emergencies_trace in Hrun.
  rewrite (traces_of_successful_fetches _ contribution_url (api w) _ tables
             (fetch_contributions_trace parse (api w)) Hp) in Hrun.
  destruct (writable_in_directory d ("fts_" ++ country ++ "_contributions.csv") w
              Hd Hend
              (country_file_name_has_no_slash country "_contributions.csv" Hs eq_refl)
              Hdir) as [Hj Hw].
  assert (E : build_csv_path d "contributions" (Some country)
              = d ++ "/fts_" ++ country ++ "_contributions.csv")
    by (rewrite (country_file_name d "contributions" country Hc); exact Hj).
  assert (Hw' : writable (build_csv_path d "contributions" (Some country)) w = true)
    by (rewrite E; rewrite Hj in Hw; exact Hw).
  rewrite <- E. rewrite Hw' in Hrun. exact Hrun.
Qed.

(** ** Aggregate producers *)

Lemma produce_global_csvs_run
  (base : string) (w : World) (sectors countries organizations : DataFrame) :
  let output_dir := os_path.join_all base ["fts"; "global"] in
  fst (fetch_sectors_json_as_dataframe (api w)) = Ok sectors ->
  fst (fetch_countries_json_as_dataframe (api w)) = Ok countries ->
  fst (fetch_organizations_json_as_dataframe (api w)) = Ok organizations ->
  file_at output_dir (files w) = None ->
  exists w',
    produce_global_csvs base w = (Ok tt, w')
    /\ files w'
       = (output_dir ++ "/fts_organizations.csv", csv_of_frame organizations)
         :: (output_dir ++ "/fts_countries.csv", csv_of_frame countries)
         :: (output_dir ++ "/fts_sectors.csv", csv_of_frame sectors)
         :: files w
    /\ is_dir output_dir w' = true
    /\ (is_dir output_dir w = false ->
        Forall (fun a => is_dir a w' = true) (os_path.ancestors output_dir)).
Proof.
  intros output_dir Hs Hc Ho Hfile.
  assert (Hgood : output_dir <> "" /\ endswith_slash output_dir = false).
  { unfold output_dir, os_path.join_all. cbn [fold_left].
    apply join_keeps_last_component; [discriminate | reflexivity]. }
  destruct Hgood as [Hne Hend].
  destruct (ensure_directory_run output_dir w Hfile) as [ds [Hens [Hdir Hanc]]].
  pose (w1 := mkWorld (api w) (requests w) ds (files w) (stdout w)).
  pose (w2 := written w1 [build_json_url "Sector"]
                (output_dir ++ "/" ++ "fts_sectors.csv") sectors).
  pose (w3 := written w2 [build_json_url "Country"]
                (output_dir ++ "/" ++ "fts_countries.csv") countries).
  pose (w4 := written w3 [build_json_url "Organization"]
                (output_dir ++ "/" ++ "fts_organizations.csv") organizations).
  assert (H1 : produce_sectors_csv output_dir w1 = (Ok tt, w2)).
  { exact (simple_producer_run fetch_sectors_json_as_dataframe output_dir
             "fts_sectors.csv" w1 sectors _ Hs (fetch_with_id_trace _ _)
             Hne Hend eq_refl (Hdir w1 eq_refl)). }
  assert (H2 : produce_countries_csv output_dir w2 = (Ok tt, w3)).
  { exact (simple_producer_run fetch_countries_json_as_dataframe output_dir
             "fts_countries.csv" w2 countries _ Hc (fetch_with_id_trace _ _)
             Hne Hend eq_refl (Hdir w2 eq_refl)). }
  assert (H3 : produce_organizations_csv output_dir w3 = (Ok tt, w4)).
  { exact (simple_producer_run fetch_organizations_json_as_dataframe output_dir
             "fts_organizations.csv" w3 organizations _ Ho
             (fetch_with_id_trace _ _) Hne Hend eq_refl (Hdir w3 eq_refl)). }
  exists w4. split.
  - unfold produce_global_csvs. cbv zeta. fold output_dir.
    unfold mbind. rewrite Hens. fold w1. rewrite H1, H2. exact H3.
  - split; [reflexivity|]. split; [exact (Hdir w4 eq_refl)|].
    intro Hmissing. exact (Hanc Hmissing w4 eq_refl).
Qed.

Lemma produce_csvs_for_country_run
  (parse : string -> option Z) (base country : string) (w : World)
  (emergencies appeals : DataFrame)
  (project_tables : list DataFrame) (projects : DataFrame)
  (contribution_tables : list DataFrame) (contributions : DataFrame) :
  let output_dir := os_path.join_all base ["fts"; "per_country"; country] in
  country <> "" -> has_slash country = false ->
  fst (fetch_emergencies_json_for_country_as_dataframe country (api w))
  = Ok emergencies ->
  fst (fetch_appeals_json_for_country_as_dataframe parse country (api w))
  = Ok appeals ->
  Forall2 (fun id t =>
             fst (fetch_projects_json_for_appeal_as_dataframe parse id (api w))
             = Ok t) (index appeals) project_tables ->
  pd.concat (filter_out_empty_dataframes project_tables) = Ok projects ->
  Forall2 (fun id t =>
             fst (fetch_contributions_json_for_emergency_as_dataframe parse id
                    (api w)) = Ok t) (index emergencies) contribution_tables ->
  pd.concat (filter_out_empty_dataframes contribution_tables)
  = Ok contributions ->
  file_at output_dir (files w) = None ->
  exists w',
    produce_csvs_for_country parse base country w = (Ok tt, w')
    /\ files w'
       = (output_dir ++ "/fts_" ++ country ++ "_contributions.csv",
          csv_of_frame contributions)
         :: (output_dir ++ "/fts_" ++ country ++ "_projects.csv",
             csv_of_frame projects)
         :: (output_dir ++ "/fts_" ++ country ++ "_appeals.csv",
             csv_of_frame appeals)
         :: (output_dir ++ "/fts_" ++ country ++ "_emergencies.csv",
             csv_of_frame emergencies)
         :: files w
    /\ is_dir output_dir w' = true
    /\ (is_dir output_dir w = false ->
        Forall (fun a => is_dir a w' = true) (os_path.ancestors output_dir)).
Proof.
  intros output_dir Hcountry Hslash He Ha Hp Hprojects Hc Hcontributions Hfile.
  assert (Hgood : output_dir <> "" /\ endswith_slash output_dir = false).
  { unfold output_dir, os_path.join_all. cbn [fold_left].
    now apply join_keeps_last_component. }
  destruct Hgood as [Hne Hend].
  destruct (ensure_directory_run output_dir w Hfile) as [ds [Hens [Hdir Hanc]]].
  pose (w1 := mkWorld (api w) (requests w) ds (files w) (stdout w)).
  pose (w2 := written w1 [emergencies_url country]
                (output_dir ++ "/fts_" ++ country ++ "_emergencies.csv")
                emergencies).
  pose (w3 := written w2 [appeals_url country]
                (output_dir ++ "/fts_" ++ country ++ "_appeals.csv") appeals).
  pose (w4 := written w3
                (appeals_url country :: map project_url (index appeals))
                (output_dir ++ "/fts_" ++ country ++ "_projects.csv") projects).
  pose (w5 := written w4
                (emergencies_url country
                 :: map contribution_url (index emergencies))
                (output_dir ++ "/fts_" ++ country ++ "_contributions.csv")
                contributions).
  assert (H1 : produce_emergencies_csv_for_country output_dir country w1
               = (Ok tt, w2)).
  { exact (produce_emergencies_in_directory output_dir country w1 emergencies
             Hcountry Hslash Hne Hend (Hdir w1 eq_refl) He). }
  assert (H2 : produce_appeals_csv_for_country parse output_dir country w2
               = (Ok tt, w3)).
  { exact (produce_appeals_in_directory parse output_dir country w2 appeals
             Hcountry Hslash Hne Hend (Hdir w2 eq_refl) Ha). }
  assert (H3 : produce_projects_csv_for_country parse output_dir country w3
               = (Ok tt, w4)).
  { exact (produce_projects_in_directory parse output_dir country w3 appeals
             project_tables projects Hcountry Hslash Hne Hend
             (Hdir w3 eq_refl) Ha Hp Hprojects). }
  assert (H4 : produce_contributions_csv_for_country parse output_dir country w4
               = (Ok tt, w5)).
  { exact (produce_contributions_in_directory parse output_dir country w4
             emergencies contribution_tables contributions Hcountry Hslash
             Hne Hend (Hdir w4 eq_refl) He Hc Hcontributions). }
  exists w5. split.
  - unfold produce_csvs_for_country. cbv zeta. fold output_dir.
    unfold mbind. rewrite Hens. fold w1. rewrite H1, H2, H3. exact H4.
  - split; [reflexivity|]. split; [exact (Hdir w5 eq_refl)|].
    intro Hmissing. exact (Hanc Hmissing w5 eq_refl).
Qed.

Lemma output_directories_below_base (base country : string) :
  base <> "" -> endswith_slash base = false ->
  os_path.join_all base ["fts"; "global"] = base ++ "/fts/global"
  /\ (country <> "" -> has_slash country = false ->
      os_path.join_all base ["fts"; "per_country"; country]
      = base ++ "/fts/per_country/" ++ country).
Proof.
  intros Hb He. split.
  - destruct (join_all_below base ["fts"; "global"] Hb He) as [E _].
    { repeat constructor; discriminate. }
    rewrite E. cbn [fold_left]. now rewrite append_assoc.
  - intros Hc Hs.
    destruct (join_all_below base ["fts"; "per_country"; country] Hb He)
      as [E _].
    { repeat constructor; try discriminate; assumption. }
    rewrite E. cbn [fold_left]. now rewrite !append_assoc.
Qed.

(** C9. With the tables fetched, and the output directory not shadowed by a
    file, the global producer writes the sector, country and organization
    tables to [fts_<type>.csv] directly inside
    [os.path.join(base, "fts", "global")], and the country producer writes
    the emergency, appeal, project and contribution tables to
    [fts_<country>_<type>.csv] directly inside
    [os.path.join(base, "fts", "per_country", country)]; these are the only
    files written.  Afterwards the output directory exists, and when it was
    missing so does every directory above it.  For a base without trailing
    slash the two directories are literally [base/fts/global] and
    [base/fts/per_country/<country>]. *)
Theorem aggregate_producers_write_at_deterministic_paths
  (parse : string -> option Z) (base country : string) (w : World) :
  (forall (sectors countries organizations : DataFrame),
      let output_dir := os_path.join_all base ["fts"; "global"] in
      fst (fetch_sectors_json_as_dataframe (api w)) = Ok sectors ->
      fst (fetch_countries_json_as_dataframe (api w)) = Ok countries ->
      fst (fetch_organizations_json_as_dataframe (api w)) = Ok organizations ->
      file_at output_dir (files w) = None ->
      exists w',
        produce_global_csvs base w = (Ok tt, w')
        /\ files w'
           = (output_dir ++ "/fts_organizations.csv",
              csv_of_frame organizations)
             :: (output_dir ++ "/fts_countries.csv", csv_of_frame countries)
             :: (output_dir ++ "/fts_sectors.csv", csv_of_frame sectors)
             :: files w
        /\ is_dir output_dir w' = true
        /\ (is_dir output_dir w = false ->
            Forall (fun a => is_dir a w' = true)
                   (os_path.ancestors output_dir)))
  /\ (forall (emergencies appeals : DataFrame)
             (project_tables : list DataFrame) (projects : DataFrame)
             (contribution_tables : list DataFrame) (contributions : DataFrame),
        let output_dir :=
          os_path.join_all base ["fts"; "per_country"; country] in
        country <> "" -> has_slash country = false ->
        fst (fetch_emergencies_json_for_country_as_dataframe country (api w))
        = Ok emergencies ->
        fst (fetch_appeals_json_for_country_as_dataframe parse country (api w))
        = Ok appeals ->
        Forall2 (fun id t =>
                   fst (fetch_projects_json_for_appeal_as_dataframe parse id
                          (api w)) = Ok t) (index appeals) project_tables ->
        pd.concat (filter_out_empty_dataframes project_tables) = Ok projects ->
        Forall2 (fun id t =>
                   fst (fetch_contributions_json_for_emergency_as_dataframe
                          parse id (api w)) = Ok t)
                (index emergencies) contribution_tables ->
        pd.concat (filter_out_empty_dataframes contribution_tables)
        = Ok contributions ->
        file_at output_dir (files w) = None ->
        exists w',
          produce_csvs_for_country parse base country w = (Ok tt, w')
          /\ files w'
             = (output_dir ++ "/fts_" ++ country ++ "_contributions.csv",
                csv_of_frame contributions)
               :: (output_dir ++ "/fts_" ++ country ++ "_projects.csv",
                   csv_of_frame projects)
               :: (output_dir ++ "/fts_" ++ country ++ "_appeals.csv",
                   csv_of_frame appeals)
               :: (output_dir ++ "/fts_" ++ country ++ "_emergencies.csv",
                   csv_of_frame emergencies)
               :: files w
          /\ is_dir output_dir w' = true
          /\ (is_dir output_dir w = false ->
              Forall (fun a => is_dir a w' = true)
                     (os_path.ancestors output_dir)))
  /\ (base <> "" -> endswith_slash base = false ->
      os_path.join_all base ["fts"; "global"] = base ++ "/fts/global"
      /\ (country <> "" -> has_slash country = false ->
          os_path.join_all base ["fts"; "per_country"; country]
          = base ++ "/fts/per_country/" ++ country)).
Proof.
  split; [|split].
  - intros sectors countries organizations.
    apply produce_global_csvs_run.
  - intros emergencies appeals project_tables projects contribution_tables
      contributions.
    apply produce_csvs_for_country_run.
  - apply output_directories_below_base.
Qed.

(** * Worked examples on the sample data *)

(** The appeal file of South Sudan below [/tmp]. *)
Lemma build_csv_path_names_witness :
  "SSD" <> ""
  /\ build_csv_path "/tmp" "appeals" (Some "SSD") = "/tmp/fts_SSD_appeals.csv".
Proof.
  split; [discriminate|].
  destruct (build_csv_path_names "/tmp" "appeals" "SSD") as [_ [H _]];
    [discriminate | exact H].
Defined.

(** The sector list carries ids and comes back indexed by them. *)
Lemma fetch_with_id_reindexes_witness :
  exists r,
    fetch_json_as_dataframe_with_id (build_json_url "Sector") sample_api
    = (Ok r, [build_json_url "Sector"])
    /\ index_name r = Some (LStr "id")
    /\ ~ In (LStr "id") (columns r).
Proof.
  edestruct (fetch_with_id_reindexes sample_api (build_json_url "Sector"))
    as [r [Hrun [Hname [_ [Habsent _]]]]].
  - reflexivity.
  - reflexivity.
  - left. reflexivity.
  - exists r. auto.
Defined.

(** A country without appeals: the empty array is returned as the empty
    table. *)
Lemma fetch_with_id_on_empty_result_witness :
  sample_api (appeals_url "XXX") = Ok (JArr [])
  /\ fetch_json_as_dataframe_with_id (appeals_url "XXX") sample_api
     = (Ok empty_frame, [appeals_url "XXX"]).
Proof.
  split; [reflexivity|].
  exact (proj1 (proj2 (fetch_with_id_on_empty_result sample_api
                         (appeals_url "XXX") eq_refl))).
Defined.

(** The appeal fetch for the country without appeals raises. *)
Lemma appeals_fetch_converts_dates_of_an_empty_result_witness :
  fetch_appeals_json_as_dataframe_given_url sample_parse (appeals_url "XXX")
    sample_api
  = (Raise (KeyError (LStr "start_date")), [appeals_url "XXX"]).
Proof.
  exact (proj1 (appeals_fetch_converts_dates_of_an_empty_result sample_parse
                  sample_api (appeals_url "XXX") (CJson (JNum 942)) "942"
                  eq_refl eq_refl eq_refl)).
Defined.

(** The normalizer itself, called on the table without rows and columns
    with one column name, raises instead of returning the table. *)
Lemma date_normalizer_raises_on_the_empty_table :
  nrows empty_frame = 0
  /\ convert_date_columns_from_string_to_timestamp sample_parse empty_frame
       ["decision_date"]
     = Raise (KeyError (LStr "decision_date"))
  /\ convert_date_columns_from_string_to_timestamp sample_parse empty_frame
       ["decision_date"]
     <> Ok empty_frame.
Proof. repeat split. discriminate. Qed.

(** A table with the date column but no rows is left as it is; the empty
    contribution and project results pass through their guards. *)
Lemma date_normalizer_on_empty_tables_witness :
  convert_date_columns_from_string_to_timestamp sample_parse
    (mkFrame None [] [(LStr "decision_date", [])]) ["decision_date"]
  = Ok (mkFrame None [] [(LStr "decision_date", [])])
  /\ fetch_contributions_json_as_dataframe_given_url sample_parse
       (build_json_url "Contribution/emergency/17000") sample_api
     = (Ok empty_frame, [build_json_url "Contribution/emergency/17000"])
  /\ fetch_projects_json_for_appeal_as_dataframe sample_parse
       (CJson (JNum 942)) sample_api
     = (Ok empty_frame, [build_json_url "Project/appeal/942"]).
Proof.
  destruct (date_normalizer_on_empty_tables sample_parse)
    as [Hpresent [_ [Hcontributions Hprojects]]].
  split; [|split].
  - apply Hpresent.
    + repeat constructor.
    + reflexivity.
    + intros n [<- | []]. left. reflexivity.
  - apply Hcontributions; reflexivity.
  - apply (Hprojects sample_api (CJson (JNum 942)) "942"); reflexivity.
Defined.

(** The funding report read from a list holding one record: the record
    becomes a single row, its two grouping entries become two positional
    columns, and indexing by the alias raises. *)
Lemma grouping_record_list_is_not_flattened :
  fetch_funding_json_for_appeal_as_dataframe (CJson (JNum 942)) (Some "Donor")
    (Some "donor") (funding_api grouping_record_list)
  = (Raise (KeyError (LStr "donor")), [funding_url])
  /\ fst (fetch_funding_json_for_appeal_as_dataframe (CJson (JNum 942))
            (Some "Donor") (Some "donor") (funding_api grouping_record_list))
     <> Ok (mkFrame (Some (LStr "donor"))
              [CJson (JStr "A"); CJson (JStr "B")]
              [(LStr "funding", [CJson (JNum 5); CJson (JNum 7)])])
  /\ fetch_funding_json_for_appeal_as_dataframe (CJson (JNum 942))
       (Some "Donor") None (funding_api grouping_record_list)
     = (Ok (mkFrame None [CJson (JNum 0)]
              [(LPos 0, [CJson (JObj [("type", JStr "A"); ("amount", JNum 5)])]);
               (LPos 1, [CJson (JObj [("type", JStr "B"); ("amount", JNum 7)])])]),
        [funding_url]).
Proof. split; [reflexivity|]. split; [discriminate | reflexivity]. Qed.

(** The funding report read from the response object. *)
Lemma grouping_report_of_a_response_object_witness :
  fst (fetch_funding_json_for_appeal_as_dataframe (CJson (JNum 942))
         (Some "Donor") (Some "donor") (funding_api grouping_object))
  = Ok (mkFrame (Some (LStr "donor"))
          [CJson (JStr "A"); CJson (JStr "B")]
          [(LStr "funding", [CJson (JNum 5); CJson (JNum 7)])]).
Proof.
  exact (grouping_report_of_a_response_object (funding_api grouping_object)
           (CJson (JNum 942)) "942" (Some "Donor") eq_refl eq_refl).
Defined.

(** South Sudan: appeal 942 has no project, appeal 943 has three; the CSV
    holds the three, in order. *)
Lemma produce_projects_csv_concatenates_in_appeal_order_witness :
  exists w' csv,
    produce_projects_csv_for_country sample_parse "/tmp" "SSD" sample_world
    = (Ok tt, w')
    /\ requests w'
       = [build_json_url "Appeal/country/SSD";
          build_json_url "Project/appeal/942";
          build_json_url "Project/appeal/943"]
    /\ file_at "/tmp/fts_SSD_projects.csv" (files w') = Some csv
    /\ map (hd NaN) (csv_rows csv)
       = [CJson (JNum 501); CJson (JNum 502); CJson (JNum 503)]
    /\ List.length (csv_rows csv) = 3.
Proof.
  edestruct (produce_projects_csv_concatenates_in_appeal_order sample_parse
               "/tmp" "SSD" sample_world)
    as [frame [w' [Hrun [Hreq [_ [Hframe [_ [_ [Hfile [Hrows [_ Hthree]]]]]]]]]]].
  - reflexivity.
  - repeat constructor.
  - discriminate.
  - reflexivity.
  - exists w', (csv_of_frame frame). split; [exact Hrun|].
    split; [exact Hreq|]. split; [exact Hfile|]. split; [exact Hrows|].
    eapply Hthree; [reflexivity|]. left. repeat split.
Defined.

(** A country without appeals: the project producer stops in the appeal
    fetch, before any concatenation. *)
Lemma no_appeals_failure_is_not_the_concatenation :
  sample_api (appeals_url "XXX") = Ok (JArr [])
  /\ fst (produce_projects_csv_for_country sample_parse "/tmp" "XXX"
            sample_world)
     = Raise (KeyError (LStr "start_date"))
  /\ fst (produce_projects_csv_for_country sample_parse "/tmp" "XXX"
            sample_world)
     <> Raise (ValueError "No objects to concatenate").
Proof. repeat split. discriminate. Qed.

(** Yemen has one appeal without projects and one emergency without
    contributions; [XXX] has no emergency at all. *)
Lemma producers_fail_on_concatenating_nothing_witness :
  fst (produce_projects_csv_for_country sample_parse "/tmp" "YEM" sample_world)
  = Raise (ValueError "No objects to concatenate")
  /\ fst (produce_contributions_csv_for_country sample_parse "/tmp" "YEM"
            sample_world)
     = Raise (ValueError "No objects to concatenate")
  /\ fst (produce_contributions_csv_for_country sample_parse "/tmp" "XXX"
            sample_world)
     = Raise (ValueError "No objects to concatenate").
Proof.
  split; [|split].
  - erewrite (proj1 (producers_fail_on_concatenating_nothing sample_parse
                       "/tmp" "YEM" sample_world)).
    + reflexivity.
    + reflexivity.
    + repeat constructor.
    + repeat constructor.
  - erewrite (proj2 (producers_fail_on_concatenating_nothing sample_parse
                       "/tmp" "YEM" sample_world)).
    + reflexivity.
    + reflexivity.
    + repeat constructor.
    + repeat constructor.
  - erewrite (proj2 (producers_fail_on_concatenating_nothing sample_parse
                       "/tmp" "XXX" sample_world)).
    + reflexivity.
    + reflexivity.
    + constructor.
    + constructor.
Defined.

(** Both aggregate producers run below [/tmp]. *)
Lemma aggregate_producers_write_at_deterministic_paths_witness :
  (exists w',
      produce_global_csvs "/tmp" sample_world = (Ok tt, w')
      /\ map fst (files w')
         = ["/tmp/fts/global/fts_organizations.csv";
            "/tmp/fts/global/fts_countries.csv";
            "/tmp/fts/global/fts_sectors.csv"]
      /\ is_dir "/tmp/fts/global" w' = true)
  /\ (exists w',
        produce_csvs_for_country sample_parse "/tmp" "SSD" sample_world
        = (Ok tt, w')
        /\ map fst (files w')
           = ["/tmp/fts/per_country/SSD/fts_SSD_contributions.csv";
              "/tmp/fts/per_country/SSD/fts_SSD_projects.csv";
              "/tmp/fts/per_country/SSD/fts_SSD_appeals.csv";
              "/tmp/fts/per_country/SSD/fts_SSD_emergencies.csv"]
        /\ is_dir "/tmp/fts/per_country/SSD" w' = true).
Proof.
  destruct (aggregate_producers_write_at_deterministic_paths sample_parse
              "/tmp" "SSD" sample_world) as [Hglobal [Hcountry _]].
  split.
  - edestruct Hglobal as [w' [Hrun [Hfiles [Hdir _]]]];
      [reflexivity | reflexivity | reflexivity | reflexivity |].
    exists w'. split; [exact Hrun|]. split; [|exact Hdir].
    rewrite Hfiles. reflexivity.
  - edestruct Hcountry as [w' [Hrun [Hfiles [Hdir _]]]].
    + discriminate.
    + reflexivity.
    + reflexivity.
    + reflexivity.
    + repeat constructor.
    + reflexivity.
    + repeat constructor.
    + reflexivity.
    + reflexivity.
    + exists w'. split; [exact Hrun|]. split; [|exact Hdir].
      rewrite Hfiles. reflexivity.
Defined.

(** * Further properties *)

(** ** Shape of the tables that are read *)

Lemma rmap_length {A B} (f : A -> result B) (l : list A) :
  forall l', rmap f l = Ok l' -> List.length l' = List.length l.
Proof.
  induction l as [|x l IH]; intros l' H; cbn [rmap] in H.
  - injection H as <-. reflexivity.
  - destruct (f x) as [y|e]; cbn [rbind] in H; [|discriminate].
    destruct (rmap f l) as [ys|e]; cbn [rbind] in H; [|discriminate].
    injection H as <-. cbn [List.length]. f_equal. now apply IH.
Qed.

Lemma range_index_length (n : nat) : List.length (range_index n) = n.
Proof. unfold range_index. now rewrite length_map, length_seq. Qed.

Lemma generated_columns_well_formed
  (name : option label) (n : nat) (labels : list label)
  (g : label -> list cell) :
  (forall l, In l labels -> List.length (g l) = n) ->
  well_formed (mkFrame name (range_index n) (map (fun l => (l, g l)) labels)).
Proof.
  intro H. unfold well_formed, nrows. cbn [index data].
  rewrite range_index_length. apply Forall_forall.
  intros col Hcol. apply in_map_iff in Hcol. destruct Hcol as [l [<- Hl]].
  now apply H.
Qed.

Lemma frame_of_dicts_shape (rows : list cell) (df : DataFrame) :
  frame_of_dicts rows = Ok df ->
  well_formed df /\ index_name df = None
  /\ nrows df = List.length rows.
Proof.
  unfold frame_of_dicts. destruct (rmap as_dict rows) as [ds|e] eqn:E;
    cbn [rbind]; [|discriminate].
  intro H. injection H as <-. apply rmap_length in E.
  split; [|split].
  - apply generated_columns_well_formed. intros l _. apply length_map.
  - reflexivity.
  - unfold nrows. cbn [index]. now rewrite range_index_length.
Qed.

Lemma frame_of_lists_shape (rows : list cell) (df : DataFrame) :
  frame_of_lists rows = Ok df ->
  well_formed df /\ index_name df = None
  /\ nrows df = List.length rows.
Proof.
  unfold frame_of_lists. destruct (rmap as_row rows) as [rs|e] eqn:E;
    cbn [rbind]; [|discriminate].
  intro H. injection H as <-. apply rmap_length in E.
  split; [|split].
  - unfold well_formed, nrows. cbn [index data].
    rewrite range_index_length. apply Forall_forall.
    intros col Hcol. apply in_map_iff in Hcol. destruct Hcol as [j [<- _]].
    apply length_map.
  - reflexivity.
  - unfold nrows. cbn [index]. now rewrite range_index_length.
Qed.

Lemma frame_of_rows_shape (rows : list cell) (df : DataFrame) :
  frame_of_rows rows = Ok df ->
  well_formed df /\ index_name df = None
  /\ nrows df = List.length rows.
Proof.
  unfold frame_of_rows. destruct rows as [|first rest].
  - intro H. injection H as <-. repeat split. constructor.
  - destruct (is_dict first);
      [apply frame_of_dicts_shape | apply frame_of_lists_shape].
Qed.

Lemma frame_of_dict_shape (fields : list (string * json)) (df : DataFrame) :
  frame_of_dict fields = Ok df -> well_formed df /\ index_name df = None.
Proof.
  unfold frame_of_dict.
  destruct (rmap _ (uniq [] (map (fun kv => LStr (fst kv)) fields)))
    as [cols|e]; cbn [rbind]; [|discriminate].
  destruct cols as [|c cols].
  { intro H. injection H as <-. split; [constructor | reflexivity]. }
  cbv iota. remember (c :: cols) as all eqn:Eall. clear Eall c cols.
  destruct (first_some _) as [n|]; [|discriminate].
  destruct (forallb _ all) eqn:Hall; [|discriminate].
  intro H. injection H as <-. split; [|reflexivity].
  unfold well_formed, nrows. cbn [index data].
  rewrite range_index_length. apply Forall_forall.
  intros col Hcol. apply in_map_iff in Hcol.
  destruct Hcol as [lc [<- Hlc]]. cbn [snd].
  rewrite forallb_forall in Hall. specialize (Hall lc Hlc).
  destruct (snd lc) as [l|s]; cbn in Hall.
  - now apply Nat.eqb_eq in Hall.
  - apply repeat_length.
Qed.

Lemma read_json_body_shape (body : json) (df : DataFrame) :
  pd.read_json_body body = Ok df ->
  well_formed df /\ index_name df = None.
Proof.
  unfold pd.read_json_body. destruct body as [| | | |items|fields];
    try discriminate.
  - destruct items as [|first rest].
    { intro H. injection H as <-. split; [constructor | reflexivity]. }
    assert (Hrows : frame_of_rows (map cell_of_json (first :: rest)) = Ok df ->
                    well_formed df /\ index_name df = None).
    { intro H. apply frame_of_rows_shape in H. tauto. }
    assert (Hone : Ok (mkFrame None (range_index (List.length (first :: rest)))
                         [(LPos 0, map cell_of_json (first :: rest))]) = Ok df ->
                   well_formed df /\ index_name df = None).
    { intro H. injection H as <-. split; [|reflexivity].
      unfold well_formed, nrows. cbn [index data].
      rewrite range_index_length. constructor; [|constructor].
      cbn [snd List.length map]. now rewrite length_map. }
    destruct first; assumption.
  - apply frame_of_dict_shape.
Qed.

Lemma read_json_body_default_index (body : json) (df : DataFrame) :
  pd.read_json_body body = Ok df -> index df = range_index (nrows df).
Proof.
  intro H.
  assert (Hk : exists k, index df = range_index k).
  { unfold pd.read_json_body in H. destruct body as [| | | |items|fields];
      try discriminate.
    - destruct items as [|first rest].
      { injection H as <-. now exists 0. }
      assert (Hrows : frame_of_rows (map cell_of_json (first :: rest)) = Ok df ->
                      exists k, index df = range_index k).
      { unfold frame_of_rows. cbn [map].
        destruct (is_dict (cell_of_json first)).
        - unfold frame_of_dicts. destruct (rmap as_dict _) as [ds|e];
            cbn [rbind]; [|discriminate].
          intro E. injection E as <-. eexists. reflexivity.
        - unfold frame_of_lists. destruct (rmap as_row _) as [rs|e];
            cbn [rbind]; [|discriminate].
          intro E. injection E as <-. eexists. reflexivity. }
      destruct first; try (apply Hrows; exact H);
        injection H as <-; eexists; reflexivity.
    - unfold frame_of_dict in H.
      destruct (rmap _ (uniq [] (map (fun kv => LStr (fst kv)) fields)))
        as [cols|e]; cbn [rbind] in H; [|discriminate].
      destruct cols as [|c cols].
      { injection H as <-. now exists 0. }
      cbv iota in H. destruct (first_some _) as [n|]; [|discriminate].
      destruct (forallb _ _); [|discriminate].
      injection H as <-. eexists. reflexivity. }
  destruct Hk as [k Hk]. unfold nrows. rewrite Hk.
  now rewrite range_index_length.
Qed.

Lemma get_column_member (l : label) (df : DataFrame) (values : list cell) :
  DF.get_column l df = Some values -> In (l, values) (data df).
Proof.
  unfold DF.get_column. destruct (find _ (data df)) as [[k v]|] eqn:E;
    [|discriminate].
  intro H. injection H as <-. apply find_some in E. destruct E as [Hin Hk].
  cbn [fst] in Hk. apply label_eqb_eq in Hk. now subst k.
Qed.

Lemma get_column_absent (l : label) (df : DataFrame) :
  ~ In l (columns df) -> DF.get_column l df = None.
Proof.
  intro H. unfold DF.get_column. now rewrite find_column_absent.
Qed.

Lemma get_column_length (l : label) (df : DataFrame) (values : list cell) :
  well_formed df -> DF.get_column l df = Some values ->
  List.length values = nrows df.
Proof.
  intros Hwf H. apply get_column_member in H.
  unfold well_formed in Hwf. rewrite Forall_forall in Hwf.
  exact (Hwf _ H).
Qed.

Lemma set_index_shape (l : label) (df r : DataFrame) :
  well_formed df -> DF.set_index l df = Ok r ->
  well_formed r /\ nrows r = nrows df /\ index_name r = Some l.
Proof.
  intros Hwf. unfold DF.set_index.
  destruct (DF.get_column l df) as [values|] eqn:E; [|discriminate].
  intro H. injection H as <-.
  pose proof (get_column_length l df values Hwf E) as Hlen.
  split; [|split; [exact Hlen | reflexivity]].
  unfold well_formed, nrows in *. cbn [index data]. rewrite Hlen.
  rewrite Forall_forall in *. intros col Hcol. apply filter_In in Hcol.
  now apply Hwf.
Qed.

(** ** The table fetcher on every readable response *)

(** X1. Whenever the response can be read into a table, the fetch with id
    succeeds after one request: checking for the ["id"] column first, it
    never raises from indexing.  The result is well formed and has as many
    rows as the table read; it is indexed by ["id"] when that column is
    there, and otherwise it is the table as read, rows labelled by
    position. *)
Theorem fetch_with_id_keeps_the_rows
  (api : remote) (url : string) (df : DataFrame)
  (Hread : rbind (api url) pd.read_json_body = Ok df) :
  exists r,
    fetch_json_as_dataframe_with_id url api = (Ok r, [url])
    /\ well_formed r
    /\ nrows r = nrows df
    /\ (In (LStr "id") (columns df) -> index_name r = Some (LStr "id"))
    /\ (~ In (LStr "id") (columns df) ->
        r = df /\ index_name r = None /\ index r = range_index (nrows r)).
Proof.
  assert (Hshape : well_formed df /\ index_name df = None
                   /\ index df = range_index (nrows df)).
  { destruct (api url) as [body|e]; cbn [rbind] in Hread; [|discriminate].
    destruct (read_json_body_shape body df Hread) as [Hwf Hname].
    now rewrite <- (read_json_body_default_index body df Hread). }
  destruct Hshape as [Hwf [Hname Hidx]].
  rewrite (fetch_with_id_run api url df Hread).
  destruct (label_mem (LStr "id") (columns df)) eqn:Hmem.
  - apply label_mem_In in Hmem.
    destruct (get_column_present _ _ Hmem) as [values Hvalues].
    assert (Hset : DF.set_index (LStr "id") df
                   = Ok (mkFrame (Some (LStr "id")) values
                           (filter (fun col => negb (label_eqb (LStr "id")
                                                       (fst col))) (data df))))
      by (unfold DF.set_index; now rewrite Hvalues).
    destruct (set_index_shape _ _ _ Hwf Hset) as [Hwf' [Hrows Hname']].
    eexists. split; [rewrite Hset; reflexivity|].
    split; [exact Hwf'|]. split; [exact Hrows|].
    split; [reflexivity | contradiction].
  - exists df. split; [reflexivity|]. split; [exact Hwf|].
    split; [reflexivity|]. split.
    + intro Hin. apply label_mem_In in Hin. congruence.
    + intros _. auto.
Qed.

(** A cluster-like payload, here the grouping record list, carries no id. *)
Lemma fetch_with_id_keeps_the_rows_witness :
  exists r,
    fetch_json_as_dataframe_with_id funding_url
      (funding_api grouping_record_list) = (Ok r, [funding_url])
    /\ nrows r = 1 /\ index_name r = None.
Proof.
  edestruct (fetch_with_id_keeps_the_rows (funding_api grouping_record_list)
               funding_url) as [r [Hrun [_ [Hrows [_ Hplain]]]]].
  - reflexivity.
  - exists r. split; [exact Hrun|]. split; [exact Hrows|].
    apply Hplain. intros [H | []]. discriminate H.
Defined.

(** X2. A failed request, or a body that cannot be read into a table,
    surfaces unchanged: the table fetcher, the fetch with id and the appeal
    and contribution fetches raise that very exception after the single
    request, and a producer built on them stops there, having written and
    announced nothing. *)
Theorem fetch_failure_propagates
  (parse : string -> option Z) (service : remote) (url : string) (e : exn)
  (Hfail : rbind (service url) pd.read_json_body = Raise e) :
  fetch_json_as_dataframe url service = (Raise e, [url])
  /\ fetch_json_as_dataframe_with_id url service = (Raise e, [url])
  /\ fetch_appeals_json_as_dataframe_given_url parse url service
     = (Raise e, [url])
  /\ fetch_contributions_json_as_dataframe_given_url parse url service
     = (Raise e, [url])
  /\ (forall (output_dir country : string) (w : World),
        api w = service -> appeals_url country = url ->
        produce_appeals_csv_for_country parse output_dir country w
        = (Raise e,
           mkWorld (api w) (requests w ++ [url])%list (dirs w) (files w)
             (stdout w))).
Proof.
  assert (H1 : fetch_json_as_dataframe url service = (Raise e, [url]))
    by now rewrite fetch_json_as_dataframe_run, Hfail.
  assert (H2 : fetch_json_as_dataframe_with_id url service = (Raise e, [url]))
    by (unfold fetch_json_as_dataframe_with_id, fbind; now rewrite H1).
  assert (H3 : fetch_appeals_json_as_dataframe_given_url parse url service
               = (Raise e, [url]))
    by (unfold fetch_appeals_json_as_dataframe_given_url, fbind;
        now rewrite H2).
  repeat split; try assumption.
  - unfold fetch_contributions_json_as_dataframe_given_url, fbind.
    now rewrite H2.
  - intros output_dir country w Hw Hurl.
    unfold produce_appeals_csv_for_country, mbind.
    rewrite fts_queries_run.
    unfold fetch_appeals_json_for_country_as_dataframe.
    fold (appeals_url country). rewrite Hw, Hurl, H3. reflexivity.
Qed.

(** The sample API knows no clusters. *)
Lemma fetch_failure_propagates_witness :
  fetch_json_as_dataframe_with_id (build_json_url "Cluster/appeal/942")
    sample_api
  = (Raise (URLError (build_json_url "Cluster/appeal/942")),
     [build_json_url "Cluster/appeal/942"]).
Proof.
  exact (proj1 (proj2 (fetch_failure_propagates sample_parse sample_api
                         (build_json_url "Cluster/appeal/942") _ eq_refl))).
Defined.

(** ** The date normalizer on tables with rows *)

Lemma setitem_present (k : label) (values : list cell) (df : DataFrame) :
  In k (columns df) ->
  index (DF.setitem k values df) = index df
  /\ index_name (DF.setitem k values df) = index_name df
  /\ columns (DF.setitem k values df) = columns df
  /\ DF.get_column k (DF.setitem k values df) = Some values
  /\ (forall l, l <> k ->
        DF.get_column l (DF.setitem k values df) = DF.get_column l df)
  /\ (well_formed df -> List.length values = nrows df ->
      well_formed (DF.setitem k values df)).
Proof.
  intro Hin. unfold DF.setitem.
  apply label_mem_In in Hin as Hmem. rewrite Hmem.
  unfold columns, DF.get_column, well_formed, nrows. cbn [index index_name data].
  split; [reflexivity|]. split; [reflexivity|].
  split.
  { rewrite map_map. apply map_ext. intros [c v]. cbn [fst].
    now destruct (label_eqb k c). }
  split.
  { unfold columns in Hin. induction (data df) as [|[c v] cols IH];
      [contradiction|].
    cbn [map find fst]. destruct (label_eqb k c) eqn:E; cbn [fst].
    - now rewrite E.
    - rewrite E. apply IH. destruct Hin as [Hc|Hin]; [|exact Hin].
      cbn [fst] in Hc. subst c. now rewrite label_eqb_refl in E. }
  split.
  { intros l Hl. f_equal. induction (data df) as [|[c v] cols IH];
      [reflexivity|].
    cbn [map find fst]. destruct (label_eqb k c) eqn:E; cbn [fst].
    - apply label_eqb_eq in E. subst c.
      destruct (label_eqb l k) eqn:El.
      + apply label_eqb_eq in El. contradiction.
      + apply IH.
    - destruct (label_eqb l c); [reflexivity | apply IH]. }
  intros Hwf Hlen. rewrite Forall_forall in *.
  intros col Hcol. apply in_map_iff in Hcol.
  destruct Hcol as [[c v] [<- Hcv]]. cbn [fst].
  destruct (label_eqb k c); [exact Hlen | exact (Hwf _ Hcv)].
Qed.

Lemma getitem_present (l : label) (df : DataFrame) (col : list cell) :
  DF.getitem l df = Ok col ->
  DF.get_column l df = Some col /\ In l (columns df).
Proof.
  unfold DF.getitem. destruct (DF.get_column l df) as [c|] eqn:E;
    [|discriminate].
  intro H. injection H as <-. split; [reflexivity|].
  apply get_column_member in E. unfold columns.
  apply in_map_iff. now exists (l, c).
Qed.

Lemma parsed_cells (parse : string -> option Z) (col : list cell) :
  forall converted,
    DF.apply (parse_cell parse) col = Ok converted <->
    Forall2 (parses_to parse) col converted.
Proof.
  unfold DF.apply. induction col as [|c col IH]; intro converted.
  - cbn [rmap]. split.
    + intro H. injection H as <-. constructor.
    + intro H. inversion H. reflexivity.
  - cbn [rmap]. split.
    + intro H. destruct (parse_cell parse c) as [t|e] eqn:Ec;
        cbn [rbind] in H; [|discriminate].
      destruct (rmap (parse_cell parse) col) as [ts|e] eqn:Ecol;
        cbn [rbind] in H; [|discriminate].
      injection H as <-. constructor; [|now apply IH].
      unfold parse_cell in Ec. destruct c as [|[| | |s| |]|]; try discriminate.
      destruct (parse s) as [ns|] eqn:Es; [|discriminate].
      injection Ec as <-. now exists s, ns.
    + intro H. inversion H as [|c' t col' ts [s [ns [Hc [Hs Ht]]]] Hrest];
        subst.
      apply IH in Hrest. rewrite Hrest. unfold parse_cell. rewrite Hs.
      reflexivity.
Qed.

Lemma parseable_column (parse : string -> option Z) (col : list cell) :
  Forall (fun c => exists t, parses_to parse c t) col <->
  exists converted, DF.apply (parse_cell parse) col = Ok converted.
Proof.
  split.
  - intro H. induction H as [|c col [t Ht] _ [ts IH]].
    + exists []. reflexivity.
    + exists (t :: ts). apply parsed_cells. constructor; [exact Ht|].
      now apply parsed_cells.
  - intros [converted H]. apply parsed_cells in H.
    induction H as [|c t col ts Hc _ IH]; constructor; eauto.
Qed.

Lemma convert_step
  (parse : string -> option Z) (df df' : DataFrame) (n : string)
  (names : list string) :
  convert_date_columns_from_string_to_timestamp parse df (n :: names) = Ok df'
  <-> exists col converted,
        DF.get_column (LStr n) df = Some col
        /\ DF.apply (parse_cell parse) col = Ok converted
        /\ convert_date_columns_from_string_to_timestamp parse
             (DF.setitem (LStr n) converted df) names = Ok df'.
Proof.
  cbn [convert_date_columns_from_string_to_timestamp]. unfold DF.getitem.
  split.
  - destruct (DF.get_column (LStr n) df) as [col|]; cbn [rbind];
      [|discriminate].
    destruct (DF.apply (parse_cell parse) col) as [converted|e] eqn:E;
      cbn [rbind]; [|discriminate].
    intro H. now exists col, converted.
  - intros [col [converted [Hcol [Hconv H]]]].
    rewrite Hcol. cbn [rbind]. rewrite Hconv. exact H.
Qed.

Lemma convert_invariants (parse : string -> option Z) (names : list string) :
  forall df df',
    convert_date_columns_from_string_to_timestamp parse df names = Ok df' ->
    index df' = index df
    /\ index_name df' = index_name df
    /\ columns df' = columns df
    /\ (well_formed df -> well_formed df')
    /\ (forall l, ~ In l (map LStr names) ->
          DF.get_column l df' = DF.get_column l df)
    /\ (NoDup names ->
        forall n col, In n names -> DF.get_column (LStr n) df = Some col ->
          exists col', DF.get_column (LStr n) df' = Some col'
                       /\ Forall2 (parses_to parse) col col').
Proof.
  induction names as [|n names IH]; intros df df' H.
  - injection H as <-. repeat split; auto. intros _ n col [].
  - apply convert_step in H.
    destruct H as [col [converted [Hcol [Hconv H]]]].
    assert (Hin : In (LStr n) (columns df)).
    { apply get_column_member in Hcol. unfold columns.
      apply in_map_iff. now exists (LStr n, col). }
    destruct (setitem_present (LStr n) converted df Hin)
      as [Si [Sn [Sc [Ssame [Sother Swf]]]]].
    destruct (IH _ _ H) as [Ii [In_ [Ic [Iwf [Iother Inamed]]]]].
    split; [congruence|]. split; [congruence|]. split; [congruence|].
    split.
    { intro Hwf. apply Iwf, Swf; [exact Hwf|].
      unfold DF.apply in Hconv. rewrite (rmap_length _ _ _ Hconv).
      exact (get_column_length _ _ _ Hwf Hcol). }
    split.
    { intros l Hl. cbn [map] in Hl.
      rewrite Iother by (intro; apply Hl; now right).
      apply Sother. intro E. apply Hl. now left. }
    intros Hnd m colm Hm Hcolm. inversion Hnd as [|? ? Hfresh Hnd']; subst.
    destruct Hm as [<- | Hm].
    + exists converted. split.
      * rewrite Iother; [exact Ssame|].
        intro E. apply in_map_iff in E. destruct E as [x [Ex Hx]].
        injection Ex as ->. contradiction.
      * rewrite Hcol in Hcolm. injection Hcolm as <-. now apply parsed_cells.
    + apply (Inamed Hnd' m colm Hm).
      rewrite Sother; [exact Hcolm|]. intro E. injection E as ->.
      contradiction.
Qed.

Lemma convert_succeeds_iff (parse : string -> option Z) (names : list string) :
  NoDup names ->
  forall df,
    (exists df',
        convert_date_columns_from_string_to_timestamp parse df names = Ok df')
    <-> Forall (fun n => exists col,
                    DF.get_column (LStr n) df = Some col
                    /\ Forall (fun c => exists t, parses_to parse c t) col)
               names.
Proof.
  intro Hnd. induction Hnd as [|n names Hfresh Hnd IH]; intro df.
  - split; [constructor | intros _; now exists df].
  - assert (Hother : forall converted, In (LStr n) (columns df) ->
              forall m, In m names ->
                DF.get_column (LStr m) (DF.setitem (LStr n) converted df)
                = DF.get_column (LStr m) df).
    { intros converted Hin m Hm.
      destruct (setitem_present (LStr n) converted df Hin)
        as [_ [_ [_ [_ [Sother _]]]]].
      apply Sother. intro E. injection E as ->. contradiction. }
    split.
    + intros [df' H]. apply convert_step in H.
      destruct H as [col [converted [Hcol [Hconv H]]]].
      assert (Hin : In (LStr n) (columns df)).
      { apply get_column_member in Hcol. unfold columns.
        apply in_map_iff. now exists (LStr n, col). }
      constructor.
      * exists col. split; [exact Hcol|]. apply parseable_column. eauto.
      * assert (Htail : exists df'',
                  convert_date_columns_from_string_to_timestamp parse
                    (DF.setitem (LStr n) converted df) names = Ok df'')
          by eauto.
        apply IH in Htail. rewrite Forall_forall in *.
        intros m Hm. destruct (Htail m Hm) as [colm [Hcolm Hp]].
        exists colm. split; [|exact Hp].
        now rewrite <- (Hother converted Hin m Hm).
    + intro H. inversion H as [|? ? [col [Hcol Hp]] Htail]; subst.
      apply parseable_column in Hp. destruct Hp as [converted Hconv].
      assert (Hin : In (LStr n) (columns df)).
      { apply get_column_member in Hcol. unfold columns.
        apply in_map_iff. now exists (LStr n, col). }
      assert (Hnext : exists df',
                convert_date_columns_from_string_to_timestamp parse
                  (DF.setitem (LStr n) converted df) names = Ok df').
      { apply IH. rewrite Forall_forall in *. intros m Hm.
        destruct (Htail m Hm) as [colm [Hcolm Hpm]].
        exists colm. split; [|exact Hpm].
        now rewrite (Hother converted Hin m Hm). }
      destruct Hnext as [df' Hdf']. exists df'.
      apply convert_step. now exists col, converted.
Qed.

Lemma convert_needs_every_column
  (parse : string -> option Z) (n : string) (names : list string) :
  In n names ->
  forall df, ~ In (LStr n) (columns df) ->
    forall df',
      convert_date_columns_from_string_to_timestamp parse df names <> Ok df'.
Proof.
  induction names as [|m names IH]; [contradiction|].
  intros Hn df Habsent df' H. apply convert_step in H.
  destruct H as [col [converted [Hcol [_ H]]]].
  assert (Hin : In (LStr m) (columns df)).
  { apply get_column_member in Hcol. unfold columns.
    apply in_map_iff. now exists (LStr m, col). }
  destruct Hn as [-> | Hn]; [contradiction|].
  destruct (setitem_present (LStr m) converted df Hin) as [_ [_ [Sc _]]].
  apply (IH Hn (DF.setitem (LStr m) converted df)) in H; [exact H|].
  now rewrite Sc.
Qed.

(** X3. For distinct column names the normalizer succeeds exactly when
    every named column is in the table and every cell of those columns is
    a text the date parser accepts: a missing column, a cell that is not
    text, or a malformed date makes it raise. *)
Theorem date_conversion_succeeds_exactly_when_parseable
  (parse : string -> option Z) (dataframe : DataFrame)
  (column_names : list string) (Hdistinct : NoDup column_names) :
  (exists converted,
      convert_date_columns_from_string_to_timestamp parse dataframe
        column_names = Ok converted)
  <-> Forall (fun n => exists col,
                  DF.get_column (LStr n) dataframe = Some col
                  /\ Forall (fun c => exists t, parses_to parse c t) col)
             column_names.
Proof. now apply convert_succeeds_iff. Qed.

(** The sample contribution has a well-formed decision date. *)
Lemma date_conversion_succeeds_exactly_when_parseable_witness :
  exists converted,
    convert_date_columns_from_string_to_timestamp sample_parse
      sample_contribution_frame ["decision_date"] = Ok converted.
Proof.
  apply (date_conversion_succeeds_exactly_when_parseable sample_parse
           sample_contribution_frame ["decision_date"]).
  - repeat constructor. intros [].
  - repeat constructor. eexists. split; [reflexivity|].
    repeat constructor. eexists. exists "2014-01-01". eexists.
    repeat split.
Defined.

(** X4. A successful normalization changes nothing but the named columns:
    the row index and its name, the column labels and their order, and
    every column that was not named stay as they were, a well-formed table
    stays well formed, and (for distinct names) each named column holds,
    cell by cell, the timestamp of the text that was there. *)
Theorem date_conversion_touches_only_named_columns
  (parse : string -> option Z) (dataframe converted : DataFrame)
  (column_names : list string)
  (Hconverted :
     convert_date_columns_from_string_to_timestamp parse dataframe
       column_names = Ok converted) :
  index converted = index dataframe
  /\ index_name converted = index_name dataframe
  /\ columns converted = columns dataframe
  /\ (well_formed dataframe -> well_formed converted)
  /\ (forall l, ~ In l (map LStr column_names) ->
        DF.get_column l converted = DF.get_column l dataframe)
  /\ (NoDup column_names ->
      forall n col, In n column_names ->
        DF.get_column (LStr n) dataframe = Some col ->
        exists col', DF.get_column (LStr n) converted = Some col'
                     /\ Forall2 (parses_to parse) col col').
Proof. now apply convert_invariants. Qed.

(** Converting the decision date of the sample contribution keeps its
    amount and its index. *)
Lemma date_conversion_touches_only_named_columns_witness :
  exists converted,
    convert_date_columns_from_string_to_timestamp sample_parse
      sample_contribution_frame ["decision_date"] = Ok converted
    /\ index converted = [CJson (JNum 9001)]
    /\ DF.get_column (LStr "amount") converted = Some [CJson (JNum 100)].
Proof.
  eexists. split; [reflexivity|].
  destruct (date_conversion_touches_only_named_columns sample_parse
              sample_contribution_frame _ ["decision_date"] eq_refl)
    as [Hindex [_ [_ [_ [Hother _]]]]].
  split; [exact Hindex|]. rewrite Hother; [reflexivity|].
  intros [H | []]. discriminate H.
Defined.

(** X5. The normalizer cannot be applied twice: once a named column with
    at least one row has been converted, its cells are timestamps and no
    longer text, so a second normalization of the same columns never
    succeeds. *)
Theorem date_conversion_is_not_repeatable
  (parse : string -> option Z) (dataframe converted : DataFrame)
  (column_names : list string) (n : string) (col : list cell)
  (Hdistinct : NoDup column_names)
  (Hconverted :
     convert_date_columns_from_string_to_timestamp parse dataframe
       column_names = Ok converted)
  (Hnamed : In n column_names)
  (Hcol : DF.get_column (LStr n) dataframe = Some col)
  (Hrows : col <> []) :
  forall again,
    convert_date_columns_from_string_to_timestamp parse converted column_names
    <> Ok again.
Proof.
  intros again Hagain.
  destruct (convert_invariants parse column_names _ _ Hconverted)
    as [_ [_ [_ [_ [_ Hnamed_cols]]]]].
  destruct (Hnamed_cols Hdistinct n col Hnamed Hcol) as [col' [Hcol' Hcells]].
  assert (Hok : exists df', convert_date_columns_from_string_to_timestamp parse
                              converted column_names = Ok df') by eauto.
  apply (convert_succeeds_iff parse column_names Hdistinct) in Hok.
  rewrite Forall_forall in Hok.
  destruct (Hok n Hnamed) as [colx [Hcolx Hparse]].
  rewrite Hcol' in Hcolx. injection Hcolx as <-.
  destruct Hcells as [|c t cs ts [s [ns [_ [_ Ht]]]] _]; [contradiction|].
  inversion Hparse as [|? ? [t' [s' [ns' [Ht' _]]]] _]; subst.
  discriminate Ht'.
Qed.

(** The converted sample contribution cannot be converted again. *)
Lemma date_conversion_is_not_repeatable_witness :
  exists converted,
    convert_date_columns_from_string_to_timestamp sample_parse
      sample_contribution_frame ["decision_date"] = Ok converted
    /\ forall again,
         convert_date_columns_from_string_to_timestamp sample_parse converted
           ["decision_date"] <> Ok again.
Proof.
  eexists. split; [reflexivity|].
  apply (date_conversion_is_not_repeatable sample_parse
           sample_contribution_frame _ ["decision_date"] "decision_date"
           [CJson (JStr "2014-01-01")]).
  - repeat constructor. intros [].
  - reflexivity.
  - now left.
  - reflexivity.
  - discriminate.
Defined.

(** X6. A result without an expected date column makes the entity fetch
    raise [KeyError] for that column: the appeal fetch for [start_date]
    whatever the table, the contribution fetch for [decision_date] and the
    project fetch for [end_date] when the table is not empty.  In general
    the normalizer never succeeds when one of the named columns is
    missing. *)
Theorem missing_date_column_raises
  (parse : string -> option Z) (service : remote) (url : string)
  (df : DataFrame)
  (Hfetch : fst (fetch_json_as_dataframe_with_id url service) = Ok df) :
  (~ In (LStr "start_date") (columns df) ->
   fetch_appeals_json_as_dataframe_given_url parse url service
   = (Raise (KeyError (LStr "start_date")), [url]))
  /\ (DF.empty df = false -> ~ In (LStr "decision_date") (columns df) ->
      fetch_contributions_json_as_dataframe_given_url parse url service
      = (Raise (KeyError (LStr "decision_date")), [url]))
  /\ (forall appeal_id a,
        py_str appeal_id = Ok a ->
        url = build_json_url ("Project/appeal/" ++ a) ->
        DF.empty df = false -> ~ In (LStr "end_date") (columns df) ->
        fetch_projects_json_for_appeal_as_dataframe parse appeal_id service
        = (Raise (KeyError (LStr "end_date")), [url]))
  /\ (forall column_names n,
        In n column_names -> ~ In (LStr n) (columns df) ->
        forall converted,
          convert_date_columns_from_string_to_timestamp parse df column_names
          <> Ok converted).
Proof.
  assert (Hfirst : forall n names, ~ In (LStr n) (columns df) ->
            convert_date_columns_from_string_to_timestamp parse df (n :: names)
            = Raise (KeyError (LStr n))).
  { intros n names Habsent.
    cbn [convert_date_columns_from_string_to_timestamp]. unfold DF.getitem.
    now rewrite (get_column_absent _ _ Habsent). }
  split; [|split; [|split]].
  - intro Habsent. rewrite (fetch_appeals_run parse service url df Hfetch).
    now rewrite Hfirst.
  - intros Hrows Habsent.
    rewrite (fetch_contributions_run parse service url df Hfetch), Hrows.
    cbn [negb]. now rewrite Hfirst.
  - intros appeal_id a Ha -> Hrows Habsent.
    rewrite (fetch_projects_run parse service appeal_id a df Ha Hfetch), Hrows.
    cbn [negb]. now rewrite Hfirst.
  - intros names n Hn Habsent.
    exact (convert_needs_every_column parse n names Hn df Habsent).
Qed.

(** Sectors have no dates: reading them as appeals raises. *)
Lemma missing_date_column_raises_witness :
  fetch_appeals_json_as_dataframe_given_url sample_parse
    (build_json_url "Sector") sample_api
  = (Raise (KeyError (LStr "start_date")), [build_json_url "Sector"]).
Proof.
  eapply (proj1 (missing_date_column_raises sample_parse sample_api
                   (build_json_url "Sector") _ eq_refl)).
  intro H. cbv in H. destruct H as [H | []]. discriminate H.
Defined.

(** ** Endpoints *)

Lemma trace_after_pure {A B} (r : result A) (k : A -> F B) (service : remote) :
  snd (fbind (flift r) k service)
  = match r with
    | Ok a => snd (k a service)
    | Raise _ => []
    end.
Proof.
  unfold fbind, flift. destruct r as [a|e]; [|reflexivity].
  now destruct (k a service).
Qed.

Lemma trace_after_read {B} (url : string) (k : DataFrame -> F B)
  (service : remote) :
  (forall df, snd (k df service) = []) ->
  snd (fbind (fetch_json_as_dataframe url) k service) = [url].
Proof.
  intro Hk. unfold fbind. rewrite fetch_json_as_dataframe_run.
  destruct (rbind (service url) pd.read_json_body) as [df|e]; [|reflexivity].
  specialize (Hk df). destruct (k df service) as [r t]. cbn [snd] in *.
  now subst t.
Qed.

Lemma trace_after_fetch_with_id {B} (url : string) (k : DataFrame -> F B)
  (service : remote) :
  (forall df, snd (k df service) = []) ->
  snd (fbind (fetch_json_as_dataframe_with_id url) k service) = [url].
Proof.
  intro Hk. unfold fbind.
  pose proof (fetch_with_id_trace service url) as Ht.
  destruct (fetch_json_as_dataframe_with_id url service) as [[df|e] t];
    cbn [snd] in Ht; subst t; [|reflexivity].
  specialize (Hk df). destruct (k df service) as [r t]. cbn [snd] in *.
  now subst t.
Qed.

Lemma appeals_given_url_trace
  (parse : string -> option Z) (url : string) (service : remote) :
  snd (fetch_appeals_json_as_dataframe_given_url parse url service) = [url].
Proof.
  unfold fetch_appeals_json_as_dataframe_given_url.
  apply trace_after_fetch_with_id. reflexivity.
Qed.

Lemma contributions_given_url_trace
  (parse : string -> option Z) (url : string) (service : remote) :
  snd (fetch_contributions_json_as_dataframe_given_url parse url service)
  = [url].
Proof.
  unfold fetch_contributions_json_as_dataframe_given_url.
  apply trace_after_fetch_with_id. intro df.
  now destruct (negb (DF.empty df)).
Qed.

Lemma grouping_trace
  (middle_part : string) (z : Z) (grouping alias : option string)
  (service : remote) :
  snd (fetch_grouping_type_json_for_appeal_as_dataframe middle_part
         (CJson (JNum z)) grouping alias service)
  = [match truthy grouping with
     | Some g =>
         (build_json_url middle_part ++ "?Appeal=" ++ decimal z)
           ++ "&GroupBy=" ++ g
     | None => build_json_url middle_part ++ "?Appeal=" ++ decimal z
     end].
Proof.
  unfold fetch_grouping_type_json_for_appeal_as_dataframe.
  rewrite trace_after_pure. cbn [py_str]. fold (decimal z).
  apply trace_after_read. intro raw.
  rewrite trace_after_pure. destruct (DF.getattr "grouping" raw); [|reflexivity].
  rewrite trace_after_pure. destruct (pd.from_records a); [|reflexivity].
  now destruct (truthy alias).
Qed.

(** X7. Every fetch function issues exactly one GET request, whatever the
    response, and the URL is the fixed base, the entity path with the
    country or the decimal id appended as given, and [.json]; the grouping
    reports append [?Appeal=<id>] after the suffix and [&GroupBy=<dim>]
    only when a non-empty grouping is given. *)
Theorem every_fetch_issues_one_request
  (parse : string -> option Z) (service : remote) (z : Z)
  (country dimension : string) (alias : option string)
  (Hdimension : dimension <> "") :
  let id := CJson (JNum z) in
  let base := "http://fts.unocha.org/api/v1/" in
  snd (fetch_sectors_json_as_dataframe service) = [base ++ "Sector.json"]
  /\ snd (fetch_countries_json_as_dataframe service)
     = [base ++ "Country.json"]
  /\ snd (fetch_organizations_json_as_dataframe service)
     = [base ++ "Organization.json"]
  /\ snd (fetch_emergencies_json_for_country_as_dataframe country service)
     = [base ++ "Emergency/country/" ++ country ++ ".json"]
  /\ snd (fetch_emergencies_json_for_year_as_dataframe id service)
     = [base ++ "Emergency/year/" ++ decimal z ++ ".json"]
  /\ snd (fetch_appeals_json_for_country_as_dataframe parse country service)
     = [base ++ "Appeal/country/" ++ country ++ ".json"]
  /\ snd (fetch_appeals_json_for_year_as_dataframe parse id service)
     = [base ++ "Appeal/year/" ++ decimal z ++ ".json"]
  /\ snd (fetch_projects_json_for_appeal_as_dataframe parse id service)
     = [base ++ "Project/appeal/" ++ decimal z ++ ".json"]
  /\ snd (fetch_clusters_json_for_appeal_as_dataframe id service)
     = [base ++ "Cluster/appeal/" ++ decimal z ++ ".json"]
  /\ snd (fetch_contributions_json_for_appeal_as_dataframe parse id service)
     = [base ++ "Contribution/appeal/" ++ decimal z ++ ".json"]
  /\ snd (fetch_contributions_json_for_emergency_as_dataframe parse id service)
     = [base ++ "Contribution/emergency/" ++ decimal z ++ ".json"]
  /\ snd (fetch_funding_json_for_appeal_as_dataframe id None alias service)
     = [base ++ "funding.json?Appeal=" ++ decimal z]
  /\ snd (fetch_funding_json_for_appeal_as_dataframe id (Some "") alias service)
     = [base ++ "funding.json?Appeal=" ++ decimal z]
  /\ snd (fetch_funding_json_for_appeal_as_dataframe id (Some dimension) alias
            service)
     = [base ++ "funding.json?Appeal=" ++ decimal z ++ "&GroupBy=" ++ dimension]
  /\ snd (fetch_pledges_json_for_appeal_as_dataframe id (Some dimension) alias
            service)
     = [base ++ "pledges.json?Appeal=" ++ decimal z ++ "&GroupBy=" ++ dimension].
Proof.
  intros id base. subst id.
  assert (Hd : truthy (Some dimension) = Some dimension)
    by (destruct dimension; [contradiction | reflexivity]).
  repeat match goal with |- _ /\ _ => split end.
  - apply fetch_with_id_trace.
  - apply fetch_with_id_trace.
  - apply fetch_with_id_trace.
  - apply fetch_with_id_trace.
  - unfold fetch_emergencies_json_for_year_as_dataframe.
    rewrite trace_after_pure. apply fetch_with_id_trace.
  - apply appeals_given_url_trace.
  - unfold fetch_appeals_json_for_year_as_dataframe.
    rewrite trace_after_pure. apply appeals_given_url_trace.
  - unfold fetch_projects_json_for_appeal_as_dataframe.
    rewrite trace_after_pure. cbn [py_str].
    apply trace_after_fetch_with_id. intro df.
    now destruct (negb (DF.empty df)).
  - unfold fetch_clusters_json_for_appeal_as_dataframe.
    rewrite trace_after_pure. reflexivity.
  - unfold fetch_contributions_json_for_appeal_as_dataframe.
    rewrite trace_after_pure. apply contributions_given_url_trace.
  - unfold fetch_contributions_json_for_emergency_as_dataframe.
    rewrite trace_after_pure. apply contributions_given_url_trace.
  - unfold fetch_funding_json_for_appeal_as_dataframe.
    now rewrite grouping_trace.
  - unfold fetch_funding_json_for_appeal_as_dataframe.
    now rewrite grouping_trace.
  - unfold fetch_funding_json_for_appeal_as_dataframe.
    rewrite grouping_trace, Hd. reflexivity.
  - unfold fetch_pledges_json_for_appeal_as_dataframe.
    rewrite grouping_trace, Hd. reflexivity.
Qed.

(** The requests for appeal 942 and for Chad. *)
Lemma every_fetch_issues_one_request_witness :
  snd (fetch_projects_json_for_appeal_as_dataframe sample_parse
         (CJson (JNum 942)) sample_api)
  = ["http://fts.unocha.org/api/v1/Project/appeal/942.json"]
  /\ snd (fetch_funding_json_for_appeal_as_dataframe (CJson (JNum 942))
            (Some "Donor") (Some "donor") sample_api)
     = ["http://fts.unocha.org/api/v1/funding.json?Appeal=942&GroupBy=Donor"].
Proof.
  assert (Hd : "Donor" <> "") by discriminate.
  pose proof (every_fetch_issues_one_request sample_parse sample_api 942
                "Chad" "Donor" (Some "donor") Hd) as H.
  cbv zeta in H.
  destruct H as [_ [_ [_ [_ [_ [_ [_ [Hp [_ [_ [_ [_ [_ [Hf _]]]]]]]]]]]]]].
  split; [exact Hp | exact Hf].
Defined.

(** ** Grouping reports of any length *)

Lemma result_after {A B} (m : F A) (k : A -> F B) (service : remote) :
  fst (fbind m k service)
  = match fst (m service) with
    | Ok a => fst (k a service)
    | Raise e => Raise e
    end.
Proof.
  unfold fbind. destruct (m service) as [[a|e] t]; [|reflexivity].
  cbn [fst]. destruct (k a service). reflexivity.
Qed.

Lemma uniq_all_seen (seen l : list label) :
  (forall a, In a l -> label_mem a seen = true) -> uniq seen l = [].
Proof.
  induction l as [|x l IH]; intro H; [reflexivity|].
  cbn [uniq]. rewrite (H x (or_introl eq_refl)).
  apply IH. intros a Ha. apply H. now right.
Qed.

Lemma grouping_entries_as_dicts (entries : list (string * Z)) :
  rmap as_dict
    (map cell_of_json (map (fun e => JObj (grouping_entry e)) entries))
  = Ok (map grouping_entry entries).
Proof.
  induction entries as [|e entries IH]; [reflexivity|].
  cbn [map rmap as_dict cell_of_json rbind]. now rewrite IH.
Qed.

Lemma grouping_keys (entries : list (string * Z)) :
  entries <> [] ->
  uniq [] (flat_map (fun d => map (fun kv => LStr (fst kv)) d)
             (map grouping_entry entries))
  = [LStr "type"; LStr "amount"].
Proof.
  destruct entries as [|e entries]; [contradiction|]. intros _.
  cbn [map flat_map grouping_entry fst app].
  change (uniq [] (LStr "type" :: LStr "amount" :: ?l))
    with (LStr "type" :: LStr "amount"
            :: uniq [LStr "amount"; LStr "type"] l).
  rewrite uniq_all_seen; [reflexivity|].
  intros a Ha. apply in_flat_map in Ha. destruct Ha as [d [Hd Ha]].
  apply in_map_iff in Hd. destruct Hd as [x [<- _]].
  cbn in Ha. destruct Ha as [<- | [<- | []]]; reflexivity.
Qed.

Lemma grouping_dicts_frame (entries : list (string * Z)) :
  entries <> [] ->
  frame_of_dicts
    (map cell_of_json (map (fun e => JObj (grouping_entry e)) entries))
  = Ok (mkFrame None (range_index (List.length entries))
          [(LStr "type", map (fun e => CJson (JStr (fst e))) entries);
           (LStr "amount", map (fun e => CJson (JNum (snd e))) entries)]).
Proof.
  intro Hne. unfold frame_of_dicts.
  rewrite grouping_entries_as_dicts. cbn [rbind].
  rewrite (grouping_keys entries Hne). rewrite length_map.
  cbn [map]. rewrite !map_map. reflexivity.
Qed.

Lemma grouping_records_frame (entries : list (string * Z)) :
  entries <> [] ->
  pd.from_records
    (map cell_of_json (map (fun e => JObj (grouping_entry e)) entries))
  = Ok (mkFrame None (range_index (List.length entries))
          [(LStr "type", map (fun e => CJson (JStr (fst e))) entries);
           (LStr "amount", map (fun e => CJson (JNum (snd e))) entries)]).
Proof.
  intro Hne. rewrite <- (grouping_dicts_frame entries Hne).
  destruct entries as [|e rest]; [contradiction | reflexivity].
Qed.

Lemma grouping_response_frame (entries : list (string * Z)) :
  pd.read_json_body (grouping_response entries)
  = Ok (mkFrame None (range_index (List.length entries))
          [(LStr "grouping",
            map cell_of_json
              (map (fun e => JObj (grouping_entry e)) entries))]).
Proof.
  unfold grouping_response, pd.read_json_body, frame_of_dict.
  cbn [map fst uniq label_mem existsb rmap dict_get dict_column_of rbind snd
       first_some cells_length forallb].
  change (String.eqb "grouping" "grouping") with true. cbv iota.
  cbn [rbind dict_column_of rmap map snd fst first_some cells_length forallb].
  rewrite !length_map, Nat.eqb_refl. reflexivity.
Qed.

Lemma grouping_values (entries : list (string * Z)) :
  DF.getattr "grouping"
    (mkFrame None (range_index (List.length entries))
       [(LStr "grouping",
         map cell_of_json (map (fun e => JObj (grouping_entry e)) entries))])
  = Ok (map cell_of_json (map (fun e => JObj (grouping_entry e)) entries)).
Proof. reflexivity. Qed.

Lemma grouping_fetch_steps
  (middle_part : string) (z : Z) (grouping alias : option string)
  (service : remote) (raw : DataFrame) :
  rbind (service (grouping_url middle_part z grouping)) pd.read_json_body
  = Ok raw ->
  fst (fetch_grouping_type_json_for_appeal_as_dataframe middle_part
         (CJson (JNum z)) grouping alias service)
  = rbind (DF.getattr "grouping" raw) (fun values =>
    rbind (pd.from_records values) (fun processed_frame =>
      match truthy alias with
      | Some alias =>
          DF.set_index (LStr alias)
            (DF.rename [(LStr "type", LStr alias);
                        (LStr "amount", LStr middle_part)] processed_frame)
      | None => Ok processed_frame
      end)).
Proof.
  intro Hraw. unfold fetch_grouping_type_json_for_appeal_as_dataframe.
  rewrite result_after. cbn [flift fst py_str]. fold (decimal z).
  cbv zeta. fold (grouping_url middle_part z grouping).
  rewrite result_after, fetch_json_as_dataframe_run. cbn [fst].
  rewrite Hraw. rewrite result_after. cbn [flift fst].
  destruct (DF.getattr "grouping" raw) as [values|e]; [|reflexivity].
  cbn [rbind]. rewrite result_after. cbn [flift fst].
  destruct (pd.from_records values) as [processed|e]; [|reflexivity].
  cbn [rbind]. now destruct (truthy alias).
Qed.

(** X8. A grouping report is flattened into one row per entry, in order.
    When the response object lists n >= 1 [{type, amount}] entries under
    ["grouping"], the fetch without alias returns n rows labelled by
    position with the columns [type] and [amount]; with an alias (non-empty
    and different from the resource label) it returns n rows indexed by
    the types under the alias name, with a single column, named after the
    resource, that holds the amounts. *)
Theorem grouping_report_has_one_row_per_entry
  (service : remote) (middle_part alias : string) (z : Z)
  (grouping : option string) (entries : list (string * Z))
  (Hentries : entries <> [])
  (Halias : alias <> "") (Hdistinct : alias <> middle_part)
  (Hbody : service (grouping_url middle_part z grouping)
           = Ok (grouping_response entries)) :
  fst (fetch_grouping_type_json_for_appeal_as_dataframe middle_part
         (CJson (JNum z)) grouping None service)
  = Ok (mkFrame None (range_index (List.length entries))
          [(LStr "type", map (fun e => CJson (JStr (fst e))) entries);
           (LStr "amount", map (fun e => CJson (JNum (snd e))) entries)])
  /\ fst (fetch_grouping_type_json_for_appeal_as_dataframe middle_part
            (CJson (JNum z)) grouping (Some alias) service)
     = Ok (mkFrame (Some (LStr alias))
             (map (fun e => CJson (JStr (fst e))) entries)
             [(LStr middle_part,
               map (fun e => CJson (JNum (snd e))) entries)]).
Proof.
  assert (Hraw : rbind (service (grouping_url middle_part z grouping))
                   pd.read_json_body
                 = Ok (mkFrame None (range_index (List.length entries))
                         [(LStr "grouping",
                           map cell_of_json
                             (map (fun e => JObj (grouping_entry e)) entries))]))
    by (rewrite Hbody; apply grouping_response_frame).
  split.
  - rewrite (grouping_fetch_steps _ _ _ _ _ _ Hraw), grouping_values.
    cbn [rbind]. now rewrite (grouping_records_frame entries Hentries).
  - rewrite (grouping_fetch_steps _ _ _ _ _ _ Hraw), grouping_values.
    cbn [rbind]. rewrite (grouping_records_frame entries Hentries).
    cbn [rbind].
    assert (Ht : truthy (Some alias) = Some alias)
      by (destruct alias; [contradiction | reflexivity]).
    rewrite Ht. unfold DF.rename, DF.set_index, DF.get_column.
    cbn [data map fst snd DF.renamed index index_name].
    change (label_eqb (LStr "type") (LStr "type")) with true.
    change (label_eqb (LStr "amount") (LStr "type")) with false.
    change (label_eqb (LStr "amount") (LStr "amount")) with true.
    cbv iota. cbn [find fst]. rewrite label_eqb_refl.
    cbn [option_map snd filter fst]. rewrite label_eqb_refl.
    assert (Hneq : label_eqb (LStr alias) (LStr middle_part) = false)
      by (apply label_eqb_neq; congruence).
    rewrite Hneq. reflexivity.
Qed.

(** Two pledges for appeal 942, by donor. *)
Lemma grouping_report_has_one_row_per_entry_witness :
  fst (fetch_pledges_json_for_appeal_as_dataframe (CJson (JNum 942))
         (Some "Donor") (Some "donor")
         (fun url =>
            if String.eqb url (grouping_url "pledges" 942 (Some "Donor"))
            then Ok (grouping_response [("A", 5%Z); ("B", 7%Z)])
            else Raise (URLError url)))
  = Ok (mkFrame (Some (LStr "donor")) [CJson (JStr "A"); CJson (JStr "B")]
          [(LStr "pledges", [CJson (JNum 5); CJson (JNum 7)])]).
Proof.
  apply (proj2 (grouping_report_has_one_row_per_entry _ "pledges" "donor" 942
                  (Some "Donor") [("A", 5%Z); ("B", 7%Z)]
                  ltac:(discriminate) ltac:(discriminate)
                  ltac:(discriminate) eq_refl)).
Defined.

(** X9. Edge cases of the grouping reports.  A response without a
    ["grouping"] field (the empty array, for one) raises [AttributeError],
    with or without alias.  A response whose ["grouping"] list is empty
    gives the empty table without alias, but with an alias it raises
    [KeyError]: there is no column to index by. *)
Theorem grouping_report_edge_cases
  (service : remote) (middle_part : string) (z : Z)
  (grouping alias : option string) :
  (forall raw,
      rbind (service (grouping_url middle_part z grouping)) pd.read_json_body
      = Ok raw ->
      ~ In (LStr "grouping") (columns raw) ->
      fst (fetch_grouping_type_json_for_appeal_as_dataframe middle_part
             (CJson (JNum z)) grouping alias service)
      = Raise (AttributeError "grouping"))
  /\ (service (grouping_url middle_part z grouping) = Ok (JArr []) ->
      fst (fetch_grouping_type_json_for_appeal_as_dataframe middle_part
             (CJson (JNum z)) grouping alias service)
      = Raise (AttributeError "grouping"))
  /\ (service (grouping_url middle_part z grouping) = Ok (grouping_response [])
      ->
      fst (fetch_grouping_type_json_for_appeal_as_dataframe middle_part
             (CJson (JNum z)) grouping alias service)
      = match truthy alias with
        | Some a => Raise (KeyError (LStr a))
        | None => Ok empty_frame
        end).
Proof.
  assert (Hmissing : forall raw,
            rbind (service (grouping_url middle_part z grouping))
              pd.read_json_body = Ok raw ->
            ~ In (LStr "grouping") (columns raw) ->
            fst (fetch_grouping_type_json_for_appeal_as_dataframe middle_part
                   (CJson (JNum z)) grouping alias service)
            = Raise (AttributeError "grouping")).
  { intros raw Hraw Habsent.
    rewrite (grouping_fetch_steps _ _ _ _ _ _ Hraw). unfold DF.getattr.
    now rewrite (get_column_absent _ _ Habsent). }
  split; [exact Hmissing|]. split.
  - intro Hbody. apply (Hmissing empty_frame); [now rewrite Hbody|].
    intros [].
  - intro Hbody.
    rewrite (grouping_fetch_steps _ _ _ _ _ (mkFrame None [] [(LStr "grouping", [])])).
    + now destruct (truthy alias).
    + now rewrite Hbody.
Qed.

(** The funding report of appeal 942 when the API answers with an empty
    array, and when it answers with an empty grouping list. *)
Lemma grouping_report_edge_cases_witness :
  fst (fetch_funding_json_for_appeal_as_dataframe (CJson (JNum 942))
         (Some "Donor") (Some "donor") (funding_api (JArr [])))
  = Raise (AttributeError "grouping")
  /\ fst (fetch_funding_json_for_appeal_as_dataframe (CJson (JNum 942))
            (Some "Donor") (Some "donor")
            (funding_api (grouping_response [])))
     = Raise (KeyError (LStr "donor")).
Proof.
  split.
  - apply (proj1 (proj2 (grouping_report_edge_cases (funding_api (JArr []))
                           "funding" 942 (Some "Donor") (Some "donor")))).
    reflexivity.
  - apply (proj2 (proj2 (grouping_report_edge_cases
                           (funding_api (grouping_response []))
                           "funding" 942 (Some "Donor") (Some "donor")))).
    reflexivity.
Defined.

(** ** CSV paths *)

Lemma append_cancel_l (p a b : string) : p ++ a = p ++ b -> a = b.
Proof.
  induction p as [|c p IH]; cbn [append]; intro H; [exact H|].
  injection H as H. now apply IH.
Qed.

Lemma chars_injective (a b : string) :
  list_ascii_of_string a = list_ascii_of_string b -> a = b.
Proof.
  intro H. rewrite <- (string_of_list_ascii_of_string a),
             <- (string_of_list_ascii_of_string b). now rewrite H.
Qed.

Lemma append_cancel_r (a b s : string) : a ++ s = b ++ s -> a = b.
Proof.
  intro H. apply chars_injective.
  apply (f_equal list_ascii_of_string) in H.
  rewrite !chars_of_append in H. now apply app_inv_tail in H.
Qed.

Lemma join_file_name (base name : string) :
  os_path.join base ("fts_" ++ name)
  = base ++ (if String.eqb base "" || endswith_slash base then "" else "/")
         ++ "fts_" ++ name.
Proof.
  unfold os_path.join. cbn [startswith_slash append is_slash].
  change (is_slash "f") with false. cbv iota.
  now destruct (String.eqb base "" || endswith_slash base).
Qed.

Lemma file_name_of (country : option string) :
  forall base object_type,
    build_csv_path base object_type country
    = os_path.join base
        ("fts_" ++ match truthy country with
                   | Some c => c ++ "_"
                   | None => ""
                   end ++ object_type ++ ".csv").
Proof.
  intros base object_type. unfold build_csv_path.
  destruct (truthy country) as [c|]; [|reflexivity].
  now rewrite !append_assoc.
Qed.

(** X10. The CSV path always lies below the base path: the file name
    starts with [fts_], so the join never discards the base (the base is a
    prefix of the path), and when the base is a directory name without
    trailing slash and neither country nor type contains a slash, the
    directory of the path is the base itself.  For a given base and
    country, different object types give different paths, so the
    producers of one directory never overwrite each other's files.  An
    empty country string is treated like no country. *)
Theorem build_csv_path_stays_below_base
  (base_path object_type : string) (country : option string) :
  String.prefix base_path (build_csv_path base_path object_type country) = true
  /\ (forall other_type,
        build_csv_path base_path object_type country
        = build_csv_path base_path other_type country ->
        object_type = other_type)
  /\ build_csv_path base_path object_type (Some "")
     = build_csv_path base_path object_type None
  /\ (base_path <> "" -> endswith_slash base_path = false ->
      has_slash object_type = false ->
      (forall c, country = Some c -> has_slash c = false) ->
      os_path.dirname (build_csv_path base_path object_type country)
      = base_path).
Proof.
  pose proof (file_name_of country) as Hname.
  split; [|split; [|split]].
  - rewrite Hname, join_file_name. apply prefix_append.
  - intros other_type H.
    rewrite !Hname, !join_file_name in H.
    apply append_cancel_l in H. apply append_cancel_l in H.
    cbn [append] in H. injection H as H.
    apply append_cancel_l in H. now apply append_cancel_r in H.
  - reflexivity.
  - intros Hbase Hend Htype Hcountry.
    assert (Hfile : exists name,
              build_csv_path base_path object_type country
              = os_path.join base_path name /\ has_slash name = false).
    { assert (Htail : has_slash (object_type ++ ".csv") = false)
        by now rewrite has_slash_append, Htype.
      assert (Hplain : has_slash ("fts_" ++ object_type ++ ".csv") = false)
        by exact Htail.
      unfold build_csv_path. destruct country as [c|].
      - destruct c as [|x c]; cbn [truthy].
        + exists ("fts_" ++ object_type ++ ".csv"). now split.
        + exists ("fts_" ++ String x c ++ "_" ++ object_type ++ ".csv").
          split; [reflexivity|].
          apply country_file_name_has_no_slash; [now apply Hcountry|].
          exact Htail.
      - exists ("fts_" ++ object_type ++ ".csv"). now split. }
    destruct Hfile as [name [-> Hslash]].
    rewrite (join_into_directory _ _ Hbase Hend Hslash).
    now apply dirname_of_child.
Qed.

(** The appeal file of South Sudan lies directly in [/tmp]. *)
Lemma build_csv_path_stays_below_base_witness :
  os_path.dirname (build_csv_path "/tmp" "appeals" (Some "SSD")) = "/tmp".
Proof.
  apply (proj2 (proj2 (proj2 (build_csv_path_stays_below_base "/tmp" "appeals"
                                (Some "SSD"))))).
  - discriminate.
  - reflexivity.
  - reflexivity.
  - intros c H. injection H as <-. reflexivity.
Defined.

(** ** The producers, step by step *)

Lemma ensure_directory_world (d : string) (w : World) :
  file_at d (files w) = None ->
  ensure_directory d w
  = (Ok tt, mkWorld (api w) (requests w) (dirs_with d w) (files w) (stdout w)).
Proof.
  intro Hfile. unfold ensure_directory, mbind, os.path_exists, dirs_with.
  rewrite Hfile, orb_false_r. destruct (is_dir d w) eqn:E; cbn [negb].
  - unfold mret. now rewrite world_eta.
  - unfold os.makedirs. now rewrite E, Hfile.
Qed.

Lemma ensured_directory_exists (d : string) (w w' : World) :
  dirs w' = dirs_with d w -> is_dir d w' = true.
Proof.
  intro H. unfold dirs_with in H. destruct (is_dir d w) eqn:E.
  - unfold is_dir in *. now rewrite H.
  - unfold is_dir. rewrite H. cbn [existsb]. rewrite String.eqb_refl.
    apply orb_true_r.
Qed.

Lemma mmapM_fetch_fails {A B} (f : A -> F B) (pre : list A) :
  forall (rs : list B) (id : A) (post : list A) (e : exn) (w : World),
    Forall2 (fun x r => fst (f x (api w)) = Ok r) pre rs ->
    fst (f id (api w)) = Raise e ->
    mmapM (fun x => fts_queries (f x)) (pre ++ id :: post) w
    = (Raise e,
       mkWorld (api w)
         (requests w ++ flat_map (fun x => snd (f x (api w))) pre
                     ++ snd (f id (api w)))%list
         (dirs w) (files w) (stdout w)).
Proof.
  induction pre as [|x pre IH]; intros rs id post e w Hpre Hid;
    inversion Hpre; subst; cbn [app mmapM flat_map].
  - unfold mbind. now rewrite fts_queries_run, Hid.
  - unfold mbind. rewrite fts_queries_run.
    match goal with E : fst (f x (api w)) = Ok _ |- _ => rewrite E end.
    rewrite (IH l' id post e); [|assumption|assumption].
    cbn [api requests dirs files stdout]. now rewrite <- !app_assoc.
Qed.

(** ** The contribution producer *)

(** X11. Given the emergencies of the country and the contribution table
    fetched for each emergency id, at least one of them non-empty, the
    contribution producer succeeds: it requests the emergencies and then
    the contributions of every emergency id in index order, announces the
    file, and writes the concatenation of exactly the non-empty tables,
    rows in the order of those tables, one CSV data row per row. *)
Theorem produce_contributions_csv_concatenates_in_emergency_order
  (parse : string -> option Z) (output_dir country : string) (w : World)
  (emergencies : DataFrame) (tables : list DataFrame)
  (Hemergencies :
     fst (fetch_emergencies_json_for_country_as_dataframe country (api w))
     = Ok emergencies)
  (Hcontributions :
     Forall2 (fun id t =>
                fst (fetch_contributions_json_for_emergency_as_dataframe parse
                       id (api w)) = Ok t) (index emergencies) tables)
  (Hsome : filter_out_empty_dataframes tables <> [])
  (Hdir : writable (build_csv_path output_dir "contributions" (Some country)) w
          = true) :
  exists frame w',
    produce_contributions_csv_for_country parse output_dir country w
    = (Ok tt, w')
    /\ requests w'
       = (requests w
          ++ emergencies_url country
             :: map contribution_url (index emergencies))%list
    /\ stdout w'
       = (stdout w
          ++ [("Writing "
               ++ build_csv_path output_dir "contributions" (Some country))
              %string])%list
    /\ pd.concat (filter_out_empty_dataframes tables) = Ok frame
    /\ index frame = flat_map index (filter_out_empty_dataframes tables)
    /\ (forall l, In l (columns frame) ->
          DF.get_column l frame
          = Some (stacked_column l (filter_out_empty_dataframes tables)))
    /\ files w'
       = (build_csv_path output_dir "contributions" (Some country),
          csv_of_frame frame) :: files w
    /\ map (hd NaN) (csv_rows (csv_of_frame frame))
       = flat_map index (filter_out_empty_dataframes tables)
    /\ List.length (csv_rows (csv_of_frame frame))
       = list_sum (map nrows (filter_out_empty_dataframes tables)).
Proof.
  destruct (concat_of_some _ Hsome) as [frame Hframe].
  set (path := build_csv_path output_dir "contributions" (Some country)) in *.
  pose proof (collect_and_write_run
                (fetch_emergencies_json_for_country_as_dataframe country)
                (fetch_contributions_json_for_emergency_as_dataframe parse)
                path w emergencies tables Hemergencies Hcontributions) as Hrun.
  cbv zeta in Hrun. rewrite Hframe, Hdir in Hrun.
  rewrite fetch_emergencies_trace in Hrun.
  rewrite (traces_of_successful_fetches _ contribution_url (api w) _ tables
             (fetch_contributions_trace parse (api w)) Hcontributions) in Hrun.
  exists frame. eexists. split; [exact Hrun|].
  split; [reflexivity|]. split; [reflexivity|].
  split; [exact Hframe|].
  split; [exact (concat_index _ _ Hframe)|].
  split; [intros l Hl; exact (concat_column _ _ l Hframe Hl)|].
  split; [reflexivity|].
  split.
  { unfold csv_of_frame. cbn [csv_rows]. rewrite rows_of_first_cells.
    exact (concat_index _ _ Hframe). }
  unfold csv_of_frame. cbn [csv_rows]. rewrite rows_of_length.
  rewrite (concat_index _ _ Hframe). apply rows_of_concatenation.
Qed.

(** South Sudan: one emergency with two contributions. *)
Lemma produce_contributions_csv_concatenates_in_emergency_order_witness :
  exists w' csv,
    produce_contributions_csv_for_country sample_parse "/tmp" "SSD"
      sample_world = (Ok tt, w')
    /\ requests w'
       = [build_json_url "Emergency/country/SSD";
          build_json_url "Contribution/emergency/16001"]
    /\ file_at "/tmp/fts_SSD_contributions.csv" (files w') = Some csv
    /\ map (hd NaN) (csv_rows csv) = [CJson (JNum 9001); CJson (JNum 9002)].
Proof.
  edestruct (produce_contributions_csv_concatenates_in_emergency_order
               sample_parse "/tmp" "SSD" sample_world)
    as [frame [w' [Hrun [Hreq [_ [_ [_ [_ [Hfiles [Hrows _]]]]]]]]]].
  - reflexivity.
  - repeat constructor.
  - discriminate.
  - reflexivity.
  - exists w', (csv_of_frame frame). split; [exact Hrun|].
    split; [exact Hreq|]. split; [|exact Hrows].
    rewrite Hfiles. reflexivity.
Defined.

(** X12. The project producer stops at the first project fetch that
    fails: the exception of that fetch is raised, the appeals and the
    projects up to and including the failing one have been requested and
    no later one, and nothing is written or announced. *)
Theorem produce_projects_csv_stops_at_first_failure
  (parse : string -> option Z) (output_dir country : string) (w : World)
  (appeals : DataFrame) (before after : list cell) (failing : cell)
  (tables : list DataFrame) (e : exn)
  (Happeals :
     fst (fetch_appeals_json_for_country_as_dataframe parse country (api w))
     = Ok appeals)
  (Hids : index appeals = (before ++ failing :: after)%list)
  (Hbefore :
     Forall2 (fun id t =>
                fst (fetch_projects_json_for_appeal_as_dataframe parse id (api w))
                = Ok t) before tables)
  (Hfailing :
     fst (fetch_projects_json_for_appeal_as_dataframe parse failing (api w))
     = Raise e) :
  produce_projects_csv_for_country parse output_dir country w
  = (Raise e,
     mkWorld (api w)
       (requests w
        ++ appeals_url country :: map project_url before
        ++ snd (fetch_projects_json_for_appeal_as_dataframe parse failing
                  (api w)))%list
       (dirs w) (files w) (stdout w)).
Proof.
  unfold produce_projects_csv_for_country. cbv zeta.
  unfold mbind at 1. rewrite fts_queries_run, Happeals, fetch_appeals_trace.
  unfold mbind at 1. rewrite Hids.
  rewrite (mmapM_fetch_fails (fetch_projects_json_for_appeal_as_dataframe parse)
             before tables failing after e); [|exact Hbefore|exact Hfailing].
  cbn [api requests dirs files stdout].
  rewrite (traces_of_successful_fetches _ project_url (api w) _ tables
             (fetch_projects_trace parse (api w)) Hbefore).
  now rewrite <- !app_assoc.
Qed.

(** South Sudan when the API no longer answers for the projects of its
    second appeal. *)
Lemma produce_projects_csv_stops_at_first_failure_witness :
  produce_projects_csv_for_country sample_parse "/tmp" "SSD"
    (mkWorld (respond (firstn 6 sample_responses)) [] ["/tmp"] [] [])
  = (Raise (URLError (build_json_url "Project/appeal/943")),
     mkWorld (respond (firstn 6 sample_responses))
       [build_json_url "Appeal/country/SSD";
        build_json_url "Project/appeal/942";
        build_json_url "Project/appeal/943"]
       ["/tmp"] [] []).
Proof.
  erewrite (produce_projects_csv_stops_at_first_failure sample_parse "/tmp"
              "SSD" _ _ [CJson (JNum 942)] [] (CJson (JNum 943))).
  - reflexivity.
  - reflexivity.
  - reflexivity.
  - repeat constructor.
  - reflexivity.
Defined.

(** ** The global producer, run and run again *)

Lemma eqb_longer (d : string) (c : ascii) (s : string) :
  String.eqb d (d ++ String c s) = false.
Proof.
  apply String.eqb_neq. intro H.
  apply (f_equal String.length) in H. rewrite length_append in H.
  cbn [String.length] in H. lia.
Qed.

Lemma fetch_fails_in_producer {B}
  (f : F DataFrame) (k : DataFrame -> M B) (w : World) (e : exn) :
  fst (f (api w)) = Raise e ->
  mbind (fts_queries f) k w
  = (Raise e,
     mkWorld (api w) (requests w ++ snd (f (api w)))%list (dirs w) (files w)
       (stdout w)).
Proof. intro H. unfold mbind. now rewrite fts_queries_run, H. Qed.

Lemma produce_global_csvs_world
  (base : string) (w : World) (sectors countries organizations : DataFrame) :
  let output_dir := os_path.join_all base ["fts"; "global"] in
  fst (fetch_sectors_json_as_dataframe (api w)) = Ok sectors ->
  fst (fetch_countries_json_as_dataframe (api w)) = Ok countries ->
  fst (fetch_organizations_json_as_dataframe (api w)) = Ok organizations ->
  file_at output_dir (files w) = None ->
  produce_global_csvs base w
  = (Ok tt,
     written
       (written
          (written
             (mkWorld (api w) (requests w) (dirs_with output_dir w) (files w)
                (stdout w))
             [build_json_url "Sector"] (output_dir ++ "/fts_sectors.csv")
             sectors)
          [build_json_url "Country"] (output_dir ++ "/fts_countries.csv")
          countries)
       [build_json_url "Organization"]
       (output_dir ++ "/fts_organizations.csv") organizations).
Proof.
  intros output_dir Hs Hc Ho Hfile.
  assert (Hgood : output_dir <> "" /\ endswith_slash output_dir = false).
  { unfold output_dir, os_path.join_all. cbn [fold_left].
    apply join_keeps_last_component; [discriminate | reflexivity]. }
  destruct Hgood as [Hne Hend].
  pose (w1 := mkWorld (api w) (requests w) (dirs_with output_dir w) (files w)
                (stdout w)).
  pose (w2 := written w1 [build_json_url "Sector"]
                (output_dir ++ "/" ++ "fts_sectors.csv") sectors).
  pose (w3 := written w2 [build_json_url "Country"]
                (output_dir ++ "/" ++ "fts_countries.csv") countries).
  assert (Hdir : forall w', dirs w' = dirs_with output_dir w ->
                            is_dir output_dir w' = true)
    by (intros w'; apply ensured_directory_exists).
  assert (H1 : produce_sectors_csv output_dir w1 = (Ok tt, w2)).
  { exact (simple_producer_run fetch_sectors_json_as_dataframe output_dir
             "fts_sectors.csv" w1 sectors _ Hs (fetch_with_id_trace _ _)
             Hne Hend eq_refl (Hdir w1 eq_refl)). }
  assert (H2 : produce_countries_csv output_dir w2 = (Ok tt, w3)).
  { exact (simple_producer_run fetch_countries_json_as_dataframe output_dir
             "fts_countries.csv" w2 countries _ Hc (fetch_with_id_trace _ _)
             Hne Hend eq_refl (Hdir w2 eq_refl)). }
  unfold produce_global_csvs. cbv zeta. fold output_dir.
  unfold mbind. rewrite (ensure_directory_world _ _ Hfile). fold w1.
  rewrite H1, H2.
  exact (simple_producer_run fetch_organizations_json_as_dataframe output_dir
           "fts_organizations.csv" w3 organizations _ Ho
           (fetch_with_id_trace _ _) Hne Hend eq_refl (Hdir w3 eq_refl)).
Qed.

(** X13. The global producer does not roll back.  When the sectors can be
    fetched and the country fetch fails, the run ends with the exception of
    that fetch, the output directory has been created and the sector file
    has been written and announced; the organizations are never
    requested. *)
Theorem produce_global_csvs_leaves_partial_output
  (base : string) (w : World) (sectors : DataFrame) (e : exn) :
  let output_dir := os_path.join_all base ["fts"; "global"] in
  fst (fetch_sectors_json_as_dataframe (api w)) = Ok sectors ->
  fst (fetch_countries_json_as_dataframe (api w)) = Raise e ->
  file_at output_dir (files w) = None ->
  exists w',
    produce_global_csvs base w = (Raise e, w')
    /\ files w'
       = (output_dir ++ "/fts_sectors.csv", csv_of_frame sectors) :: files w
    /\ requests w'
       = (requests w ++ [build_json_url "Sector"; build_json_url "Country"])
         %list
    /\ stdout w'
       = (stdout w ++ [("Writing " ++ output_dir ++ "/fts_sectors.csv")%string])%list
    /\ is_dir output_dir w' = true.
Proof.
  intros output_dir Hs Hc Hfile.
  assert (Hgood : output_dir <> "" /\ endswith_slash output_dir = false).
  { unfold output_dir, os_path.join_all. cbn [fold_left].
    apply join_keeps_last_component; [discriminate | reflexivity]. }
  destruct Hgood as [Hne Hend].
  pose (w1 := mkWorld (api w) (requests w) (dirs_with output_dir w) (files w)
                (stdout w)).
  pose (w2 := written w1 [build_json_url "Sector"]
                (output_dir ++ "/" ++ "fts_sectors.csv") sectors).
  assert (H1 : produce_sectors_csv output_dir w1 = (Ok tt, w2)).
  { exact (simple_producer_run fetch_sectors_json_as_dataframe output_dir
             "fts_sectors.csv" w1 sectors _ Hs (fetch_with_id_trace _ _)
             Hne Hend eq_refl
             (ensured_directory_exists output_dir w w1 eq_refl)). }
  assert (H2 : produce_countries_csv output_dir w2
               = (Raise e,
                  mkWorld (api w2)
                    (requests w2
                     ++ snd (fetch_countries_json_as_dataframe (api w2)))%list
                    (dirs w2) (files w2) (stdout w2))).
  { exact (fetch_fails_in_producer fetch_countries_json_as_dataframe _ w2 e
             Hc). }
  eexists. split.
  - unfold produce_global_csvs. cbv zeta. fold output_dir.
    unfold mbind. rewrite (ensure_directory_world _ _ Hfile). fold w1.
    rewrite H1, H2. reflexivity.
  - cbn [files requests stdout written w2 w1 api].
    split; [reflexivity|]. split.
    { unfold fetch_countries_json_as_dataframe.
      rewrite fetch_with_id_trace. now rewrite <- app_assoc. }
    split; [reflexivity|].
    now apply (ensured_directory_exists output_dir w).
Qed.

(** An API that knows the sectors only. *)
Lemma produce_global_csvs_leaves_partial_output_witness :
  exists w',
    produce_global_csvs "/tmp"
      (mkWorld (respond (firstn 1 sample_responses)) [] ["/tmp"] [] [])
    = (Raise (URLError (build_json_url "Country")), w')
    /\ map fst (files w') = ["/tmp/fts/global/fts_sectors.csv"]
    /\ is_dir "/tmp/fts/global" w' = true.
Proof.
  edestruct (produce_global_csvs_leaves_partial_output "/tmp"
               (mkWorld (respond (firstn 1 sample_responses)) [] ["/tmp"] [] []))
    as [w' [Hrun [Hfiles [_ [_ Hdir]]]]].
  - reflexivity.
  - reflexivity.
  - reflexivity.
  - exists w'. split; [exact Hrun|]. split; [|exact Hdir].
    rewrite Hfiles. reflexivity.
Defined.

(** X14. The global producer can be run again.  After a successful run a
    second run against the same API succeeds as well: the output
    directory is found and not created a second time, and the three files
    are written over with the same tables, so every path holds what it
    held after the first run. *)
Theorem produce_global_csvs_can_be_rerun
  (base : string) (w : World) (sectors countries organizations : DataFrame) :
  let output_dir := os_path.join_all base ["fts"; "global"] in
  fst (fetch_sectors_json_as_dataframe (api w)) = Ok sectors ->
  fst (fetch_countries_json_as_dataframe (api w)) = Ok countries ->
  fst (fetch_organizations_json_as_dataframe (api w)) = Ok organizations ->
  file_at output_dir (files w) = None ->
  exists w1 w2,
    produce_global_csvs base w = (Ok tt, w1)
    /\ produce_global_csvs base w1 = (Ok tt, w2)
    /\ dirs w2 = dirs w1
    /\ (forall path, file_at path (files w2) = file_at path (files w1)).
Proof.
  intros output_dir Hs Hc Ho Hfile.
  pose proof (produce_global_csvs_world base w sectors countries organizations
                Hs Hc Ho Hfile) as Hfirst.
  cbv zeta in Hfirst. fold output_dir in Hfirst.
  eexists. eexists. split; [exact Hfirst|].
  match type of Hfirst with _ = (_, ?w1) =>
    assert (Hfile1 : file_at output_dir (files w1) = None)
  end.
  { cbn [files written file_at].
    change "/fts_organizations.csv" with (String "/" "fts_organizations.csv").
    change "/fts_countries.csv" with (String "/" "fts_countries.csv").
    change "/fts_sectors.csv" with (String "/" "fts_sectors.csv").
    now rewrite !eqb_longer. }
  match type of Hfirst with _ = (_, ?w1) =>
    pose proof (produce_global_csvs_world base w1 sectors countries
                  organizations Hs Hc Ho Hfile1) as Hsecond;
    assert (Hdirs : dirs_with output_dir w1 = dirs w1)
  end.
  { unfold dirs_with.
    rewrite (ensured_directory_exists output_dir w); reflexivity. }
  cbv zeta in Hsecond. fold output_dir in Hsecond.
  split; [exact Hsecond|]. split; [exact Hdirs|].
  intro path. cbn [files written file_at].
  destruct (String.eqb path (output_dir ++ "/fts_organizations.csv"));
    [reflexivity|].
  destruct (String.eqb path (output_dir ++ "/fts_countries.csv"));
    [reflexivity|].
  destruct (String.eqb path (output_dir ++ "/fts_sectors.csv")); reflexivity.
Qed.

(** The sample API, exported twice below [/tmp]. *)
Lemma produce_global_csvs_can_be_rerun_witness :
  exists w1 w2,
    produce_global_csvs "/tmp" sample_world = (Ok tt, w1)
    /\ produce_global_csvs "/tmp" w1 = (Ok tt, w2)
    /\ dirs w2 = dirs w1.
Proof.
  edestruct (produce_global_csvs_can_be_rerun "/tmp" sample_world)
    as [w1 [w2 [H1 [H2 [Hdirs _]]]]];
    [reflexivity | reflexivity | reflexivity | reflexivity |].
  now exists w1, w2.
Defined.

(** ** The country producer: requests and console *)

(** X15. A successful country export fetches the emergencies and the
    appeals twice each: once for their own file and once more to list the
    ids for the contributions and the projects.  The requests are, in
    order: emergencies, appeals, appeals again, the projects of every
    appeal, emergencies again, the contributions of every emergency; and
    the console shows one [Writing <path>] line per file, in the order
    emergencies, appeals, projects, contributions. *)
Theorem produce_csvs_for_country_requests_and_console
  (parse : string -> option Z) (base country : string) (w : World)
  (emergencies appeals : DataFrame)
  (project_tables : list DataFrame) (projects : DataFrame)
  (contribution_tables : list DataFrame) (contributions : DataFrame) :
  let output_dir := os_path.join_all base ["fts"; "per_country"; country] in
  country <> "" -> has_slash country = false ->
  fst (fetch_emergencies_json_for_country_as_dataframe country (api w))
  = Ok emergencies ->
  fst (fetch_appeals_json_for_country_as_dataframe parse country (api w))
  = Ok appeals ->
  Forall2 (fun id t =>
             fst (fetch_projects_json_for_appeal_as_dataframe parse id (api w))
             = Ok t) (index appeals) project_tables ->
  pd.concat (filter_out_empty_dataframes project_tables) = Ok projects ->
  Forall2 (fun id t =>
             fst (fetch_contributions_json_for_emergency_as_dataframe parse id
                    (api w)) = Ok t) (index emergencies) contribution_tables ->
  pd.concat (filter_out_empty_dataframes contribution_tables)
  = Ok contributions ->
  file_at output_dir (files w) = None ->
  exists w',
    produce_csvs_for_country parse base country w = (Ok tt, w')
    /\ requests w'
       = (requests w
          ++ [emergencies_url country; appeals_url country;
              appeals_url country]
          ++ map project_url (index appeals)
          ++ emergencies_url country
             :: map contribution_url (index emergencies))%list
    /\ stdout w'
       = (stdout w
          ++ map (fun object_type =>
                    ("Writing " ++ output_dir ++ "/fts_" ++ country ++ "_"
                     ++ object_type ++ ".csv")%string)
                 ["emergencies"; "appeals"; "projects"; "contributions"])%list.
Proof.
  intros output_dir Hcountry Hslash He Ha Hp Hprojects Hc Hcontributions Hfile.
  assert (Hgood : output_dir <> "" /\ endswith_slash output_dir = false).
  { unfold output_dir, os_path.join_all. cbn [fold_left].
    now apply join_keeps_last_component. }
  destruct Hgood as [Hne Hend].
  pose (w1 := mkWorld (api w) (requests w) (dirs_with output_dir w) (files w)
                (stdout w)).
  pose (w2 := written w1 [emergencies_url country]
                (output_dir ++ "/fts_" ++ country ++ "_emergencies.csv")
                emergencies).
  pose (w3 := written w2 [appeals_url country]
                (output_dir ++ "/fts_" ++ country ++ "_appeals.csv") appeals).
  pose (w4 := written w3
                (appeals_url country :: map project_url (index appeals))
                (output_dir ++ "/fts_" ++ country ++ "_projects.csv") projects).
  pose (w5 := written w4
                (emergencies_url country
                 :: map contribution_url (index emergencies))
                (output_dir ++ "/fts_" ++ country ++ "_contributions.csv")
                contributions).
  assert (Hdir : forall w', dirs w' = dirs_with output_dir w ->
                            is_dir output_dir w' = true)
    by (intros w'; apply ensured_directory_exists).
  assert (H1 : produce_emergencies_csv_for_country output_dir country w1
               = (Ok tt, w2)).
  { exact (produce_emergencies_in_directory output_dir country w1 emergencies
             Hcountry Hslash Hne Hend (Hdir w1 eq_refl) He). }
  assert (H2 : produce_appeals_csv_for_country parse output_dir country w2
               = (Ok tt, w3)).
  { exact (produce_appeals_in_directory parse output_dir country w2 appeals
             Hcountry Hslash Hne Hend (Hdir w2 eq_refl) Ha). }
  assert (H3 : produce_projects_csv_for_country parse output_dir country w3
               = (Ok tt, w4)).
  { exact (produce_projects_in_directory parse output_dir country w3 appeals
             project_tables projects Hcountry Hslash Hne Hend
             (Hdir w3 eq_refl) Ha Hp Hprojects). }
  assert (H4 : produce_contributions_csv_for_country parse output_dir country w4
               = (Ok tt, w5)).
  { exact (produce_contributions_in_directory parse output_dir country w4
             emergencies contribution_tables contributions Hcountry Hslash
             Hne Hend (Hdir w4 eq_refl) He Hc Hcontributions). }
  exists w5. split.
  - unfold produce_csvs_for_country. cbv zeta. fold output_dir.
    unfold mbind. rewrite (ensure_directory_world _ _ Hfile). fold w1.
    rewrite H1, H2, H3. exact H4.
  - split.
    + cbn [requests written w5 w4 w3 w2 w1]. rewrite <- !app_assoc.
      reflexivity.
    + cbn [stdout written w5 w4 w3 w2 w1 map]. rewrite <- !app_assoc.
      reflexivity.
Qed.

(** The seven requests and four lines of the export of South Sudan. *)
Lemma produce_csvs_for_country_requests_and_console_witness :
  exists w',
    produce_csvs_for_country sample_parse "/tmp" "SSD" sample_world
    = (Ok tt, w')
    /\ requests w'
       = [build_json_url "Emergency/country/SSD";
          build_json_url "Appeal/country/SSD";
          build_json_url "Appeal/country/SSD";
          build_json_url "Project/appeal/942";
          build_json_url "Project/appeal/943";
          build_json_url "Emergency/country/SSD";
          build_json_url "Contribution/emergency/16001"]
    /\ List.length (stdout w') = 4.
Proof.
  edestruct (produce_csvs_for_country_requests_and_console sample_parse "/tmp"
               "SSD" sample_world) as [w' [Hrun [Hreq Hout]]].
  - discriminate.
  - reflexivity.
  - reflexivity.
  - reflexivity.
  - repeat constructor.
  - reflexivity.
  - repeat constructor.
  - reflexivity.
  - reflexivity.
  - exists w'. split; [exact Hrun|]. split; [exact Hreq|].
    rewrite Hout. reflexivity.
Defined.

(** ** Directories *)

Lemma keeps_dirs_bind {A B} (m : M A) (k : A -> M B) :
  keeps_dirs m -> (forall a, keeps_dirs (k a)) -> keeps_dirs (mbind m k).
Proof.
  intros Hm Hk w. unfold mbind. specialize (Hm w).
  destruct (m w) as [[a|e] w']; cbn [snd] in *; [|exact Hm].
  now rewrite Hk.
Qed.

Lemma keeps_dirs_ret {A} (a : A) : keeps_dirs (mret a).
Proof. intro w. reflexivity. Qed.

Lemma keeps_dirs_fetch {A} (f : F A) : keeps_dirs (fts_queries f).
Proof. intro w. now rewrite fts_queries_run. Qed.

Lemma keeps_dirs_concat (frames : list DataFrame) :
  keeps_dirs (pd_concat frames).
Proof. intro w. reflexivity. Qed.

Lemma keeps_dirs_write (dataframe : DataFrame) (path : string) :
  keeps_dirs (write_dataframe_to_csv dataframe path).
Proof.
  intro w. unfold write_dataframe_to_csv, mbind, print, to_csv.
  destruct (writable path _); reflexivity.
Qed.

Lemma keeps_dirs_mmapM {A B} (f : A -> M B) (l : list A) :
  (forall x, keeps_dirs (f x)) -> keeps_dirs (mmapM f l).
Proof.
  intro Hf. induction l as [|x l IH]; cbn [mmapM].
  - apply keeps_dirs_ret.
  - apply keeps_dirs_bind; [apply Hf|]. intro y.
    apply keeps_dirs_bind; [exact IH|]. intro ys. apply keeps_dirs_ret.
Qed.

Lemma keeps_dirs_country_producers
  (parse : string -> option Z) (output_dir country : string) :
  keeps_dirs
    (mbind (produce_emergencies_csv_for_country output_dir country) (fun _ =>
     mbind (produce_appeals_csv_for_country parse output_dir country) (fun _ =>
     mbind (produce_projects_csv_for_country parse output_dir country) (fun _ =>
     produce_contributions_csv_for_country parse output_dir country)))).
Proof.
  unfold produce_emergencies_csv_for_country, produce_appeals_csv_for_country,
    produce_projects_csv_for_country, produce_contributions_csv_for_country.
  cbv zeta.
  repeat first
    [ apply keeps_dirs_write
    | apply keeps_dirs_fetch
    | apply keeps_dirs_concat
    | apply keeps_dirs_mmapM; intro
    | apply keeps_dirs_bind; [|intro] ].
Qed.

(** X16. A country name that starts with a slash takes the export out of
    the base directory: [os.path.join] drops everything before an absolute
    component, so the output directory is the country name itself,
    whatever the base, and that directory (with its missing ancestors) is
    what the run creates, however the fetches turn out. *)
Theorem country_with_leading_slash_leaves_the_base
  (parse : string -> option Z) (base country : string) (w : World)
  (Habsolute : startswith_slash country = true)
  (Hfile : file_at country (files w) = None) :
  os_path.join_all base ["fts"; "per_country"; country] = country
  /\ dirs (snd (produce_csvs_for_country parse base country w))
     = dirs_with country w
  /\ is_dir country (snd (produce_csvs_for_country parse base country w))
     = true.
Proof.
  assert (Hjoin : os_path.join_all base ["fts"; "per_country"; country]
                  = country).
  { unfold os_path.join_all. cbn [fold_left]. unfold os_path.join at 1.
    now rewrite Habsolute. }
  assert (Hdirs : dirs (snd (produce_csvs_for_country parse base country w))
                  = dirs_with country w).
  { unfold produce_csvs_for_country. cbv zeta. rewrite Hjoin.
    unfold mbind at 1. rewrite (ensure_directory_world _ _ Hfile).
    now rewrite (keeps_dirs_country_producers parse country country). }
  split; [exact Hjoin|]. split; [exact Hdirs|].
  now apply (ensured_directory_exists country w).
Qed.

(** Exporting the country [/srv] below [/tmp] creates [/srv]. *)
Lemma country_with_leading_slash_leaves_the_base_witness :
  dirs (snd (produce_csvs_for_country sample_parse "/tmp" "/srv" sample_world))
  = ["/srv"; "/tmp"].
Proof.
  rewrite (proj1 (proj2 (country_with_leading_slash_leaves_the_base
                           sample_parse "/tmp" "/srv" sample_world
                           eq_refl eq_refl))).
  reflexivity.
Defined.

(** X17. The single-table producers do not create their directory.  Called
    on an output directory that does not exist, the sector producer still
    performs its fetch and announces the file, then raises [IOError] for
    the path; no file is written.  The country and organization producers
    behave alike. *)
Theorem global_table_producers_need_their_directory
  (output_dir : string) (w : World)
  (sectors countries organizations : DataFrame)
  (Hname : output_dir <> "") (Hend : endswith_slash output_dir = false)
  (Hmissing : is_dir output_dir w = false) :
  let failed (middle_part object_type : string) :=
    (Raise (IOError (output_dir ++ "/fts_" ++ object_type ++ ".csv")),
     mkWorld (api w) (requests w ++ [build_json_url middle_part])%list
       (dirs w) (files w)
       (stdout w
        ++ [("Writing " ++ output_dir ++ "/fts_" ++ object_type ++ ".csv")
            %string])%list) in
  (fst (fetch_sectors_json_as_dataframe (api w)) = Ok sectors ->
   produce_sectors_csv output_dir w = failed "Sector" "sectors")
  /\ (fst (fetch_countries_json_as_dataframe (api w)) = Ok countries ->
      produce_countries_csv output_dir w = failed "Country" "countries")
  /\ (fst (fetch_organizations_json_as_dataframe (api w)) = Ok organizations ->
      produce_organizations_csv output_dir w
      = failed "Organization" "organizations").
Proof.
  assert (Hgeneric : forall (f : F DataFrame) (name : string) (df : DataFrame)
                            (url : string),
            has_slash name = false ->
            snd (f (api w)) = [url] ->
            fst (f (api w)) = Ok df ->
            mbind (fts_queries f)
              (fun x => write_dataframe_to_csv x (os_path.join output_dir name))
              w
            = (Raise (IOError (output_dir ++ "/" ++ name)),
               mkWorld (api w) (requests w ++ [url])%list (dirs w) (files w)
                 (stdout w ++ [("Writing " ++ output_dir ++ "/" ++ name)
                               %string])%list)).
  { intros f name df url Hslash Htrace Hf.
    unfold mbind at 1. rewrite fts_queries_run, Hf, Htrace.
    rewrite (join_into_directory _ _ Hname Hend Hslash).
    unfold write_dataframe_to_csv, mbind, print, to_csv, writable.
    rewrite (dirname_of_child _ _ Hname Hend Hslash).
    apply String.eqb_neq in Hname. rewrite Hname. cbn [orb].
    unfold is_dir in *. cbn [dirs]. now rewrite Hmissing. }
  intro failed. split; [|split]; intro Hf.
  - exact (Hgeneric fetch_sectors_json_as_dataframe "fts_sectors.csv" sectors
             _ eq_refl (fetch_with_id_trace _ _) Hf).
  - exact (Hgeneric fetch_countries_json_as_dataframe "fts_countries.csv"
             countries _ eq_refl (fetch_with_id_trace _ _) Hf).
  - exact (Hgeneric fetch_organizations_json_as_dataframe
             "fts_organizations.csv" organizations _ eq_refl
             (fetch_with_id_trace _ _) Hf).
Qed.

(** The sector producer asked to write into [/nowhere]. *)
Lemma global_table_producers_need_their_directory_witness :
  fst (produce_sectors_csv "/nowhere" sample_world)
  = Raise (IOError "/nowhere/fts_sectors.csv").
Proof.
  assert (Hname : "/nowhere" <> "") by discriminate.
  erewrite (proj1 (global_table_producers_need_their_directory "/nowhere"
                     sample_world _ empty_frame empty_frame Hname
                     eq_refl eq_refl)); reflexivity.
Defined.

(** ** Tables that have rows and still count as empty *)

Lemma id_records_as_dicts (ids : list Z) :
  rmap as_dict (map cell_of_json (map (fun i => JObj [("id", JNum i)]) ids))
  = Ok (map (fun i => [("id", JNum i)]) ids).
Proof.
  induction ids as [|i ids IH]; [reflexivity|].
  cbn [map rmap as_dict cell_of_json rbind]. now rewrite IH.
Qed.

Lemma id_records_keys (ids : list Z) :
  ids <> [] ->
  uniq [] (flat_map (fun d => map (fun kv => LStr (fst kv)) d)
             (map (fun i => [("id", JNum i)]) ids))
  = [LStr "id"].
Proof.
  destruct ids as [|i ids]; [contradiction|]. intros _.
  cbn [map flat_map fst app].
  change (uniq [] (LStr "id" :: ?l)) with (LStr "id" :: uniq [LStr "id"] l).
  rewrite uniq_all_seen; [reflexivity|].
  intros a Ha. apply in_flat_map in Ha. destruct Ha as [d [Hd Ha]].
  apply in_map_iff in Hd. destruct Hd as [x [<- _]].
  cbn in Ha. destruct Ha as [<- | []]. reflexivity.
Qed.

Lemma id_records_frame (ids : list Z) :
  ids <> [] ->
  pd.read_json_body (JArr (map (fun i => JObj [("id", JNum i)]) ids))
  = Ok (mkFrame None (range_index (List.length ids))
          [(LStr "id", map (fun i => CJson (JNum i)) ids)]).
Proof.
  intro Hne.
  assert (Hdicts : frame_of_dicts
                     (map cell_of_json
                        (map (fun i => JObj [("id", JNum i)]) ids))
                   = Ok (mkFrame None (range_index (List.length ids))
                           [(LStr "id", map (fun i => CJson (JNum i)) ids)])).
  { unfold frame_of_dicts. rewrite id_records_as_dicts. cbn [rbind].
    rewrite (id_records_keys ids Hne), length_map. cbn [map].
    rewrite map_map. reflexivity. }
  rewrite <- Hdicts. destruct ids as [|i ids]; [contradiction | reflexivity].
Qed.

(** X18. A table can have rows and still count as empty.  When every
    project record of an appeal carries nothing but its id, the project
    fetch returns a table with one row per record, indexed by the ids, but
    without any column: it is empty in the sense of [DataFrame.empty], so
    the date conversion is skipped (no [KeyError] for the missing date
    columns) and [filter_out_empty_dataframes] drops the table, rows and
    all. *)
Theorem id_only_project_records_count_as_empty
  (parse : string -> option Z) (service : remote) (appeal_id : cell)
  (a : string) (ids : list Z)
  (Hids : ids <> [])
  (Hstr : py_str appeal_id = Ok a)
  (Hbody : service (build_json_url ("Project/appeal/" ++ a))
           = Ok (JArr (map (fun i => JObj [("id", JNum i)]) ids))) :
  let table :=
    mkFrame (Some (LStr "id")) (map (fun i => CJson (JNum i)) ids) [] in
  fetch_projects_json_for_appeal_as_dataframe parse appeal_id service
  = (Ok table, [build_json_url ("Project/appeal/" ++ a)])
  /\ nrows table = List.length ids
  /\ DF.empty table = true
  /\ filter_out_empty_dataframes [table] = [].
Proof.
  intro table.
  assert (Hempty : DF.empty table = true).
  { unfold DF.empty, table. cbn [index data].
    destruct (map (fun i => CJson (JNum i)) ids); reflexivity. }
  split; [|split; [|split]].
  - assert (Hfetch : fst (fetch_json_as_dataframe_with_id
                            (build_json_url ("Project/appeal/" ++ a)) service)
                     = Ok table).
    { rewrite (fetch_with_id_run service _
                 (mkFrame None (range_index (List.length ids))
                    [(LStr "id", map (fun i => CJson (JNum i)) ids)])).
      - reflexivity.
      - rewrite Hbody. cbn [rbind]. now apply id_records_frame. }
    rewrite (fetch_projects_run parse service appeal_id a table Hstr Hfetch).
    now rewrite Hempty.
  - unfold nrows, table. cbn [index]. apply length_map.
  - exact Hempty.
  - unfold filter_out_empty_dataframes. cbn [filter]. now rewrite Hempty.
Qed.

(** An appeal whose three projects are known by id only. *)
Lemma id_only_project_records_count_as_empty_witness :
  nrows (mkFrame (Some (LStr "id"))
           (map (fun i => CJson (JNum i)) [501; 502; 503]%Z) []) = 3
  /\ fst (fetch_projects_json_for_appeal_as_dataframe sample_parse
            (CJson (JNum 7))
            (respond [("Project/appeal/7",
                       JArr (map (fun i => JObj [("id", JNum i)])
                               [501; 502; 503]%Z))]))
     = Ok (mkFrame (Some (LStr "id"))
             [CJson (JNum 501); CJson (JNum 502); CJson (JNum 503)] []).
Proof.
  assert (Hids : [501; 502; 503]%Z <> []) by discriminate.
  destruct (id_only_project_records_count_as_empty sample_parse
              (respond [("Project/appeal/7",
                         JArr (map (fun i => JObj [("id", JNum i)])
                                 [501; 502; 503]%Z))])
              (CJson (JNum 7)) "7" [501; 502; 503]%Z Hids eq_refl eq_refl)
    as [Hrun [Hrows _]].
  split; [exact Hrows|]. now rewrite Hrun.
Defined.

(** ** Entity fetches, end to end *)

Lemma fetch_with_id_shape
  (service : remote) (url : string) (df r : DataFrame) :
  rbind (service url) pd.read_json_body = Ok df ->
  fst (fetch_json_as_dataframe_with_id url service) = Ok r ->
  well_formed r /\ nrows r = nrows df
  /\ index_name r = (if label_mem (LStr "id") (columns df)
                     then Some (LStr "id") else None).
Proof.
  intros Hread Hr.
  assert (Hshape : well_formed df /\ index_name df = None).
  { destruct (service url) as [body|e]; cbn [rbind] in Hread; [|discriminate].
    exact (read_json_body_shape body df Hread). }
  destruct Hshape as [Hwf Hname].
  rewrite (fetch_with_id_run service url df Hread) in Hr. cbn [fst] in Hr.
  destruct (label_mem (LStr "id") (columns df)).
  - destruct (set_index_shape _ _ _ Hwf Hr) as [Hwf' [Hrows Hname']]. auto.
  - injection Hr as <-. auto.
Qed.

Lemma timestamps_after_parsing (parse : string -> option Z)
  (col col' : list cell) :
  Forall2 (parses_to parse) col col' ->
  Forall (fun c => exists ns, c = Timestamp ns) col'.
Proof.
  intro H. induction H as [|c t col col' [s [ns [_ [_ Ht]]]] _ IH];
    constructor; eauto.
Qed.

Lemma converted_columns_hold_timestamps
  (parse : string -> option Z) (names : list string) (df r : DataFrame) :
  NoDup names ->
  convert_date_columns_from_string_to_timestamp parse df names = Ok r ->
  Forall (fun n => exists col,
              DF.get_column (LStr n) r = Some col
              /\ Forall (fun c => exists ns, c = Timestamp ns) col) names.
Proof.
  intros Hnd Hconv.
  assert (Hok : exists r', convert_date_columns_from_string_to_timestamp parse
                             df names = Ok r') by eauto.
  apply (convert_succeeds_iff parse names Hnd) in Hok.
  destruct (convert_invariants parse names df r Hconv)
    as [_ [_ [_ [_ [_ Hnamed]]]]].
  rewrite Forall_forall in *. intros n Hn.
  destruct (Hok n Hn) as [col [Hcol _]].
  destruct (Hnamed Hnd n col Hn Hcol) as [col' [Hcol' Hcells]].
  exists col'. split; [exact Hcol'|].
  exact (timestamps_after_parsing parse col col' Hcells).
Qed.

(** X19. What a successful appeal or contribution fetch returns.  The
    table is well formed and has one row per row of the table read from
    the response; it is indexed by ["id"] exactly when the response has
    that column.  Each date column of the entity ([start_date],
    [end_date], [launch_date] for appeals; [decision_date] for a non-empty
    contribution table) is present and holds timestamps only. *)
Theorem entity_fetch_returns_a_dated_table
  (parse : string -> option Z) (service : remote) (url : string)
  (df : DataFrame)
  (Hread : rbind (service url) pd.read_json_body = Ok df) :
  let dated (names : list string) (r : DataFrame) :=
    Forall (fun n => exists col,
                DF.get_column (LStr n) r = Some col
                /\ Forall (fun c => exists ns, c = Timestamp ns) col) names in
  let shaped (r : DataFrame) :=
    well_formed r /\ nrows r = nrows df
    /\ index_name r = (if label_mem (LStr "id") (columns df)
                       then Some (LStr "id") else None) in
  (forall r,
      fst (fetch_appeals_json_as_dataframe_given_url parse url service) = Ok r ->
      shaped r /\ dated ["start_date"; "end_date"; "launch_date"] r)
  /\ (forall r,
        fst (fetch_contributions_json_as_dataframe_given_url parse url service)
        = Ok r ->
        shaped r /\ (DF.empty r = false -> dated ["decision_date"] r)).
Proof.
  intros dated shaped.
  assert (Hfetched : exists fetched,
            fst (fetch_json_as_dataframe_with_id url service) = Ok fetched).
  { rewrite (fetch_with_id_run service url df Hread). cbn [fst].
    destruct (label_mem (LStr "id") (columns df)) eqn:Hmem; [|eauto].
    apply label_mem_In in Hmem.
    destruct (get_column_present _ _ Hmem) as [values Hvalues].
    unfold DF.set_index. rewrite Hvalues. eauto. }
  destruct Hfetched as [fetched Hfetched].
  destruct (fetch_with_id_shape service url df fetched Hread Hfetched)
    as [Hwf [Hrows Hname]].
  assert (Hkept : forall names r,
            convert_date_columns_from_string_to_timestamp parse fetched names
            = Ok r -> shaped r).
  { intros names r Hconv.
    destruct (convert_invariants parse names fetched r Hconv)
      as [Hi [Hn [_ [Hwf' _]]]].
    unfold shaped, nrows. rewrite Hi, Hn. auto. }
  split; intros r Hr.
  - rewrite (fetch_appeals_run parse service url fetched Hfetched) in Hr.
    cbn [fst] in Hr. split; [exact (Hkept _ _ Hr)|].
    apply (converted_columns_hold_timestamps parse _ fetched r); [|exact Hr].
    repeat constructor; cbn; intuition discriminate.
  - rewrite (fetch_contributions_run parse service url fetched Hfetched) in Hr.
    cbn [fst] in Hr. destruct (DF.empty fetched) eqn:Hempty; cbn [negb] in Hr.
    + injection Hr as <-. split; [unfold shaped; auto|].
      intro H. congruence.
    + split; [exact (Hkept _ _ Hr)|]. intros _.
      apply (converted_columns_hold_timestamps parse _ fetched r); [|exact Hr].
      repeat constructor. intros [].
Qed.

(** The appeals of South Sudan: two rows, indexed by id, dated. *)
Lemma entity_fetch_returns_a_dated_table_witness :
  exists r,
    fst (fetch_appeals_json_as_dataframe_given_url sample_parse
           (appeals_url "SSD") sample_api) = Ok r
    /\ nrows r = 2
    /\ index_name r = Some (LStr "id")
    /\ exists col, DF.get_column (LStr "launch_date") r = Some col
                   /\ Forall (fun c => exists ns, c = Timestamp ns) col.
Proof.
  eexists. split; [reflexivity|].
  edestruct (entity_fetch_returns_a_dated_table sample_parse sample_api
               (appeals_url "SSD")) as [Happeals _]; [reflexivity|].
  edestruct Happeals as [[_ [Hrows Hname]] Hdated]; [reflexivity|].
  split; [exact Hrows|]. split; [exact Hname|].
  inversion Hdated as [|? ? _ Hrest]; subst.
  inversion Hrest as [|? ? _ Hlast]; subst.
  inversion Hlast as [|? ? Hlaunch _]; subst.
  exact Hlaunch.
Defined.
